(** * A to-do list manager: task store, mutations and display order

    Shallow embedding of [ctk_todo_app.py]: [load_tasks], [save_tasks] and
    the [TodoApp] methods [refresh_task_list], [add_task_event],
    [toggle_complete] and [remove_task].

    Conventions of the embedding.
    - Python objects that [json.load] can produce are the type [pyval];
      numbers are integers (a JSON number with a fraction or an exponent,
      which Python reads as a float, is not part of the value model).
    - Text is a [string] with one character per code point, covering
      U+0000 to U+00FF; whitespace and digits are classified as Python
      classifies those code points.
    - A Python dict is an association list in insertion order with unique
      keys.
    - Exceptions are the data type [exn]; code that can raise runs in the
      monad [M], which threads the program state and keeps the effects made
      before a raise, as Python does.
    - The [json] module is a parameter ([json_loads], [json_dumps]);
      [RefJson] is an executable instance of it, which reads back what it
      writes.  [datetime.now] is the sequence [clock] of its successive
      readings. *)

From Stdlib Require Import List String Ascii ZArith Bool Arith Lia.
From Stdlib Require Import Permutation Sorted.
Import ListNotations.
Local Open Scope string_scope.
Local Open Scope Z_scope.

(** ** Python values *)

#[local] Set Warnings "-register-all".

Inductive pyval : Type :=
| PNone
| PBool (b : bool)
| PInt (n : Z)
| PStr (s : string)
| PList (items : list pyval)
| PDict (items : list (string * pyval)).

Definition dict : Type := list (string * pyval).

(** [d.get(k)], as an option: the value of the first (only) entry of [k]. *)
Fixpoint dict_get (d : dict) (k : string) : option pyval :=
  match d with
  | [] => None
  | (k', v) :: d' => if String.eqb k k' then Some v else dict_get d' k
  end.

(** [k in d] *)
Definition dict_contains (d : dict) (k : string) : bool :=
  match dict_get d k with Some _ => true | None => false end.

(** [d.get(k, default)] *)
Definition dict_get_default (d : dict) (k : string) (default : pyval) : pyval :=
  match dict_get d k with Some v => v | None => default end.

(** [d.get(k)] as a Python value: [None] when the key is absent. *)
Definition dict_get_none (d : dict) (k : string) : pyval :=
  dict_get_default d k PNone.

(** [d[k] = v]: replaces the value in place, or appends a new entry. *)
Fixpoint dict_set (d : dict) (k : string) (v : pyval) : dict :=
  match d with
  | [] => [(k, v)]
  | (k', v') :: d' =>
      if String.eqb k k' then (k', v) :: d' else (k', v') :: dict_set d' k v
  end.

(** [d.setdefault(k, v)] *)
Definition dict_setdefault (d : dict) (k : string) (v : pyval) : dict :=
  if dict_contains d k then d else dict_set d k v.

(** Truth value of an object, as [not x] and [if x] use it. *)
Definition truthy (v : pyval) : bool :=
  match v with
  | PNone => false
  | PBool b => b
  | PInt n => negb (n =? 0)
  | PStr s => negb (String.eqb s "")
  | PList l => match l with [] => false | _ => true end
  | PDict l => match l with [] => false | _ => true end
  end.

(** [a == b].  [bool] is a subclass of [int], so [True == 1]; lists are
    compared element by element, dicts as unordered sets of entries. *)
Fixpoint py_eq (a b : pyval) {struct a} : bool :=
  match a, b with
  | PNone, PNone => true
  | PBool x, PBool y => Bool.eqb x y
  | PBool x, PInt y => Z.b2z x =? y
  | PInt x, PBool y => x =? Z.b2z y
  | PInt x, PInt y => x =? y
  | PStr x, PStr y => String.eqb x y
  | PList xs, PList ys =>
      (fix all2 (xs ys : list pyval) {struct xs} : bool :=
         match xs, ys with
         | [], [] => true
         | x :: xs', y :: ys' => py_eq x y && all2 xs' ys'
         | _, _ => false
         end) xs ys
  | PDict xs, PDict ys =>
      (List.length xs =? List.length ys)%nat &&
      (fix sub (xs : list (string * pyval)) : bool :=
         match xs with
         | [] => true
         | (k, v) :: xs' =>
             match dict_get ys k with
             | Some w => py_eq v w
             | None => false
             end && sub xs'
         end) xs
  | _, _ => false
  end.

(** ** Exceptions and the monad of the program *)

(** The exception classes the modelled operations raise.  Every one of them
    derives from [Exception]. *)
Inductive exn : Type :=
| JSONDecodeError
| UnicodeDecodeError
| ValueError
| OSError
| TypeError
| AttributeError
| KeyError
| RecursionError.

(** The classes named in [except] clauses. *)
Inductive exn_class : Type :=
| CJSONDecodeError
| CIOError
| CValueError
| CException.

(** [isinstance(e, c)]: [JSONDecodeError] and [UnicodeDecodeError] derive
    from [ValueError], and [IOError] is [OSError]. *)
Definition isinstance (e : exn) (c : exn_class) : bool :=
  match c, e with
  | CException, _ => true
  | CJSONDecodeError, JSONDecodeError => true
  | CIOError, OSError => true
  | CValueError, (ValueError | JSONDecodeError | UnicodeDecodeError) => true
  | _, _ => false
  end.

Inductive result (A : Type) : Type :=
| Ok (a : A)
| Raise (e : exn).
Arguments Ok {A} a.
Arguments Raise {A} e.

Definition result_bind {A B} (r : result A) (k : A -> result B) : result B :=
  match r with Ok a => k a | Raise e => Raise e end.

(** [mapM]: the results in order, or the first exception. *)
Fixpoint result_map {A B} (f : A -> result B) (l : list A) : result (list B) :=
  match l with
  | [] => Ok []
  | x :: l' =>
      result_bind (f x) (fun y =>
      result_bind (result_map f l') (fun ys => Ok (y :: ys)))
  end.

(** ** Text *)

(** [c.isspace()] on U+0000 to U+00FF; the regular expression class [\s]
    of a text pattern is the same set. *)
Definition is_space (c : ascii) : bool :=
  let n := nat_of_ascii c in
  ((9 <=? n) && (n <=? 13) || (28 <=? n) && (n <=? 32)
   || (n =? 133) || (n =? 160))%nat.

(** The regular expression class [\d]: on U+0000 to U+00FF the decimal
    digits are the ASCII ones. *)
Definition is_digit (c : ascii) : bool :=
  let n := nat_of_ascii c in ((48 <=? n) && (n <=? 57))%nat.

Definition digit_value (c : ascii) : Z := Z.of_nat (nat_of_ascii c) - 48.

Fixpoint lstrip (s : string) : string :=
  match s with
  | EmptyString => EmptyString
  | String c s' => if is_space c then lstrip s' else s
  end.

Fixpoint rstrip (s : string) : string :=
  match s with
  | EmptyString => EmptyString
  | String c s' =>
      match rstrip s' with
      | EmptyString => if is_space c then EmptyString else String c EmptyString
      | r => String c r
      end
  end.

(** [s.strip()] *)
Definition strip (s : string) : string := rstrip (lstrip s).

(** [int(s)] for a text of decimal digits with optional surrounding
    whitespace, which is all the date parser applies it to. *)
Definition int_of_text (s : string) : Z :=
  fold_left (fun acc c => if is_digit c then 10 * acc + digit_value c else acc)
            (list_ascii_of_string s) 0.

(** ** Dates *)

Record datetime : Type := mk_datetime {
  dt_year : Z; dt_month : Z; dt_day : Z;
  dt_hour : Z; dt_minute : Z; dt_second : Z
}.

Definition is_leap (y : Z) : bool :=
  ((y mod 4 =? 0) && negb (y mod 100 =? 0)) || (y mod 400 =? 0).

Definition days_in_month (y m : Z) : Z :=
  if m =? 2 then (if is_leap y then 29 else 28)
  else if (m =? 4) || (m =? 6) || (m =? 9) || (m =? 11) then 30
  else 31.

(** The values the [datetime] constructor accepts. *)
Definition valid_datetimeb (d : datetime) : bool :=
  (1 <=? dt_year d) && (dt_year d <=? 9999)
  && (1 <=? dt_month d) && (dt_month d <=? 12)
  && (1 <=? dt_day d) && (dt_day d <=? days_in_month (dt_year d) (dt_month d))
  && (0 <=? dt_hour d) && (dt_hour d <=? 23)
  && (0 <=? dt_minute d) && (dt_minute d <=? 59)
  && (0 <=? dt_second d) && (dt_second d <=? 59).

Definition valid_datetime (d : datetime) : Prop := valid_datetimeb d = true.

(** Lexicographic [<] on tuples of integers. *)
Fixpoint lex_ltb (a b : list Z) : bool :=
  match a, b with
  | x :: a', y :: b' => (x <? y) || ((x =? y) && lex_ltb a' b')
  | [], _ :: _ => true
  | _, [] => false
  end.

Definition dt_fields (d : datetime) : list Z :=
  [dt_year d; dt_month d; dt_day d; dt_hour d; dt_minute d; dt_second d].

(** [a < b] on naive datetimes. *)
Definition dt_ltb (a b : datetime) : bool := lex_ltb (dt_fields a) (dt_fields b).

Definition digit_char (n : Z) : ascii := ascii_of_nat (48 + Z.to_nat n).

Definition pad2 (n : Z) : string :=
  String (digit_char (n / 10)) (String (digit_char (n mod 10)) EmptyString).

Definition pad4 (n : Z) : string :=
  String (digit_char (n / 1000))
    (String (digit_char (n / 100 mod 10)) (pad2 (n mod 100))).

(** [d.strftime("%Y-%m-%d %H:%M:%S")], the year on four digits (the
    program formats the epoch and clock readings only). *)
Definition strftime (d : datetime) : string :=
  pad4 (dt_year d) ++ "-" ++ pad2 (dt_month d) ++ "-" ++ pad2 (dt_day d)
  ++ " " ++ pad2 (dt_hour d) ++ ":" ++ pad2 (dt_minute d) ++ ":"
  ++ pad2 (dt_second d).

(** *** The date parser

    [datetime.strptime(s, "%Y-%m-%d %H:%M:%S")] compiles the format to the
    regular expression
    [(\d\d\d\d)-(1[0-2]|0[1-9]|[1-9])-(3[01]|[12]\d|0[1-9]|[1-9]| [1-9])\s+(2[0-3]|[0-1]\d|\d):([0-5]\d|\d):(6[0-1]|[0-5]\d|\d)],
    matches it at the start of [s] (alternatives in order, with
    backtracking), rejects unconverted trailing text, and builds the
    datetime, which rejects impossible dates and seconds above 59. *)

Section Regex.
Context {R : Type}.

Definition charclass : Type := ascii -> bool.

(** A sequence of character classes, matched one character each. *)
Fixpoint match_seq (cs : list charclass) (s : string) : option (string * string) :=
  match cs with
  | [] => Some (EmptyString, s)
  | c :: cs' =>
      match s with
      | String a s' =>
          if c a then
            match match_seq cs' s' with
            | Some (t, r) => Some (String a t, r)
            | None => None
            end
          else None
      | EmptyString => None
      end
  end.

(** A group of alternatives followed by the rest of the pattern [k]: the
    first alternative for which the rest matches. *)
Fixpoint group (alts : list (list charclass)) (s : string)
         (k : string -> string -> option R) : option R :=
  match alts with
  | [] => None
  | a :: alts' =>
      match match_seq a s with
      | Some (t, r) =>
          match k t r with
          | Some x => Some x
          | None => group alts' s k
          end
      | None => group alts' s k
      end
  end.

Definition literal (c : ascii) (s : string) (k : string -> option R) : option R :=
  match s with
  | String a s' => if Ascii.eqb a c then k s' else None
  | EmptyString => None
  end.

(** [\s*], greedy. *)
Fixpoint spaces_star (s : string) (k : string -> option R) : option R :=
  match s with
  | String a s' =>
      if is_space a then
        match spaces_star s' k with
        | Some x => Some x
        | None => k s
        end
      else k s
  | EmptyString => k s
  end.

(** [\s+] *)
Definition spaces_plus (s : string) (k : string -> option R) : option R :=
  match s with
  | String a s' => if is_space a then spaces_star s' k else None
  | EmptyString => None
  end.
End Regex.

Definition between (lo hi : ascii) : charclass :=
  fun c => (nat_of_ascii lo <=? nat_of_ascii c)%nat
           && (nat_of_ascii c <=? nat_of_ascii hi)%nat.

Definition only (a : ascii) : charclass := fun c => Ascii.eqb c a.

(** The match groups of the pattern and the text after the match. *)
Record ts_match : Type := mk_ts_match {
  g_Y : string; g_m : string; g_d : string;
  g_H : string; g_M : string; g_S : string;
  g_rest : string
}.

Definition re_Y : list (list charclass) := [[is_digit; is_digit; is_digit; is_digit]].
Definition re_m : list (list charclass) :=
  [[only "1"; between "0" "2"]; [only "0"; between "1" "9"]; [between "1" "9"]].
Definition re_d : list (list charclass) :=
  [[only "3"; between "0" "1"]; [between "1" "2"; is_digit];
   [only "0"; between "1" "9"]; [between "1" "9"]; [only " "; between "1" "9"]].
Definition re_H : list (list charclass) :=
  [[only "2"; between "0" "3"]; [between "0" "1"; is_digit]; [is_digit]].
Definition re_M : list (list charclass) :=
  [[between "0" "5"; is_digit]; [is_digit]].
Definition re_S : list (list charclass) :=
  [[only "6"; between "0" "1"]; [between "0" "5"; is_digit]; [is_digit]].

Definition re_timestamp (s : string) : option ts_match :=
  group re_Y s (fun Y s =>
  literal "-" s (fun s =>
  group re_m s (fun m s =>
  literal "-" s (fun s =>
  group re_d s (fun d s =>
  spaces_plus s (fun s =>
  group re_H s (fun H s =>
  literal ":" s (fun s =>
  group re_M s (fun M s =>
  literal ":" s (fun s =>
  group re_S s (fun S s =>
  Some (mk_ts_match Y m d H M S s)))))))))))).

(** [datetime.strptime(v, "%Y-%m-%d %H:%M:%S")] *)
Definition strptime (v : pyval) : result datetime :=
  match v with
  | PStr s =>
      match re_timestamp s with
      | None => Raise ValueError
      | Some f =>
          if negb (String.eqb (g_rest f) "") then Raise ValueError
          else
            let d := mk_datetime (int_of_text (g_Y f)) (int_of_text (g_m f))
                       (int_of_text (g_d f)) (int_of_text (g_H f))
                       (int_of_text (g_M f)) (int_of_text (g_S f)) in
            if valid_datetimeb d then Ok d else Raise ValueError
      end
  | _ => Raise TypeError
  end.

Definition FMT_EPOCH : string := "1970-01-01 00:00:00".

(** ** Ordering of values and [sorted] *)

Definition as_int (v : pyval) : option Z :=
  match v with
  | PBool b => Some (Z.b2z b)
  | PInt n => Some n
  | _ => None
  end.

(** [a < b]: numbers with numbers, text with text (by code point), lists
    with lists (at the first position where they differ); [TypeError]
    otherwise. *)
Fixpoint py_lt (a b : pyval) {struct a} : result bool :=
  match a, b with
  | PBool x, _ =>
      match as_int b with Some y => Ok (Z.b2z x <? y) | None => Raise TypeError end
  | PInt x, _ =>
      match as_int b with Some y => Ok (x <? y) | None => Raise TypeError end
  | PStr x, PStr y => Ok (String.ltb x y)
  | PList xs, PList ys =>
      (fix first_diff (xs ys : list pyval) {struct xs} : result bool :=
         match xs, ys with
         | [], [] => Ok false
         | [], _ :: _ => Ok true
         | _ :: _, [] => Ok false
         | x :: xs', y :: ys' =>
             if py_eq x y then first_diff xs' ys' else py_lt x y
         end) xs ys
  | _, _ => Raise TypeError
  end.

(** [sorted(l, key=key)]: the keys are computed first, in list order; the
    sort is stable and uses [<] on keys only.  It is modelled by insertion
    from the right, which yields the order any stable sort yields when the
    comparisons succeed; a comparison that raises makes the sort raise. *)
Section Sorted.
Context {K A : Type} (lt : K -> K -> result bool).

Fixpoint insert_by (x : K * A) (l : list (K * A)) : result (list (K * A)) :=
  match l with
  | [] => Ok [x]
  | y :: l' =>
      result_bind (lt (fst y) (fst x)) (fun b =>
        if b then result_bind (insert_by x l') (fun r => Ok (y :: r))
        else Ok (x :: y :: l'))
  end.

Fixpoint sort_by (l : list (K * A)) : result (list (K * A)) :=
  match l with
  | [] => Ok []
  | x :: l' => result_bind (sort_by l') (insert_by x)
  end.

Definition sorted (key : A -> result K) (l : list A) : result (list A) :=
  result_bind
    (result_map (fun x => result_bind (key x) (fun k => Ok (k, x))) l)
    (fun kl => result_bind (sort_by kl) (fun r => Ok (map snd r))).
End Sorted.

(** ** Program state *)

(** What the program finds at a path: nothing, or a file of [size] bytes
    whose opening and reading as text gives [content] or raises. *)
Inductive file_state : Type :=
| Absent
| Present (size : nat) (content : result string).

(** The lines the program prints, by the statement that prints them. *)
Inductive message : Type :=
| WarnEmptyFile (filename : string)
| WarnFormat (filename : string)
| WarnTimestamp (description : pyval)
| ErrLoading (filename : string) (e : exn)
| ErrUnexpectedLoading (e : exn)
| ErrSaving (filename : string) (e : exn)
| ErrUnexpectedSaving (e : exn)
| ErrSorting
| MsgEmptyDescription
| WarnToggleNotFound (description : pyval)
| WarnRemoveNotFound (description : pyval)
| MsgSavingBeforeClosing.

(** Observable effects, in order. *)
Inductive event : Type :=
| Printed (m : message)
| Wrote (filename : string) (text : string)
| WriteFailed (filename : string) (e : exn).

Record state : Type := mk_state {
  tasks : list dict;              (* self.tasks *)
  task_entry : string;            (* text of self.task_entry *)
  shown : list dict;              (* tasks drawn in the list frame, in order *)
  fs : string -> file_state;      (* the files *)
  unwritable : string -> option exn; (* what opening a path for writing raises *)
  ticks : nat;                    (* clock readings taken so far *)
  trace : list event
}.

Definition set_tasks (l : list dict) (s : state) : state :=
  mk_state l (task_entry s) (shown s) (fs s) (unwritable s) (ticks s) (trace s).
Definition set_task_entry (e : string) (s : state) : state :=
  mk_state (tasks s) e (shown s) (fs s) (unwritable s) (ticks s) (trace s).
Definition set_shown (l : list dict) (s : state) : state :=
  mk_state (tasks s) (task_entry s) l (fs s) (unwritable s) (ticks s) (trace s).
Definition set_file (filename : string) (f : file_state) (s : state) : state :=
  mk_state (tasks s) (task_entry s) (shown s)
           (fun p => if String.eqb p filename then f else fs s p)
           (unwritable s) (ticks s) (trace s).
Definition tick (s : state) : state :=
  mk_state (tasks s) (task_entry s) (shown s) (fs s) (unwritable s)
           (S (ticks s)) (trace s).
Definition emit (e : event) (s : state) : state :=
  mk_state (tasks s) (task_entry s) (shown s) (fs s) (unwritable s) (ticks s)
           (trace s ++ [e]).

(** Computations that read and change the state and may raise; the state
    reached when an exception is raised is kept. *)
Definition M (A : Type) : Type := state -> result A * state.

Definition ret {A} (a : A) : M A := fun s => (Ok a, s).
Definition raise {A} (e : exn) : M A := fun s => (Raise e, s).
Definition bind {A B} (m : M A) (k : A -> M B) : M B :=
  fun s => match m s with
           | (Ok a, s') => k a s'
           | (Raise e, s') => (Raise e, s')
           end.
Definition lift {A} (r : result A) : M A := fun s => (r, s).
Definition gets {A} (f : state -> A) : M A := fun s => (Ok (f s), s).
Definition modify (f : state -> state) : M unit := fun s => (Ok tt, f s).
Definition print (m : message) : M unit := modify (emit (Printed m)).

Notation "x <- m ;; k" := (bind m (fun x => k))
  (at level 61, m at next level, right associativity).
Notation "m ;;; k" := (bind m (fun _ => k))
  (at level 61, right associativity).

(** [try: body except c1: h1 except c2: h2 ...]: the first clause whose
    class the exception is an instance of handles it. *)
Fixpoint handle {A} (hs : list (list exn_class * (exn -> M A))) (e : exn) : M A :=
  match hs with
  | [] => raise e
  | (cs, h) :: hs' => if existsb (isinstance e) cs then h e else handle hs' e
  end.

Definition try_except {A} (body : M A) (hs : list (list exn_class * (exn -> M A))) : M A :=
  fun s => match body s with
           | (Ok a, s') => (Ok a, s')
           | (Raise e, s') => handle hs e s'
           end.

(** A [for] loop that rebuilds the list it runs over, element by element. *)
Fixpoint for_each {A B} (f : A -> M B) (l : list A) : M (list B) :=
  match l with
  | [] => ret []
  | x :: l' => y <- f x ;; ys <- for_each f l' ;; ret (y :: ys)
  end.

(** ** The program *)

Definition TASKS_FILE : string := "tasks_gui.json".

Section Program.
(** [json.loads] on the text of a file and [json.dumps(v, indent=4)]. *)
Variable json_loads : string -> result pyval.
Variable json_dumps : pyval -> string.
(** [clock n] is what the [n]-th call of [datetime.now()] returns. *)
Variable clock : nat -> datetime.

(** [datetime.now().strftime("%Y-%m-%d %H:%M:%S")] *)
Definition now_text : M string :=
  n <- gets ticks ;; modify tick ;;; ret (strftime (clock n)).

(** [d[k]] *)
Definition getitem (d : dict) (k : string) : result pyval :=
  match dict_get d k with Some v => Ok v | None => Raise KeyError end.

(** The body of the loop of [load_tasks], on one element of the array;
    the result is the element as the loop leaves it. *)
Definition load_task (task : pyval) : M dict :=
  match task with
  | PDict d =>
      let d := dict_setdefault d "description" (PStr "No Description") in
      let d := dict_setdefault d "done" (PBool false) in
      if negb (dict_contains d "timestamp") then
        ret (dict_set d "timestamp"
               (PStr (strftime (mk_datetime 1970 1 1 0 0 0))))
      else
        try_except
          (v <- lift (getitem d "timestamp") ;;
           _ <- lift (strptime v) ;;
           ret d)
          [([CValueError], fun _ =>
              print (WarnTimestamp (dict_get_none d "description")) ;;;
              t <- now_text ;;
              ret (dict_set d "timestamp" (PStr t)))]
  | _ => raise AttributeError   (* no attribute 'setdefault' *)
  end.

(** The [try] block of [load_tasks]: open and read the file, decode it,
    check that it is a list and fix its elements up. *)
Definition load_body (filename : string) (content : result string)
  : M (list dict) :=
  text <- lift content ;;
  doc <- lift (json_loads text) ;;
  match doc with
  | PList items => for_each load_task items
  | _ => print (WarnFormat filename) ;;; ret []
  end.

Definition load_tasks (filename : string) : M (list dict) :=
  f <- gets (fun s => fs s filename) ;;
  match f with
  | Absent => ret []
  | Present size content =>
      if (size =? 0)%nat then
        print (WarnEmptyFile filename) ;;; ret []
      else
        try_except
          (load_body filename content)
          [([CJSONDecodeError; CIOError], fun e =>
              print (ErrLoading filename e) ;;; ret []);
           ([CException], fun e =>
              print (ErrUnexpectedLoading e) ;;; ret [])]
  end.

Definition save_tasks (l : list dict) (filename : string) : M unit :=
  try_except
    (w <- gets (fun s => unwritable s filename) ;;
     match w with
     | Some e => modify (emit (WriteFailed filename e)) ;;; raise e
     | None =>
         let text := json_dumps (PList (map PDict l)) in
         modify (set_file filename (Present (String.length text) (Ok text))) ;;;
         modify (emit (Wrote filename text))
     end)
    [([CIOError], fun e => print (ErrSaving filename e));
     ([CException], fun e => print (ErrUnexpectedSaving e))].

(** Sort keys of [refresh_task_list]. *)
Definition key_timestamp (t : dict) : result datetime :=
  strptime (dict_get_default t "timestamp" (PStr "1970-01-01 00:00:00")).

Definition key_done (t : dict) : result pyval :=
  Ok (dict_get_default t "done" (PBool false)).

Definition dt_lt (a b : datetime) : result bool := Ok (dt_ltb a b).

(** The order in which [refresh_task_list] draws a list of tasks. *)
Definition display_order (l : list dict) : M (list dict) :=
  try_except
    (sorted_tasks <- lift (sorted dt_lt key_timestamp l) ;;
     lift (sorted py_lt key_done sorted_tasks))
    [([CValueError], fun _ =>
        print ErrSorting ;;; lift (sorted py_lt key_done l))].

Definition refresh_task_list : M unit :=
  modify (set_shown []) ;;;
  l <- gets tasks ;;
  sorted_tasks <- display_order l ;;
  modify (set_shown sorted_tasks).

Definition add_task_event : M unit :=
  entry <- gets task_entry ;;
  let description := strip entry in
  if truthy (PStr description) then
    now <- now_text ;;
    let new_task : dict :=
      [("description", PStr description); ("done", PBool false);
       ("timestamp", PStr now)] in
    l <- gets tasks ;;
    modify (set_tasks (l ++ [new_task])) ;;;
    l <- gets tasks ;;
    save_tasks l TASKS_FILE ;;;
    modify (set_task_entry "") ;;;
    refresh_task_list
  else
    print MsgEmptyDescription.

(** The loop of [toggle_complete]: [Some] of the list with the first
    matching task flipped, [None] when the loop ends without a match. *)
Fixpoint toggle_loop (task_to_toggle : dict) (l : list dict)
  : result (option (list dict)) :=
  match l with
  | [] => Ok None
  | task :: rest =>
      result_bind (getitem task "timestamp") (fun t1 =>
      result_bind (getitem task_to_toggle "timestamp") (fun t2 =>
      result_bind
        (if py_eq t1 t2 then
           result_bind (getitem task "description") (fun d1 =>
           result_bind (getitem task_to_toggle "description") (fun d2 =>
           Ok (py_eq d1 d2)))
         else Ok false) (fun same =>
      if same then
        Ok (Some (dict_set task "done"
                    (PBool (negb (truthy (dict_get_default task "done"
                                            (PBool false))))) :: rest))
      else
        result_bind (toggle_loop task_to_toggle rest) (fun r =>
        Ok (option_map (cons task) r)))))
  end.

Definition toggle_complete (task_to_toggle : dict) : M unit :=
  l <- gets tasks ;;
  r <- lift (toggle_loop task_to_toggle l) ;;
  match r with
  | Some l' =>
      modify (set_tasks l') ;;;
      l <- gets tasks ;;
      save_tasks l TASKS_FILE ;;;
      refresh_task_list
  | None =>
      print (WarnToggleNotFound (dict_get_none task_to_toggle "description"))
  end.

(** The condition of the list comprehension of [remove_task]. *)
Definition same_identity (task task_to_remove : dict) : bool :=
  py_eq (dict_get_none task "timestamp") (dict_get_none task_to_remove "timestamp")
  && py_eq (dict_get_none task "description")
           (dict_get_none task_to_remove "description").

Definition remove_task (task_to_remove : dict) : M unit :=
  l <- gets tasks ;;
  let initial_len := List.length l in
  modify (set_tasks
            (filter (fun task => negb (same_identity task task_to_remove)) l)) ;;;
  l <- gets tasks ;;
  if (List.length l <? initial_len)%nat then
    save_tasks l TASKS_FILE ;;;
    refresh_task_list
  else
    print (WarnRemoveNotFound (dict_get_none task_to_remove "description")).

Definition on_closing : M unit :=
  print MsgSavingBeforeClosing ;;;
  l <- gets tasks ;;
  save_tasks l TASKS_FILE.

(** [TodoApp.__init__] *)
Definition init : M unit :=
  l <- load_tasks TASKS_FILE ;;
  modify (set_tasks l) ;;;
  refresh_task_list.
End Program.

(** ** A reference JSON codec

    An executable instance of the [json] parameters, used to run the
    program on concrete files.  It covers JSON over the value model:
    [null], [true], [false], integers, text with escapes up to U+00FF,
    arrays and objects; anything else is reported as a decode error. *)

Module RefJson.

Definition dquote : ascii := ascii_of_nat 34.
Definition backslash : ascii := ascii_of_nat 92.
Definition newline : ascii := ascii_of_nat 10.

(** Writes a JSON text with ['] for the double quote. *)
Fixpoint json_text (s : string) : string :=
  match s with
  | EmptyString => EmptyString
  | String c s' =>
      String (if Ascii.eqb c "'" then dquote else c) (json_text s')
  end.

Definition json_ws (c : ascii) : bool :=
  let n := nat_of_ascii c in ((n =? 32) || (n =? 9) || (n =? 10) || (n =? 13))%nat.

Fixpoint skip_ws (s : string) : string :=
  match s with
  | String c s' => if json_ws c then skip_ws s' else s
  | EmptyString => s
  end.

Definition hex_value (c : ascii) : option nat :=
  let n := nat_of_ascii c in
  if ((48 <=? n) && (n <=? 57))%nat then Some (n - 48)%nat
  else if ((97 <=? n) && (n <=? 102))%nat then Some (n - 87)%nat
  else if ((65 <=? n) && (n <=? 70))%nat then Some (n - 55)%nat
  else None.

(** The text after an opening quote, up to the closing one. *)
Fixpoint parse_string (s : string) : option (string * string) :=
  match s with
  | EmptyString => None
  | String c s' =>
      if Ascii.eqb c dquote then Some (EmptyString, s')
      else if Ascii.eqb c backslash then
        match s' with
        | String e s'' =>
            let simple (a : ascii) :=
              match parse_string s'' with
              | Some (t, r) => Some (String a t, r)
              | None => None
              end in
            if Ascii.eqb e dquote then simple dquote
            else if Ascii.eqb e backslash then simple backslash
            else if Ascii.eqb e "/" then simple "/"%char
            else if Ascii.eqb e "b" then simple (ascii_of_nat 8)
            else if Ascii.eqb e "f" then simple (ascii_of_nat 12)
            else if Ascii.eqb e "n" then simple (ascii_of_nat 10)
            else if Ascii.eqb e "r" then simple (ascii_of_nat 13)
            else if Ascii.eqb e "t" then simple (ascii_of_nat 9)
            else if Ascii.eqb e "u" then
              match s'' with
              | String h1 (String h2 (String h3 (String h4 s3))) =>
                  match hex_value h1, hex_value h2, hex_value h3, hex_value h4 with
                  | Some 0%nat, Some 0%nat, Some a, Some b =>
                      match parse_string s3 with
                      | Some (t, r) => Some (String (ascii_of_nat (16 * a + b)) t, r)
                      | None => None
                      end
                  | _, _, _, _ => None
                  end
              | _ => None
              end
            else None
        | EmptyString => None
        end
      else if (nat_of_ascii c <? 32)%nat then None
      else
        match parse_string s' with
        | Some (t, r) => Some (String c t, r)
        | None => None
        end
  end.

Fixpoint parse_digits (s : string) (acc : Z) : Z * string :=
  match s with
  | String c s' =>
      if is_digit c then parse_digits s' (10 * acc + digit_value c) else (acc, s)
  | EmptyString => (acc, s)
  end.

(** An integer literal: [0] or a digit sequence without leading zero. *)
Definition parse_nat (s : string) : option (Z * string) :=
  match s with
  | String c s' =>
      if Ascii.eqb c "0" then Some (0, s')
      else if is_digit c then Some (parse_digits s 0)
      else None
  | EmptyString => None
  end.

Definition starts_fraction (s : string) : bool :=
  match s with
  | String c _ => Ascii.eqb c "." || Ascii.eqb c "e" || Ascii.eqb c "E"
  | EmptyString => false
  end.

Definition parse_number (s : string) : option (pyval * string) :=
  let signed (neg : bool) (s : string) :=
    match parse_nat s with
    | Some (n, r) =>
        if starts_fraction r then None
        else Some (PInt (if neg then - n else n), r)
    | None => None
    end in
  match s with
  | String c s' => if Ascii.eqb c "-" then signed true s' else signed false s
  | EmptyString => None
  end.

Fixpoint strip_prefix (p s : string) : option string :=
  match p, s with
  | EmptyString, _ => Some s
  | String a p', String b s' => if Ascii.eqb a b then strip_prefix p' s' else None
  | _, EmptyString => None
  end.

Fixpoint parse_value (fuel : nat) (s : string) : option (pyval * string) :=
  match fuel with
  | O => None
  | S fuel' =>
      match s with
      | EmptyString => None
      | String c s1 =>
          if Ascii.eqb c "[" then
            match skip_ws s1 with
            | String c2 s2 =>
                if Ascii.eqb c2 "]" then Some (PList [], s2)
                else parse_items fuel' (String c2 s2) []
            | EmptyString => None
            end
          else if Ascii.eqb c "{" then
            match skip_ws s1 with
            | String c2 s2 =>
                if Ascii.eqb c2 "}" then Some (PDict [], s2)
                else parse_members fuel' (String c2 s2) []
            | EmptyString => None
            end
          else if Ascii.eqb c dquote then
            match parse_string s1 with
            | Some (t, r) => Some (PStr t, r)
            | None => None
            end
          else
            match strip_prefix "null" s, strip_prefix "true" s, strip_prefix "false" s with
            | Some r, _, _ => Some (PNone, r)
            | _, Some r, _ => Some (PBool true, r)
            | _, _, Some r => Some (PBool false, r)
            | _, _, _ => parse_number s
            end
      end
  end
with parse_items (fuel : nat) (s : string) (acc : list pyval)
     : option (pyval * string) :=
  match fuel with
  | O => None
  | S fuel' =>
      match parse_value fuel' s with
      | Some (v, r) =>
          match skip_ws r with
          | String c r' =>
              if Ascii.eqb c "," then parse_items fuel' (skip_ws r') (v :: acc)
              else if Ascii.eqb c "]" then Some (PList (rev (v :: acc)), r')
              else None
          | EmptyString => None
          end
      | None => None
      end
  end
with parse_members (fuel : nat) (s : string) (acc : dict)
     : option (pyval * string) :=
  match fuel with
  | O => None
  | S fuel' =>
      match s with
      | String c s1 =>
          if Ascii.eqb c dquote then
            match parse_string s1 with
            | Some (k, r) =>
                match skip_ws r with
                | String c2 r2 =>
                    if Ascii.eqb c2 ":" then
                      match parse_value fuel' (skip_ws r2) with
                      | Some (v, r3) =>
                          match skip_ws r3 with
                          | String c3 r4 =>
                              if Ascii.eqb c3 "," then
                                parse_members fuel' (skip_ws r4) (dict_set acc k v)
                              else if Ascii.eqb c3 "}" then
                                Some (PDict (dict_set acc k v), r4)
                              else None
                          | EmptyString => None
                          end
                      | None => None
                      end
                    else None
                | EmptyString => None
                end
            | None => None
            end
          else None
      | EmptyString => None
      end
  end.

(** [json.loads] *)
Definition loads (s : string) : result pyval :=
  match parse_value (S (String.length s)) (skip_ws s) with
  | Some (v, r) =>
      match skip_ws r with
      | EmptyString => Ok v
      | _ => Raise JSONDecodeError
      end
  | None => Raise JSONDecodeError
  end.

Definition hex_digit (n : nat) : ascii :=
  ascii_of_nat (if (n <? 10)%nat then 48 + n else 87 + n).

(** One character of a text, as [ensure_ascii] writes it. *)
Definition escape_char (c : ascii) : string :=
  let n := nat_of_ascii c in
  if Ascii.eqb c dquote then String backslash (String dquote EmptyString)
  else if Ascii.eqb c backslash then String backslash (String backslash EmptyString)
  else if (n =? 10)%nat then String backslash "n"
  else if (n =? 13)%nat then String backslash "r"
  else if (n =? 9)%nat then String backslash "t"
  else if (n =? 8)%nat then String backslash "b"
  else if (n =? 12)%nat then String backslash "f"
  else if ((n <? 32) || (126 <? n))%nat then
    String backslash
      (String "u" (String "0" (String "0"
         (String (hex_digit (n / 16)) (String (hex_digit (n mod 16)) EmptyString)))))
  else String c EmptyString.

Fixpoint escape (s : string) : string :=
  match s with
  | EmptyString => EmptyString
  | String c s' => escape_char c ++ escape s'
  end.

Definition quote (s : string) : string :=
  String dquote (escape s ++ String dquote EmptyString).

Fixpoint digits_of (fuel : nat) (n : Z) (acc : string) : string :=
  match fuel with
  | O => acc
  | S fuel' =>
      let acc' := String (digit_char (n mod 10)) acc in
      if n <? 10 then acc' else digits_of fuel' (n / 10) acc'
  end.

Definition decimal (n : Z) : string :=
  if n <? 0 then String "-" (digits_of (S (Z.to_nat (- n))) (- n) EmptyString)
  else digits_of (S (Z.to_nat n)) n EmptyString.

Fixpoint spaces (n : nat) : string :=
  match n with O => EmptyString | S n' => String " " (spaces n') end.

(** A line break followed by the indentation of nesting depth [depth]. *)
Definition break (depth : nat) : string := String newline (spaces (4 * depth)).

(** The text of further elements: each one preceded by [sep]. *)
Definition items_text {A : Type} (sep : string) (f : A -> string)
  : list A -> string :=
  fix go (l : list A) : string :=
    match l with
    | [] => EmptyString
    | x :: l' => sep ++ f x ++ go l'
    end.

Fixpoint dumps_at (depth : nat) (v : pyval) {struct v} : string :=
  match v with
  | PNone => "null"
  | PBool true => "true"
  | PBool false => "false"
  | PInt n => decimal n
  | PStr s => quote s
  | PList [] => "[]"
  | PList (x :: xs) =>
      "[" ++ break (S depth) ++ dumps_at (S depth) x
      ++ items_text ("," ++ break (S depth)) (dumps_at (S depth)) xs
      ++ break depth ++ "]"
  | PDict [] => "{}"
  | PDict (kv :: xs) =>
      let member (kv : string * pyval) :=
        quote (fst kv) ++ ": " ++ dumps_at (S depth) (snd kv) in
      "{" ++ break (S depth) ++ member kv
      ++ items_text ("," ++ break (S depth)) member xs
      ++ break depth ++ "}"
  end.

(** [json.dumps(v, indent=4)] *)
Definition dumps (v : pyval) : string := dumps_at 0 v.

(** *** Vocabulary of the round trip of the codec *)

(** The text after a number does not continue it. *)
Definition safe_tail (r : string) : Prop :=
  match r with
  | EmptyString => True
  | String c _ => is_digit c = false /\ starts_fraction r = false
  end.

(** A bound on the fuel the decoder needs for the text of [v]. *)
Fixpoint json_size (v : pyval) : nat :=
  match v with
  | PList l => S (list_sum (map (fun x => S (json_size x)) l))
  | PDict l => S (list_sum (map (fun kv => S (json_size (snd kv))) l))
  | _ => 1
  end.

(** The keys of every object are distinct. *)
Fixpoint json_wf (v : pyval) : Prop :=
  match v with
  | PList l => fold_right (fun x acc => json_wf x /\ acc) True l
  | PDict l =>
      NoDup (map fst l)
      /\ fold_right (fun kv acc => json_wf (snd kv) /\ acc) True l
  | _ => True
  end.

(** A text that starts with the first character of a value. *)
Definition starts_value (s : string) : Prop :=
  match s with
  | EmptyString => False
  | String c _ =>
      json_ws c = false /\ Ascii.eqb c "]" = false /\ Ascii.eqb c "}" = false
  end.

(** The decoder reads [v] back from its text at any depth, before any
    text that does not continue a number, given enough fuel. *)
Definition round_trips (v : pyval) : Prop :=
  forall depth rest fuel,
    safe_tail rest -> (json_size v <= fuel)%nat ->
    parse_value fuel (dumps_at depth v ++ rest) = Some (v, rest).

End RefJson.

(** * Vocabulary of the properties *)

(** ** Stable sorting *)

(** The stable sort of a list by a total key, without the possibility of
    failure: the order [sorted] produces when no comparison raises. *)
Section StableSort.
Context {A K : Type} (kf : A -> K) (ltb : K -> K -> bool).

Fixpoint insert_stable (x : A) (l : list A) : list A :=
  match l with
  | [] => [x]
  | y :: l' =>
      if ltb (kf y) (kf x) then y :: insert_stable x l' else x :: y :: l'
  end.

Fixpoint sort_stable (l : list A) : list A :=
  match l with
  | [] => []
  | x :: l' => insert_stable x (sort_stable l')
  end.

Definition deco (x : A) : K * A := (kf x, x).

(** [x] is not after [y]: the key of [y] is not below the key of [x]. *)
Definition key_le (x y : A) : Prop := ltb (kf y) (kf x) = false.

(** Elements whose keys are equivalent to [k] keep their order. *)
Definition key_equiv (k : K) (x : A) : bool :=
  negb (ltb (kf x) k) && negb (ltb k (kf x)).

End StableSort.

(** ** Sorting by completion status *)

Section SortByFlag.
Context {A : Type} (flag : A -> bool).

Definition flag_key (x : A) : pyval * A := (PBool (flag x), x).

Definition flag_order (l : list A) : list A :=
  filter (fun y => negb (flag y)) l ++ filter flag l.

End SortByFlag.

(** ** Loading and saving *)

(** Field defaulting in the words of the specification: a missing
    description becomes the placeholder, a missing done flag becomes false,
    a missing timestamp becomes the epoch, and a timestamp that is present
    but does not parse is replaced by the current time [now]; what is
    present is otherwise kept. *)
Definition spec_defaulted (now : string) (d : dict) : dict :=
  let d1 := match dict_get d "description" with
            | Some _ => d
            | None => (d ++ [("description", PStr "No Description")])%list
            end in
  let d2 := match dict_get d1 "done" with
            | Some _ => d1
            | None => (d1 ++ [("done", PBool false)])%list
            end in
  match dict_get d2 "timestamp" with
  | None => (d2 ++ [("timestamp", PStr "1970-01-01 00:00:00")])%list
  | Some v =>
      match strptime v with
      | Ok _ => d2
      | Raise _ => dict_set d2 "timestamp" (PStr now)
      end
  end.

(** The stored timestamp is present and is rejected by the parser. *)
Definition timestamp_rejected (d : dict) : bool :=
  match dict_get d "timestamp" with
  | Some v => match strptime v with Raise ValueError => true | _ => false end
  | None => false
  end.

(** The stored timestamp, when present, is text. *)
Definition text_timestamp (d : dict) : Prop :=
  forall v, dict_get d "timestamp" = Some v -> exists t, v = PStr t.

(** The warning [load_tasks] prints when it corrects the timestamp of [d]. *)
Definition timestamp_warning (d : dict) : message :=
  WarnTimestamp (dict_get_default d "description" (PStr "No Description")).

Definition after_warnings (s : state) (ws : list message) : state :=
  mk_state (tasks s) (task_entry s) (shown s) (fs s) (unwritable s)
           (ticks s + List.length ws) (trace s ++ map Printed ws).

(** The records [load_tasks] returns for the stored records [ds], the
    clock having been read [n] times before: each record defaulted, with
    the reading of the clock at its turn. *)
Fixpoint loaded_from (clock : nat -> datetime) (n : nat) (ds : list dict) : list dict :=
  match ds with
  | [] => []
  | d :: ds' =>
      spec_defaulted (strftime (clock n)) d
      :: loaded_from clock (if timestamp_rejected d then S n else n) ds'
  end.

(** The line [load_tasks] prints when its [try] block raises [e]. *)
Definition loading_error (filename : string) (e : exn) : message :=
  match e with
  | JSONDecodeError | OSError => ErrLoading filename e
  | _ => ErrUnexpectedLoading e
  end.

(** What loading leaves of each stored field: the stored value, or the
    default when the key is missing, or the current time [now] for a
    timestamp the parser rejects; other keys are untouched. *)
Definition fields_defaulted (now : string) (d d' : dict) : Prop :=
  dict_get d' "description"
  = Some (dict_get_default d "description" (PStr "No Description"))
  /\ dict_get d' "done" = Some (dict_get_default d "done" (PBool false))
  /\ dict_get d' "timestamp"
     = Some (match dict_get d "timestamp" with
             | None => PStr "1970-01-01 00:00:00"
             | Some v => if timestamp_rejected d then PStr now else v
             end)
  /\ (forall k, k <> "description" -> k <> "done" -> k <> "timestamp" ->
                dict_get d' k = dict_get d k).

(** All three fields are present and the timestamp is text that the date
    parser accepts. *)
Definition fields_present (d : dict) : Prop :=
  dict_get d "description" <> None
  /\ dict_get d "done" <> None
  /\ exists t dt, dict_get d "timestamp" = Some (PStr t)
                  /\ strptime (PStr t) = Ok dt.

(** The typing of a Task record in the data model of the specification:
    the description is text that is not empty once trimmed, the done flag
    is a boolean, the timestamp is text in the fixed format. *)
Definition well_typed_task (d : dict) : Prop :=
  (exists t, dict_get d "description" = Some (PStr t) /\ strip t <> "")
  /\ (exists b, dict_get d "done" = Some (PBool b))
  /\ exists t dt, dict_get d "timestamp" = Some (PStr t)
                  /\ strptime (PStr t) = Ok dt.

Definition not_object (v : pyval) : Prop := forall d, v <> PDict d.

(** Calls of [save_tasks] show in the trace as a write or a failed write. *)
Definition is_save (e : event) : bool :=
  match e with
  | Wrote _ _ | WriteFailed _ _ => true
  | Printed _ => false
  end.

Definition save_count (s : state) : nat :=
  List.length (filter is_save (trace s)).

(** [s'] differs from [s] by what is drawn and what was printed only. *)
Definition same_store (s s' : state) : Prop :=
  tasks s' = tasks s /\ task_entry s' = task_entry s /\ fs s' = fs s
  /\ unwritable s' = unwritable s /\ ticks s' = ticks s
  /\ save_count s' = save_count s.

(** ** Mutations *)

(** The record [add_task_event] builds. *)
Definition new_task (description now : string) : dict :=
  [("description", PStr description); ("done", PBool false);
   ("timestamp", PStr now)].

(** A record that [toggle_complete] can compare: both identity fields are
    present. *)
Definition has_identity (d : dict) : Prop :=
  dict_get d "timestamp" <> None /\ dict_get d "description" <> None.

(** The task with its done flag flipped. *)
Definition flipped (t : dict) : dict :=
  dict_set t "done"
           (PBool (negb (truthy (dict_get_default t "done" (PBool false))))).

(** ** Display order *)

(** Completion status of a task, as the renderer reads it. *)
Definition is_done (t : dict) : bool :=
  truthy (dict_get_default t "done" (PBool false)).

(** The done flag is a boolean, or is missing. *)
Definition done_is_flag (t : dict) : Prop :=
  exists b, dict_get_default t "done" (PBool false) = PBool b.

(** The timestamp of the task parses (a missing one counts as the epoch). *)
Definition parses (t : dict) : Prop := exists d, key_timestamp t = Ok d.

(** The time a task is sorted by under the two-key scheme of the
    specification: its parsed timestamp, and the epoch when the timestamp
    is missing or cannot be parsed. *)
Definition time_or_epoch (t : dict) : datetime :=
  match key_timestamp t with
  | Ok d => d
  | Raise _ => mk_datetime 1970 1 1 0 0 0
  end.

(** The two-key scheme: by time ascending, then stably by completion. *)
Definition two_key_order (l : list dict) : list dict :=
  flag_order is_done (sort_stable time_or_epoch dt_ltb l).

(** [a] is not later than [b]. *)
Definition not_later (a b : dict) : Prop :=
  dt_ltb (time_or_epoch b) (time_or_epoch a) = false.

(** The task has time [d] and completion status [b]. *)
Definition has_keys (d : datetime) (b : bool) (t : dict) : bool :=
  key_equiv time_or_epoch dt_ltb d t && Bool.eqb (is_done t) b.

(** ** Concrete states, files and tasks *)

(** A file holding the text [t]. *)
Definition file_of_text (t : string) : file_state :=
  Present (String.length t) (Ok t).

(** The state of a program that has done nothing yet, with [f] at the path
    of the tasks file and every path writable. *)
Definition start_with (f : file_state) : state :=
  mk_state [] "" []
           (fun p => if String.eqb p TASKS_FILE then f else Absent)
           (fun _ => None) 0 [].

(** A clock that stands at noon of 1 June 2025. *)
Definition noon (n : nat) : datetime := mk_datetime 2025 6 1 12 0 0.

(** A state with the tasks [l] in memory and [entry] in the entry field. *)
Definition running (l : list dict) (entry : string) : state :=
  mk_state l entry [] (fun _ => Absent) (fun _ => None) 0 [].

(** The three tasks of the example of the specification. *)
Definition task_A : dict :=
  [("description", PStr "A"); ("done", PBool false);
   ("timestamp", PStr "2024-01-02 00:00:00")].
Definition task_B : dict :=
  [("description", PStr "B"); ("done", PBool true);
   ("timestamp", PStr "2024-01-01 00:00:00")].
Definition task_C : dict :=
  [("description", PStr "C"); ("done", PBool false);
   ("timestamp", PStr "2024-01-01 00:00:00")].

Definition task_X : dict :=
  [("description", PStr "X"); ("done", PBool false);
   ("timestamp", PStr "soon")].

(** A file with one record that lacks every field but a description, and
    one whose timestamp does not parse. *)
Definition stored_text : string :=
  RefJson.json_text
    "[{'description': 'water plants'}, {'done': true, 'timestamp': 'soon'}]".

Definition stored_records : list dict :=
  [[("description", PStr "water plants")];
   [("done", PBool true); ("timestamp", PStr "soon")]].

Definition sample_tasks : list dict :=
  [new_task "buy milk" "2024-01-02 00:00:00";
   [("timestamp", PStr "2024-01-01 09:30:00"); ("done", PBool true);
    ("description", PStr (RefJson.json_text "say 'hi'"))]].

(** Two tasks with the same description and different timestamps. *)
Definition twin_1 : dict := new_task "call" "2024-03-01 08:00:00".
Definition twin_2 : dict := new_task "call" "2024-03-01 08:00:01".

(** ** Vocabulary of the further properties *)

(** [s'] is [s] after reading the clock and printing only: the tasks, the
    entry, what is drawn and every file are the same, and nothing was saved. *)
Definition only_printed (s s' : state) : Prop :=
  tasks s' = tasks s /\ task_entry s' = task_entry s /\ shown s' = shown s
  /\ fs s' = fs s /\ unwritable s' = unwritable s
  /\ save_count s' = save_count s /\ (ticks s <= ticks s')%nat.

(** The stored timestamp is present and is not text. *)
Definition odd_timestamp (v : pyval) : Prop :=
  exists d x, v = PDict d /\ dict_get d "timestamp" = Some x
              /\ forall t, x <> PStr t.

(** A task whose done flag is text, which does not compare with a
    boolean. *)
Definition task_D : dict :=
  [("description", PStr "D"); ("done", PStr "yes");
   ("timestamp", PStr "2024-01-01 00:00:00")].

(** * Properties *)

(** ** The date parser and formatter *)

Example strptime_epoch :
  strptime (PStr FMT_EPOCH) = Ok (mk_datetime 1970 1 1 0 0 0).
Proof. reflexivity. Qed.

Example strftime_epoch : strftime (mk_datetime 1970 1 1 0 0 0) = FMT_EPOCH.
Proof. reflexivity. Qed.

Example strptime_unpadded :
  strptime (PStr "2024-1-2  3:4:5") = Ok (mk_datetime 2024 1 2 3 4 5).
Proof. reflexivity. Qed.

Example strptime_feb30 : strptime (PStr "2023-02-30 00:00:00") = Raise ValueError.
Proof. reflexivity. Qed.

Example strptime_trailing : strptime (PStr "2023-02-03 00:00:000") = Raise ValueError.
Proof. reflexivity. Qed.

Example strptime_int : strptime (PInt 5) = Raise TypeError.
Proof. reflexivity. Qed.

Lemma strptime_text_cases (t : string) :
  (exists d, strptime (PStr t) = Ok d) \/ strptime (PStr t) = Raise ValueError.
Proof.
  unfold strptime.
  destruct (re_timestamp t) as [f|]; [|now right].
  destruct (negb (g_rest f =? "")%string); [now right|].
  match goal with |- context [valid_datetimeb ?d] =>
    destruct (valid_datetimeb d); [left; now exists d | now right] end.
Qed.

Lemma strptime_not_text (v : pyval) :
  (forall t, v <> PStr t) -> strptime v = Raise TypeError.
Proof.
  intros H. destruct v; try reflexivity. now elim (H s).
Qed.

Lemma strptime_raises (v : pyval) (e : exn) :
  strptime v = Raise e -> e = ValueError \/ e = TypeError.
Proof.
  destruct v; try (unfold strptime; intros [= <-]; now right).
  intros H. destruct (strptime_text_cases s) as [[d Hd]|Hd]; rewrite Hd in H.
  - discriminate.
  - injection H as <-. now left.
Qed.

Lemma digit_char_is_digit (a : Z) :
  0 <= a < 10 -> is_digit (digit_char a) = true /\ digit_value (digit_char a) = a
                 /\ is_space (digit_char a) = false.
Proof.
  intros H.
  assert (E : a = 0 \/ a = 1 \/ a = 2 \/ a = 3 \/ a = 4 \/ a = 5 \/ a = 6
              \/ a = 7 \/ a = 8 \/ a = 9) by lia.
  repeat destruct E as [->|E]; try subst a; repeat split; reflexivity.
Qed.

Lemma int_of_text_pad2 (v : Z) : 0 <= v < 100 -> int_of_text (pad2 v) = v.
Proof.
  intros H. unfold pad2, int_of_text. cbn [list_ascii_of_string fold_left].
  destruct (digit_char_is_digit (v / 10)) as (-> & -> & _).
  { split; [apply Z.div_pos; lia | apply Z.div_lt_upper_bound; lia]. }
  destruct (digit_char_is_digit (v mod 10)) as (-> & -> & _).
  { apply Z.mod_pos_bound; lia. }
  pose proof (Z.div_mod v 10). lia.
Qed.

Lemma int_of_text_pad4 (y : Z) : 0 <= y <= 9999 -> int_of_text (pad4 y) = y.
Proof.
  intros H. unfold pad4, pad2, int_of_text. cbn [list_ascii_of_string fold_left].
  destruct (digit_char_is_digit (y / 1000)) as (-> & -> & _).
  { split; [apply Z.div_pos; lia | apply Z.div_lt_upper_bound; lia]. }
  destruct (digit_char_is_digit (y / 100 mod 10)) as (-> & -> & _).
  { apply Z.mod_pos_bound; lia. }
  destruct (digit_char_is_digit (y mod 100 / 10)) as (-> & -> & _).
  { split; [apply Z.div_pos; [apply Z.mod_pos_bound|]; lia
           | apply Z.div_lt_upper_bound; [lia | apply Z.mod_pos_bound; lia]]. }
  destruct (digit_char_is_digit (y mod 100 mod 10)) as (-> & -> & _).
  { apply Z.mod_pos_bound; lia. }
  Z.div_mod_to_equations. lia.
Qed.

Lemma group_Y {R} (y : Z) (r : string) (k : string -> string -> option R) :
  0 <= y <= 9999 -> group re_Y (pad4 y ++ r) k = k (pad4 y) r.
Proof.
  intros H. unfold re_Y, pad4, pad2. cbn [group match_seq append].
  destruct (digit_char_is_digit (y / 1000)) as (-> & _).
  { split; [apply Z.div_pos; lia | apply Z.div_lt_upper_bound; lia]. }
  destruct (digit_char_is_digit (y / 100 mod 10)) as (-> & _).
  { apply Z.mod_pos_bound; lia. }
  destruct (digit_char_is_digit (y mod 100 / 10)) as (-> & _).
  { split; [apply Z.div_pos; [apply Z.mod_pos_bound|]; lia
           | apply Z.div_lt_upper_bound; [lia | apply Z.mod_pos_bound; lia]]. }
  destruct (digit_char_is_digit (y mod 100 mod 10)) as (-> & _).
  { apply Z.mod_pos_bound; lia. }
  now destruct (k _ r).
Qed.

(** Case analysis on an integer in a small range. *)
Ltac enum_nat n fuel :=
  match fuel with
  | O => idtac
  | S ?fuel' => destruct n as [|n]; [ | enum_nat n fuel' ]
  end.

Ltac small_cases v :=
  let n := fresh "n" in
  let E := fresh "E" in
  remember (Z.to_nat v) as n eqn:E;
  assert (v = Z.of_nat n) by lia; clear E;
  enum_nat n 61%nat; subst v; [ .. | exfalso; lia ].

Ltac field_case :=
  first
    [ exfalso; lia
    | match goal with
      | H : ?k (pad2 ?v) ?r = Some ?x |- _ =>
          vm_compute in H; vm_compute; rewrite H; reflexivity
      end ].

Lemma group_m {R} (v : Z) (r : string) (k : string -> string -> option R) (x : R) :
  1 <= v <= 12 -> k (pad2 v) r = Some x -> group re_m (pad2 v ++ r) k = Some x.
Proof. intros H Hk. small_cases v; field_case. Qed.

Lemma group_d {R} (v : Z) (r : string) (k : string -> string -> option R) (x : R) :
  1 <= v <= 31 -> k (pad2 v) r = Some x -> group re_d (pad2 v ++ r) k = Some x.
Proof. intros H Hk. small_cases v; field_case. Qed.

Lemma group_H {R} (v : Z) (r : string) (k : string -> string -> option R) (x : R) :
  0 <= v <= 23 -> k (pad2 v) r = Some x -> group re_H (pad2 v ++ r) k = Some x.
Proof. intros H Hk. small_cases v; field_case. Qed.

Lemma group_M {R} (v : Z) (r : string) (k : string -> string -> option R) (x : R) :
  0 <= v <= 59 -> k (pad2 v) r = Some x -> group re_M (pad2 v ++ r) k = Some x.
Proof. intros H Hk. small_cases v; field_case. Qed.

Lemma group_S {R} (v : Z) (r : string) (k : string -> string -> option R) (x : R) :
  0 <= v <= 59 -> k (pad2 v) r = Some x -> group re_S (pad2 v ++ r) k = Some x.
Proof. intros H Hk. small_cases v; field_case. Qed.

Lemma spaces_star_pad2 {R} (v : Z) (r : string) (k : string -> option R) :
  0 <= v < 100 -> spaces_star (pad2 v ++ r) k = k (pad2 v ++ r).
Proof.
  intros H. unfold pad2. cbn [append spaces_star].
  destruct (digit_char_is_digit (v / 10)) as (_ & _ & ->); [|reflexivity].
  split; [apply Z.div_pos; lia | apply Z.div_lt_upper_bound; lia].
Qed.

Lemma valid_datetime_bounds (d : datetime) :
  valid_datetime d ->
  1 <= dt_year d <= 9999 /\ 1 <= dt_month d <= 12 /\ 1 <= dt_day d <= 31
  /\ 0 <= dt_hour d <= 23 /\ 0 <= dt_minute d <= 59 /\ 0 <= dt_second d <= 59.
Proof.
  unfold valid_datetime, valid_datetimeb. intros H.
  repeat (apply andb_prop in H; destruct H as [H ?]).
  assert (days_in_month (dt_year d) (dt_month d) <= 31).
  { unfold days_in_month.
    repeat match goal with |- context [if ?b then _ else _] => destruct b end; lia. }
  lia.
Qed.

Lemma re_timestamp_strftime (d : datetime) :
  valid_datetime d ->
  re_timestamp (strftime d)
  = Some (mk_ts_match (pad4 (dt_year d)) (pad2 (dt_month d)) (pad2 (dt_day d))
            (pad2 (dt_hour d)) (pad2 (dt_minute d)) (pad2 (dt_second d)) "").
Proof.
  intros V. apply valid_datetime_bounds in V.
  destruct V as (HY & Hm & Hd & HH & HM & HS).
  unfold re_timestamp, strftime.
  rewrite group_Y by lia. cbn [append literal Ascii.eqb Bool.eqb].
  eapply group_m; [lia|]. cbn [append literal Ascii.eqb Bool.eqb].
  eapply group_d; [lia|]. cbn [append spaces_plus is_space].
  change (is_space " ") with true. cbv iota.
  rewrite spaces_star_pad2 by lia.
  eapply group_H; [lia|]. cbn [append literal Ascii.eqb Bool.eqb].
  eapply group_M; [lia|]. cbn [append literal Ascii.eqb Bool.eqb].
  replace (pad2 (dt_second d)) with (pad2 (dt_second d) ++ "") at 1.
  2:{ unfold pad2. reflexivity. }
  eapply group_S; [lia|]. reflexivity.
Qed.

(** A formatted date parses back to itself. *)
Lemma strptime_strftime (d : datetime) :
  valid_datetime d -> strptime (PStr (strftime d)) = Ok d.
Proof.
  intros V. unfold strptime. rewrite re_timestamp_strftime by assumption.
  cbn [g_rest g_Y g_m g_d g_H g_M g_S String.eqb negb].
  pose proof (valid_datetime_bounds d V) as (HY & Hm & Hd & HH & HM & HS).
  rewrite int_of_text_pad4 by lia.
  rewrite !int_of_text_pad2 by lia.
  destruct d as [Y m dd H M S]. cbn [dt_year dt_month dt_day dt_hour dt_minute dt_second] in *.
  unfold valid_datetime in V. now rewrite V.
Qed.

(** ** Stable sorting *)

Lemma result_map_ok {A B} (f : A -> result B) (g : A -> B) (l : list A) :
  Forall (fun x => f x = Ok (g x)) l -> result_map f l = Ok (map g l).
Proof.
  induction 1 as [|x l Hx _ IH]; [reflexivity|].
  cbn. rewrite Hx. cbn. rewrite IH. reflexivity.
Qed.

Lemma result_map_raise {A B} (f : A -> result B) (e : exn) (l : list A) :
  Forall (fun x => (exists y, f x = Ok y) \/ f x = Raise e) l ->
  Exists (fun x => f x = Raise e) l ->
  result_map f l = Raise e.
Proof.
  induction 1 as [|x l Hx _ IH]; intros HE; [inversion HE|].
  cbn. destruct Hx as [[y Hy]|Hx].
  - rewrite Hy. cbn. inversion HE as [? ? H0|? ? H0]; subst.
    + congruence.
    + now rewrite IH.
  - now rewrite Hx.
Qed.

Section StableSortFacts.
Context {A K : Type} (kf : A -> K) (ltb : K -> K -> bool).

Lemma insert_stable_perm (x : A) (l : list A) :
  Permutation (insert_stable kf ltb x l) (x :: l).
Proof.
  induction l as [|y l IH]; cbn; [reflexivity|].
  destruct (ltb (kf y) (kf x)); [|reflexivity].
  rewrite IH. apply perm_swap.
Qed.

Lemma sort_stable_perm (l : list A) : Permutation (sort_stable kf ltb l) l.
Proof.
  induction l as [|x l IH]; cbn; [reflexivity|].
  rewrite insert_stable_perm. now constructor.
Qed.

Lemma sort_stable_in (l : list A) (x : A) : In x (sort_stable kf ltb l) <-> In x l.
Proof.
  split; apply Permutation_in;
    [apply sort_stable_perm | symmetry; apply sort_stable_perm].
Qed.

Lemma insert_by_stable (lt : K -> K -> result bool) (x : A) (l : list A) :
  Forall (fun y => lt (kf y) (kf x) = Ok (ltb (kf y) (kf x))) l ->
  insert_by lt (deco kf x) (map (deco kf) l) = Ok (map (deco kf) (insert_stable kf ltb x l)).
Proof.
  induction 1 as [|y l Hy _ IH]; [reflexivity|].
  cbn. rewrite Hy. cbn. destruct (ltb (kf y) (kf x)); [|reflexivity].
  rewrite IH. reflexivity.
Qed.

Lemma sort_by_stable (lt : K -> K -> result bool) (l : list A) :
  (forall a b, In a l -> In b l -> lt (kf a) (kf b) = Ok (ltb (kf a) (kf b))) ->
  sort_by lt (map (deco kf) l) = Ok (map (deco kf) (sort_stable kf ltb l)).
Proof.
  induction l as [|x l IH]; intros H; [reflexivity|].
  cbn. rewrite IH by (intros; apply H; now right). cbn.
  apply insert_by_stable. apply Forall_forall. intros y Hy.
  apply H; [right; now apply sort_stable_in | now left].
Qed.

Lemma sorted_stable (lt : K -> K -> result bool) (key : A -> result K)
      (l : list A) :
  Forall (fun x => key x = Ok (kf x)) l ->
  (forall a b, In a l -> In b l -> lt (kf a) (kf b) = Ok (ltb (kf a) (kf b))) ->
  sorted lt key l = Ok (sort_stable kf ltb l).
Proof.
  intros Hk Hlt. unfold sorted.
  rewrite (result_map_ok _ (deco kf)).
  - cbn. rewrite sort_by_stable by assumption. cbn.
    rewrite map_map. cbn. now rewrite map_id.
  - eapply Forall_impl; [|exact Hk]. intros x Hx. cbn in Hx. now rewrite Hx.
Qed.

(** Order properties of [<] on keys that the sort relies on. *)
Hypothesis ltb_asym : forall a b, ltb a b = true -> ltb b a = false.
Hypothesis ltb_negtrans :
  forall a b c, ltb a b = false -> ltb b c = false -> ltb a c = false.

Lemma insert_stable_sorted (x : A) (l : list A) :
  StronglySorted (key_le kf ltb) l -> StronglySorted (key_le kf ltb) (insert_stable kf ltb x l).
Proof.
  induction 1 as [|y l Hs IH Hy]; cbn.
  - constructor; constructor.
  - destruct (ltb (kf y) (kf x)) eqn:E.
    + constructor; [exact IH|].
      apply Forall_forall. intros z Hz.
      apply (Permutation_in _ (insert_stable_perm x l)) in Hz.
      destruct Hz as [<-|Hz].
      * now apply ltb_asym.
      * rewrite Forall_forall in Hy. now apply Hy.
    + constructor; [now constructor|].
      constructor; [exact E|].
      eapply Forall_impl; [|exact Hy]. intros z Hz.
      unfold key_le in *. now apply ltb_negtrans with (kf y).
Qed.

Lemma sort_stable_sorted (l : list A) : StronglySorted (key_le kf ltb) (sort_stable kf ltb l).
Proof.
  induction l as [|x l IH]; cbn; [constructor|].
  now apply insert_stable_sorted.
Qed.

Lemma insert_stable_filter (k : K) (x : A) (l : list A) :
  filter (key_equiv kf ltb k) (insert_stable kf ltb x l) = filter (key_equiv kf ltb k) (x :: l).
Proof.
  induction l as [|y l IH]; [reflexivity|].
  cbn [insert_stable]. destruct (ltb (kf y) (kf x)) eqn:E; [|reflexivity].
  cbn [filter] in *. rewrite IH.
  destruct (key_equiv kf ltb k y) eqn:Ey, (key_equiv kf ltb k x) eqn:Ex; try reflexivity.
  exfalso. unfold key_equiv in *.
  apply andb_prop in Ey, Ex. destruct Ey as [Ey1 Ey2], Ex as [Ex1 Ex2].
  apply negb_true_iff in Ey1, Ey2, Ex1, Ex2.
  rewrite (ltb_negtrans _ _ _ Ey1 Ex2) in E. discriminate.
Qed.

Lemma sort_stable_filter (k : K) (l : list A) :
  filter (key_equiv kf ltb k) (sort_stable kf ltb l) = filter (key_equiv kf ltb k) l.
Proof.
  induction l as [|x l IH]; [reflexivity|].
  cbn [sort_stable]. rewrite insert_stable_filter. cbn. now rewrite IH.
Qed.
End StableSortFacts.

(** ** The order on dates *)

Ltac z_cases :=
  repeat match goal with
         | |- context [?x <? ?y] => destruct (Z.ltb_spec x y)
         | |- context [?x =? ?y] => destruct (Z.eqb_spec x y)
         | H : context [?x <? ?y] |- _ => destruct (Z.ltb_spec x y)
         | H : context [?x =? ?y] |- _ => destruct (Z.eqb_spec x y)
         end.

Lemma lex_ltb_asym (a b : list Z) : lex_ltb a b = true -> lex_ltb b a = false.
Proof.
  revert b. induction a as [|x a IH]; intros [|y b]; cbn; try easy.
  specialize (IH b). z_cases; cbn in *; try easy; lia.
Qed.

Lemma lex_ltb_negtrans (a b c : list Z) :
  lex_ltb a b = false -> lex_ltb b c = false -> lex_ltb a c = false.
Proof.
  revert b c. induction a as [|x a IH]; intros [|y b] [|z c]; cbn; try easy.
  specialize (IH b c). z_cases; cbn in *; try easy; try lia.
Qed.

Lemma lex_ltb_equiv (a b : list Z) :
  List.length a = List.length b ->
  lex_ltb a b = false -> lex_ltb b a = false -> a = b.
Proof.
  revert b. induction a as [|x a IH]; intros [|y b]; cbn; try easy.
  intros [= L]. specialize (IH b L).
  z_cases; cbn in *; try easy; try lia.
  intros. subst. f_equal. now apply IH.
Qed.

Lemma lex_ltb_irrefl (a : list Z) : lex_ltb a a = false.
Proof.
  induction a as [|x a IH]; [reflexivity|]. cbn.
  rewrite Z.ltb_irrefl, Z.eqb_refl. exact IH.
Qed.

Lemma dt_ltb_asym (a b : datetime) : dt_ltb a b = true -> dt_ltb b a = false.
Proof. apply lex_ltb_asym. Qed.

Lemma dt_ltb_negtrans (a b c : datetime) :
  dt_ltb a b = false -> dt_ltb b c = false -> dt_ltb a c = false.
Proof. apply lex_ltb_negtrans. Qed.

Lemma dt_ltb_equiv (a b : datetime) :
  dt_ltb a b = false -> dt_ltb b a = false -> a = b.
Proof.
  intros H1 H2.
  assert (E : dt_fields a = dt_fields b) by now apply lex_ltb_equiv.
  destruct a, b. now injection E as -> -> -> -> -> ->.
Qed.

(** ** Sorting by completion status *)

Section SortByFlagFacts.
Context {A : Type} (flag : A -> bool).

Lemma insert_by_unset (x : A) (l : list A) :
  flag x = false ->
  insert_by py_lt (flag_key flag x) (map (flag_key flag) l)
  = Ok (map (flag_key flag) (x :: l)).
Proof.
  intros Hx. destruct l as [|y l]; [reflexivity|].
  cbn. rewrite Hx. now destruct (flag y).
Qed.

Lemma insert_by_set (x : A) (f t : list A) :
  flag x = true ->
  Forall (fun y => flag y = false) f ->
  Forall (fun y => flag y = true) t ->
  insert_by py_lt (flag_key flag x) (map (flag_key flag) (f ++ t))
  = Ok (map (flag_key flag) (f ++ x :: t)).
Proof.
  intros Hx Hf Ht. induction Hf as [|y f Hy _ IH].
  - destruct Ht as [|z t Hz _]; [reflexivity|].
    cbn. now rewrite Hx, Hz.
  - cbn. rewrite Hx, Hy. cbn. cbn in IH. now rewrite IH.
Qed.

Lemma sort_by_flag (l : list A) :
  sort_by py_lt (map (flag_key flag) l)
  = Ok (map (flag_key flag) (flag_order flag l)).
Proof.
  unfold flag_order. induction l as [|x l IH]; [reflexivity|].
  cbn [map sort_by]. rewrite IH. cbn [result_bind filter].
  destruct (flag x) eqn:Hx; cbn [negb].
  - apply insert_by_set; [exact Hx| |]; apply Forall_forall; intros y Hy;
      apply filter_In in Hy; destruct Hy as [_ Hy];
      [now apply negb_true_iff | exact Hy].
  - now apply insert_by_unset.
Qed.

Lemma sorted_flag (key : A -> result pyval) (l : list A) :
  Forall (fun x => key x = Ok (PBool (flag x))) l ->
  sorted py_lt key l = Ok (flag_order flag l).
Proof.
  intros Hk. unfold sorted.
  rewrite (result_map_ok _ (flag_key flag)).
  - cbn. rewrite sort_by_flag. cbn. rewrite map_map. cbn. now rewrite map_id.
  - eapply Forall_impl; [|exact Hk]. intros x Hx. cbn in Hx. now rewrite Hx.
Qed.
End SortByFlagFacts.

(** ** Dictionaries *)

Lemma dict_get_set_same (d : dict) (k : string) (v : pyval) :
  dict_get (dict_set d k v) k = Some v.
Proof.
  induction d as [|[k' v'] d IH]; cbn.
  - now rewrite String.eqb_refl.
  - destruct (String.eqb k k') eqn:E; cbn; now rewrite E.
Qed.

Lemma dict_get_set_other (d : dict) (k k' : string) (v : pyval) :
  k' <> k -> dict_get (dict_set d k v) k' = dict_get d k'.
Proof.
  intros N. induction d as [|[k0 v0] d IH]; cbn.
  - apply String.eqb_neq in N. now rewrite N.
  - destruct (String.eqb k k0) eqn:E; cbn.
    + apply String.eqb_eq in E. subst k0.
      apply String.eqb_neq in N. now rewrite N.
    + now rewrite IH.
Qed.

Lemma dict_set_absent (d : dict) (k : string) (v : pyval) :
  dict_get d k = None -> dict_set d k v = (d ++ [(k, v)])%list.
Proof.
  induction d as [|[k' v'] d IH]; cbn; [reflexivity|].
  destruct (String.eqb k k'); [discriminate|]. intros H. now rewrite IH.
Qed.

Lemma dict_get_setdefault_same (d : dict) (k : string) (v : pyval) :
  dict_get (dict_setdefault d k v) k = Some (dict_get_default d k v).
Proof.
  unfold dict_setdefault, dict_contains, dict_get_default.
  destruct (dict_get d k) eqn:E; [exact E | apply dict_get_set_same].
Qed.

Lemma dict_get_setdefault_other (d : dict) (k k' : string) (v : pyval) :
  k' <> k -> dict_get (dict_setdefault d k v) k' = dict_get d k'.
Proof.
  intros N. unfold dict_setdefault. destruct (dict_contains d k); [reflexivity|].
  now apply dict_get_set_other.
Qed.

(** ** The reference codec reads back what it writes *)

Module RefJsonFacts.
Import RefJson.

Lemma append_assoc (a b c : string) : (a ++ b) ++ c = a ++ b ++ c.
Proof. induction a as [|x a IH]; cbn; [reflexivity | now rewrite IH]. Qed.

Lemma append_nil_r (a : string) : a ++ "" = a.
Proof. induction a as [|x a IH]; cbn; [reflexivity | now rewrite IH]. Qed.

Lemma length_append (a b : string) :
  String.length (a ++ b) = (String.length a + String.length b)%nat.
Proof. induction a as [|x a IH]; cbn; [reflexivity | now rewrite IH]. Qed.

Lemma parse_string_char (c : ascii) (tail : string) :
  parse_string (escape_char c ++ tail)
  = match parse_string tail with
    | Some (t, r) => Some (String c t, r)
    | None => None
    end.
Proof. destruct c as [[] [] [] [] [] [] [] []]; reflexivity. Qed.

Lemma parse_string_escape (s rest : string) :
  parse_string (escape s ++ String dquote rest) = Some (s, rest).
Proof.
  induction s as [|c s IH]; [reflexivity|].
  cbn [escape]. rewrite append_assoc, parse_string_char, IH. reflexivity.
Qed.

Lemma digits_of_append (fuel : nat) (n : Z) (acc rest : string) :
  digits_of fuel n acc ++ rest = digits_of fuel n (acc ++ rest).
Proof.
  revert n acc. induction fuel as [|f IH]; intros n acc; [reflexivity|].
  cbn [digits_of]. destruct (n <? 10); [reflexivity|]. now rewrite IH.
Qed.

Lemma parse_digits_digit (a k : Z) (s : string) :
  0 <= k < 10 -> parse_digits (String (digit_char k) s) a = parse_digits s (10 * a + k).
Proof.
  intros H. cbn [parse_digits].
  now destruct (digit_char_is_digit k H) as (-> & -> & _).
Qed.

Lemma digits_of_parse (fuel : nat) (n : Z) (acc : string) :
  0 <= n -> (Z.to_nat n < fuel)%nat ->
  exists p, n < p /\ forall a, parse_digits (digits_of fuel n acc) a
                              = parse_digits acc (a * p + n).
Proof.
  revert n acc. induction fuel as [|f IH]; intros n acc Hn Hf; [lia|].
  cbn [digits_of]. destruct (Z.ltb_spec n 10) as [Hlt|Hge].
  - exists 10. split; [lia|]. intros a.
    rewrite Z.mod_small by lia. rewrite parse_digits_digit by lia. f_equal. lia.
  - assert (Hd : n / 10 < n) by (apply Z.div_lt; lia).
    assert (H0 : 0 <= n / 10) by (apply Z.div_pos; lia).
    destruct (IH (n / 10) (String (digit_char (n mod 10)) acc) H0) as (p & Hp & E);
      [lia|].
    exists (10 * p). split.
    + pose proof (Z.div_mod n 10). pose proof (Z.mod_pos_bound n 10). lia.
    + intros a. rewrite E.
      rewrite parse_digits_digit by (apply Z.mod_pos_bound; lia).
      f_equal. pose proof (Z.div_mod n 10). lia.
Qed.

Lemma digit_char_head (n : Z) :
  1 <= n < 10 -> is_digit (digit_char n) = true
                 /\ Ascii.eqb (digit_char n) "0" = false.
Proof.
  intros H.
  assert (E : n = 1 \/ n = 2 \/ n = 3 \/ n = 4 \/ n = 5 \/ n = 6
              \/ n = 7 \/ n = 8 \/ n = 9) by lia.
  repeat destruct E as [->|E]; try subst n; split; reflexivity.
Qed.

Lemma digits_of_head (fuel : nat) (n : Z) (acc : string) :
  0 < n -> (Z.to_nat n < fuel)%nat ->
  exists c t, digits_of fuel n acc = String c t
              /\ is_digit c = true /\ Ascii.eqb c "0" = false.
Proof.
  revert n acc. induction fuel as [|f IH]; intros n acc Hn Hf; [lia|].
  cbn [digits_of]. destruct (Z.ltb_spec n 10) as [Hlt|Hge].
  - rewrite Z.mod_small by lia. eexists _, _. split; [reflexivity|].
    apply digit_char_head. lia.
  - apply IH.
    + apply Z.div_str_pos. lia.
    + assert (n / 10 < n) by (apply Z.div_lt; lia). lia.
Qed.

Lemma parse_digits_stop (r : string) (n : Z) :
  safe_tail r -> parse_digits r n = (n, r).
Proof. destruct r as [|c r]; [reflexivity|]. intros [H _]. cbn. now rewrite H. Qed.

Lemma safe_tail_fraction (r : string) : safe_tail r -> starts_fraction r = false.
Proof. destruct r; [reflexivity|]. now intros [_ H]. Qed.

Lemma is_digit_not_minus (c : ascii) :
  is_digit c = true -> Ascii.eqb c "-" = false.
Proof. destruct c as [[] [] [] [] [] [] [] []]; cbn; easy. Qed.

Lemma parse_nat_positive (n : Z) (rest : string) :
  0 < n -> safe_tail rest ->
  parse_nat (digits_of (S (Z.to_nat n)) n rest) = Some (n, rest)
  /\ exists c t, digits_of (S (Z.to_nat n)) n rest = String c t
                 /\ is_digit c = true.
Proof.
  intros Hn Hr.
  destruct (digits_of_head (S (Z.to_nat n)) n rest Hn) as (c & t & E & Hd & Hz);
    [lia|].
  split; [|now exists c, t].
  destruct (digits_of_parse (S (Z.to_nat n)) n rest) as (p & _ & Hp); [lia|lia|].
  specialize (Hp 0). rewrite E in *. unfold parse_nat. rewrite Hz, Hd, Hp.
  now rewrite parse_digits_stop.
Qed.

Lemma parse_number_decimal (n : Z) (rest : string) :
  safe_tail rest ->
  parse_number (decimal n ++ rest) = Some (PInt n, rest)
  /\ exists c t, decimal n ++ rest = String c t
                 /\ (is_digit c = true \/ c = "-"%char).
Proof.
  intros Hr. unfold decimal. destruct (Z.ltb_spec n 0) as [Hneg|Hpos].
  - cbn [append]. rewrite digits_of_append. cbn [append].
    split; [|eexists _, _; split; [reflexivity | now right]].
    unfold parse_number. cbn [Ascii.eqb Bool.eqb].
    destruct (parse_nat_positive (- n) rest) as [-> _]; [lia|assumption|].
    rewrite safe_tail_fraction by assumption. f_equal. f_equal. f_equal. lia.
  - rewrite digits_of_append. cbn [append].
    destruct (Z.eq_dec n 0) as [->|Hnz].
    + cbn. rewrite safe_tail_fraction by assumption.
      split; [reflexivity|]. eexists _, _. split; [reflexivity | now left].
    + destruct (parse_nat_positive n rest) as [E (c & t & Ec & Hd)];
        [lia|assumption|].
      split; [|exists c, t; split; [exact Ec | now left]].
      unfold parse_number. rewrite Ec in *.
      rewrite (is_digit_not_minus c Hd), E.
      now rewrite safe_tail_fraction by assumption.
Qed.

Lemma parse_value_number (f : nat) (c : ascii) (t : string) :
  is_digit c = true \/ c = "-"%char ->
  parse_value (S f) (String c t) = parse_number (String c t).
Proof.
  intros [H| ->]; [|reflexivity].
  destruct c as [[] [] [] [] [] [] [] []]; cbn in H; try discriminate; reflexivity.
Qed.

Section PyvalInd.
Variable P : pyval -> Prop.
Hypothesis HNone : P PNone.
Hypothesis HBool : forall b, P (PBool b).
Hypothesis HInt : forall n, P (PInt n).
Hypothesis HStr : forall s, P (PStr s).
Hypothesis HList : forall l, Forall P l -> P (PList l).
Hypothesis HDict : forall l, Forall (fun kv => P (snd kv)) l -> P (PDict l).

Lemma pyval_nested_ind : forall v, P v.
Proof.
  fix IH 1. intros [| b | n | s | l | l].
  - apply HNone.
  - apply HBool.
  - apply HInt.
  - apply HStr.
  - apply HList. induction l as [|x l IHl]; constructor; [apply IH | exact IHl].
  - apply HDict. induction l as [|[k x] l IHl]; constructor; [apply IH | exact IHl].
Qed.
End PyvalInd.

Lemma skip_ws_spaces (n : nat) (s : string) : skip_ws (spaces n ++ s) = skip_ws s.
Proof. induction n as [|n IH]; [reflexivity|]. cbn. exact IH. Qed.

Lemma skip_ws_break (d : nat) (s : string) : skip_ws (break d ++ s) = skip_ws s.
Proof. unfold break. cbn. apply skip_ws_spaces. Qed.

Lemma skip_ws_value (s : string) : starts_value s -> skip_ws s = s.
Proof. destruct s as [|c s]; [easy|]. intros (H & _). cbn. now rewrite H. Qed.

Lemma is_digit_starts (c : ascii) (t : string) :
  is_digit c = true \/ c = "-"%char -> starts_value (String c t).
Proof.
  intros [H| ->]; [|now repeat split].
  destruct c as [[] [] [] [] [] [] [] []]; cbn in H; try discriminate;
    now repeat split.
Qed.

Lemma dumps_at_starts (depth : nat) (v : pyval) (rest : string) :
  safe_tail rest -> starts_value (dumps_at depth v ++ rest).
Proof.
  intros Hr. destruct v as [| [] | n | s | [|x l] | [|[k x] l]];
    try (now repeat split).
  destruct (parse_number_decimal n rest Hr) as [_ (c & t & E & H)].
  cbn [dumps_at]. rewrite E. now apply is_digit_starts.
Qed.

Lemma safe_tail_break (d : nat) (s : string) : safe_tail (break d ++ s).
Proof. now split. Qed.

Lemma safe_tail_comma (s : string) : safe_tail (String "," s).
Proof. now split. Qed.

Lemma parse_items_list (depth : nat) (rest : string) (xs : list pyval) :
  Forall round_trips xs ->
  forall x acc fuel,
    round_trips x ->
    (S (json_size x) + list_sum (map (fun y => S (json_size y)) xs) <= fuel)%nat ->
    parse_items fuel
      (dumps_at (S depth) x
       ++ items_text ("," ++ break (S depth)) (dumps_at (S depth)) xs
       ++ break depth ++ "]" ++ rest) acc
    = Some (PList (rev acc ++ x :: xs), rest).
Proof.
  induction 1 as [|y ys Hy _ IH]; intros x acc fuel Hx Hf;
    (destruct fuel as [|f]; [cbn in Hf; lia|]); cbn [parse_items].
  - cbn [items_text append].
    rewrite Hx by (try apply safe_tail_break; cbn in Hf; lia).
    rewrite skip_ws_break. cbn. reflexivity.
  - cbn [items_text]. rewrite !append_assoc. cbn [append].
    rewrite Hx by (try apply safe_tail_comma; cbn in Hf; lia).
    cbn [skip_ws json_ws]. cbn [Ascii.eqb Bool.eqb].
    change (json_ws ",") with false. cbv iota.
    rewrite skip_ws_break, skip_ws_value.
    + rewrite IH by (try assumption; unfold list_sum in *;
                       cbn [map fold_right] in *; lia).
      cbn [rev]. now rewrite <- app_assoc.
    + apply dumps_at_starts.
      destruct ys; cbn [items_text append];
        [apply safe_tail_break | rewrite !append_assoc; apply safe_tail_comma].
Qed.

Lemma dict_get_notin (d : dict) (k : string) :
  ~ In k (map fst d) -> dict_get d k = None.
Proof.
  induction d as [|[k' v] d IH]; [reflexivity|]. cbn. intros H.
  destruct (String.eqb_spec k k') as [->|N]; [now elim H; left|].
  apply IH. intros Hin. apply H. now right.
Qed.

Lemma dict_set_fresh (acc : dict) (kv : string * pyval) (xs : dict) :
  NoDup (map fst (acc ++ kv :: xs)) ->
  dict_set acc (fst kv) (snd kv) = (acc ++ [kv])%list.
Proof.
  intros H. rewrite dict_set_absent; [now destruct kv|].
  apply dict_get_notin. rewrite map_app in H. cbn in H.
  apply NoDup_remove_2 in H. intros Hin. apply H. apply in_or_app. now left.
Qed.

Lemma safe_tail_colon (s : string) : safe_tail (String ":" s).
Proof. now split. Qed.

Lemma skip_ws_colon (s : string) : skip_ws (String ":" s) = String ":" s.
Proof. reflexivity. Qed.

Lemma skip_ws_comma (s : string) : skip_ws (String "," s) = String "," s.
Proof. reflexivity. Qed.

Lemma skip_ws_space (s : string) : skip_ws (String " " s) = skip_ws s.
Proof. reflexivity. Qed.

Lemma skip_ws_close (s : string) : skip_ws (String "}" s) = String "}" s.
Proof. reflexivity. Qed.

Lemma parse_members_dict (depth : nat) (rest : string) (xs : dict) :
  Forall (fun kv => round_trips (snd kv)) xs ->
  forall kv acc fuel,
    round_trips (snd kv) ->
    NoDup (map fst (acc ++ kv :: xs)) ->
    (S (json_size (snd kv))
     + list_sum (map (fun kv => S (json_size (snd kv))) xs) <= fuel)%nat ->
    parse_members fuel
      ((quote (fst kv) ++ ": " ++ dumps_at (S depth) (snd kv))
       ++ items_text ("," ++ break (S depth))
            (fun kv => quote (fst kv) ++ ": " ++ dumps_at (S depth) (snd kv)) xs
       ++ break depth ++ "}" ++ rest) acc
    = Some (PDict (acc ++ kv :: xs), rest).
Proof.
  induction 1 as [|kv' ys Hy _ IH]; intros kv acc fuel Hx Hnd Hf;
    (destruct fuel as [|f]; [cbn in Hf; lia|]); cbn [parse_members];
    unfold quote at 1; cbn [append]; rewrite !append_assoc; cbn [append];
    change (Ascii.eqb dquote dquote) with true; cbv iota;
    rewrite parse_string_escape, skip_ws_colon;
    change (Ascii.eqb ":" ":") with true; cbv iota;
    rewrite skip_ws_space.
  - cbn [items_text append].
    rewrite skip_ws_value by (apply dumps_at_starts, safe_tail_break).
    rewrite Hx by (try apply safe_tail_break; cbn in Hf; lia).
    rewrite skip_ws_break. cbn [append]. rewrite skip_ws_close.
    change (Ascii.eqb "}" ",") with false.
    change (Ascii.eqb "}" "}") with true. cbv iota.
    now rewrite (dict_set_fresh acc kv []).
  - cbn [items_text]. rewrite !append_assoc. cbn [append].
    rewrite skip_ws_value by (apply dumps_at_starts, safe_tail_comma).
    rewrite Hx by (try apply safe_tail_comma; cbn in Hf; lia).
    rewrite skip_ws_comma.
    change (Ascii.eqb "," ",") with true. cbv iota.
    rewrite skip_ws_break.
    rewrite (dict_set_fresh acc kv (kv' :: ys)) by assumption.
    rewrite skip_ws_value by now repeat split.
    pose proof (IH kv' (acc ++ [kv])%list f Hy) as E.
    rewrite !append_assoc in E. cbn [append] in E.
    rewrite E.
    + now rewrite <- app_assoc.
    + now rewrite <- app_assoc.
    + unfold list_sum in *. cbn [map fold_right] in *. lia.
Qed.

Lemma json_wf_list (l : list pyval) :
  json_wf (PList l) -> Forall json_wf l.
Proof.
  cbn [json_wf]. induction l as [|x l IH]; [constructor|].
  cbn [fold_right]. intros [Hx Hl]. constructor; [exact Hx | now apply IH].
Qed.

Lemma json_wf_dict (l : dict) :
  json_wf (PDict l) -> NoDup (map fst l) /\ Forall (fun kv => json_wf (snd kv)) l.
Proof.
  cbn [json_wf]. intros [Hn H]. split; [exact Hn|]. clear Hn.
  induction l as [|x l IH]; [constructor|].
  cbn [fold_right] in H. destruct H as [Hx Hl]. constructor; [exact Hx | now apply IH].
Qed.

Lemma Forall_mp {A} (P Q : A -> Prop) (l : list A) :
  Forall (fun x => P x -> Q x) l -> Forall P l -> Forall Q l.
Proof.
  induction 1 as [|x l Hx _ IH]; intros H; [constructor|].
  inversion H; subst. constructor; auto.
Qed.

Theorem parse_value_dumps_at (v : pyval) : json_wf v -> round_trips v.
Proof.
  induction v as [| b | n | s | l IH | l IH] using pyval_nested_ind;
    intros Hwf depth rest fuel Hr Hf;
    (destruct fuel as [|f]; [cbn in Hf; lia|]).
  - reflexivity.
  - now destruct b.
  - destruct (parse_number_decimal n rest Hr) as [E (c & t & Ec & Hc)].
    cbn [dumps_at]. rewrite Ec, parse_value_number by assumption.
    now rewrite <- Ec.
  - cbn [dumps_at]. unfold quote. cbn [append]. rewrite append_assoc.
    cbn [append parse_value].
    change (Ascii.eqb dquote "[") with false.
    change (Ascii.eqb dquote "{") with false.
    change (Ascii.eqb dquote dquote) with true. cbv iota.
    now rewrite parse_string_escape.
  - apply json_wf_list in Hwf. pose proof (Forall_mp _ _ _ IH Hwf) as H.
    destruct l as [|x xs]; [reflexivity|].
    inversion H as [|? ? Hx Hxs]; subst.
    cbn [dumps_at]. rewrite !append_assoc. cbn [append parse_value].
    change (Ascii.eqb "[" "[") with true. cbv iota.
    rewrite skip_ws_break.
    remember (dumps_at (S depth) x ++ _) as X eqn:EX.
    assert (HX : starts_value X).
    { rewrite EX. apply dumps_at_starts.
      destruct xs; cbn [items_text append];
        [apply safe_tail_break | rewrite !append_assoc; apply safe_tail_comma]. }
    rewrite skip_ws_value by exact HX.
    destruct X as [|c2 s2]; [contradiction|].
    destruct HX as (_ & -> & _). rewrite EX.
    pose proof (parse_items_list depth rest xs Hxs x [] f Hx) as E.
    cbn [append] in E. rewrite E; [reflexivity|].
    cbn [json_size] in Hf. unfold list_sum in *. cbn [map fold_right] in *. lia.
  - apply json_wf_dict in Hwf. destruct Hwf as [Hnd Hwf].
    pose proof (Forall_mp _ _ _ IH Hwf) as H.
    destruct l as [|kv xs]; [reflexivity|].
    inversion H as [|? ? Hx Hxs]; subst.
    cbn [dumps_at]. cbv zeta. rewrite !append_assoc. cbn [append parse_value].
    change (Ascii.eqb "{" "[") with false.
    change (Ascii.eqb "{" "{") with true. cbv iota.
    rewrite skip_ws_break.
    pose proof (parse_members_dict depth rest xs Hxs kv [] f Hx Hnd) as E.
    rewrite !append_assoc in E. cbn [append] in E.
    unfold quote at 1. cbn [append]. unfold quote at 1 in E. cbn [append] in E.
    change (skip_ws (String dquote ?s)) with (String dquote s).
    cbv iota. change (Ascii.eqb dquote "}") with false. cbv iota.
    rewrite E; [reflexivity|].
    cbn [json_size] in Hf. unfold list_sum in *. cbn [map fold_right] in *. lia.
Qed.

Lemma dumps_at_nonempty (depth : nat) (v : pyval) :
  exists c t, dumps_at depth v = String c t.
Proof.
  pose proof (dumps_at_starts depth v "" I) as H. rewrite append_nil_r in H.
  destruct (dumps_at depth v) as [|c t]; [contradiction | now exists c, t].
Qed.

Lemma items_text_length {A} (sep : string) (f : A -> string) (size : A -> nat)
      (l : list A) :
  (1 <= String.length sep)%nat ->
  Forall (fun x => (size x <= String.length (f x))%nat) l ->
  (list_sum (map (fun x => S (size x)) l)
   <= String.length (items_text sep f l))%nat.
Proof.
  intros Hs. induction 1 as [|x l Hx _ IH]; [cbn; lia|].
  cbn [items_text]. rewrite !length_append. unfold list_sum in *.
  cbn [map fold_right]. lia.
Qed.

Lemma json_size_le_length (v : pyval) :
  forall depth, (json_size v <= String.length (dumps_at depth v))%nat.
Proof.
  induction v as [| b | n | s | l IH | l IH] using pyval_nested_ind; intros depth;
    try match goal with
        | |- (json_size ?v <= String.length (dumps_at ?d ?v))%nat =>
            destruct (dumps_at_nonempty d v) as (c & t & E);
            rewrite E; cbn; lia
        end.
  - destruct l as [|x xs]; [cbn; lia|].
    inversion IH as [|? ? Hx Hxs]; subst.
    cbn [dumps_at json_size]. rewrite !length_append.
    pose proof (items_text_length ("," ++ break (S depth)) (dumps_at (S depth))
                  json_size xs) as H.
    specialize (Hx (S depth)).
    unfold list_sum in *. cbn [map fold_right String.length] in *.
    assert (Forall (fun x => (json_size x <= String.length (dumps_at (S depth) x))%nat) xs).
    { eapply Forall_impl; [|exact Hxs]. intros a Ha. apply Ha. }
    specialize (H ltac:(cbn; lia) H0). lia.
  - destruct l as [|kv xs]; [cbn; lia|].
    inversion IH as [|? ? Hx Hxs]; subst.
    cbn [dumps_at json_size]. cbv zeta. rewrite !length_append.
    pose proof (items_text_length ("," ++ break (S depth))
                  (fun kv => quote (fst kv) ++ ": " ++ dumps_at (S depth) (snd kv))
                  (fun kv => json_size (snd kv)) xs) as H.
    specialize (Hx (S depth)).
    unfold list_sum in *. cbn [map fold_right String.length] in *.
    assert (Forall (fun kv => (json_size (snd kv)
                               <= String.length (quote (fst kv) ++ ": "
                                                 ++ dumps_at (S depth) (snd kv)))%nat) xs).
    { eapply Forall_impl; [|exact Hxs]. intros a Ha. cbn beta in Ha.
      rewrite !length_append. specialize (Ha (S depth)). lia. }
    specialize (H ltac:(cbn; lia) H0). lia.
Qed.

(** The reference decoder reads back what the reference encoder writes. *)
Theorem loads_dumps (v : pyval) : json_wf v -> loads (dumps v) = Ok v.
Proof.
  intros Hwf. unfold loads, dumps.
  assert (Hs : starts_value (dumps_at 0 v)).
  { pose proof (dumps_at_starts 0 v "" I) as H. now rewrite append_nil_r in H. }
  rewrite skip_ws_value by exact Hs.
  pose proof (parse_value_dumps_at v Hwf 0%nat "" (S (String.length (dumps_at 0 v))) I)
    as E.
  rewrite append_nil_r in E. rewrite E; [reflexivity|].
  pose proof (json_size_le_length v 0). lia.
Qed.

Lemma dumps_nonempty (v : pyval) : dumps v <> "".
Proof.
  unfold dumps. destruct (dumps_at_nonempty 0 v) as (c & t & ->). discriminate.
Qed.

Lemma json_wf_objects (l : list dict) :
  Forall (fun d => json_wf (PDict d)) l -> json_wf (PList (map PDict l)).
Proof.
  cbn [json_wf]. induction 1 as [|d l Hd _ IH]; [exact I|].
  cbn [map fold_right]. split; [exact Hd | exact IH].
Qed.


End RefJsonFacts.

(** ** Loading *)

Lemma after_warnings_nil (s : state) : after_warnings s [] = s.
Proof.
  destruct s. unfold after_warnings. cbn. rewrite Nat.add_0_r, app_nil_r.
  reflexivity.
Qed.

Lemma after_warnings_cons (s : state) (w : message) (ws : list message) :
  after_warnings (tick (emit (Printed w) s)) ws = after_warnings s (w :: ws).
Proof.
  unfold after_warnings. cbn. rewrite <- app_assoc, Nat.add_succ_r.
  reflexivity.
Qed.

Section Loading.
Variable json_loads : string -> result pyval.
Variable clock : nat -> datetime.

Lemma setdefaults_timestamp (d : dict) :
  dict_get (dict_setdefault
              (dict_setdefault d "description" (PStr "No Description"))
              "done" (PBool false)) "timestamp"
  = dict_get d "timestamp".
Proof.
  rewrite !dict_get_setdefault_other by discriminate. reflexivity.
Qed.

Lemma setdefaults_spec (d : dict) :
  dict_setdefault (dict_setdefault d "description" (PStr "No Description"))
                  "done" (PBool false)
  = (let d1 := match dict_get d "description" with
               | Some _ => d
               | None => (d ++ [("description", PStr "No Description")])%list
               end in
     match dict_get d1 "done" with
     | Some _ => d1
     | None => (d1 ++ [("done", PBool false)])%list
     end).
Proof.
  cbv zeta. unfold dict_setdefault at 2. unfold dict_contains.
  destruct (dict_get d "description") eqn:E1.
  - unfold dict_setdefault, dict_contains.
    destruct (dict_get d "done") eqn:E2; [reflexivity|].
    now apply dict_set_absent.
  - rewrite (dict_set_absent _ _ _ E1).
    unfold dict_setdefault, dict_contains.
    destruct (dict_get (d ++ _)%list "done") eqn:E2; [reflexivity|].
    now apply dict_set_absent.
Qed.

(** One turn of the loop on a stored record. *)
Lemma load_task_dict (d : dict) (s : state) :
  text_timestamp d ->
  load_task clock (PDict d) s
  = (Ok (spec_defaulted (strftime (clock (ticks s))) d),
     if timestamp_rejected d
     then tick (emit (Printed (timestamp_warning d)) s) else s).
Proof.
  intros Ht. unfold load_task, spec_defaulted, timestamp_rejected.
  rewrite <- setdefaults_spec.
  set (d2 := dict_setdefault (dict_setdefault d _ _) _ _).
  unfold dict_contains, getitem.
  assert (E2 : dict_get d2 "timestamp" = dict_get d "timestamp")
    by apply setdefaults_timestamp.
  rewrite E2.
  destruct (dict_get d "timestamp") as [v|] eqn:E.
  - destruct (Ht v E) as [t ->]. cbn [negb].
    unfold try_except, bind, lift, ret.
    destruct (strptime_text_cases t) as [[dt Hd]|Hd]; rewrite Hd.
    + reflexivity.
    + cbn. unfold timestamp_warning, dict_get_none, dict_get_default.
      unfold d2. rewrite dict_get_setdefault_other by discriminate.
      rewrite dict_get_setdefault_same. reflexivity.
  - cbn. now rewrite dict_set_absent by exact E2.
Qed.

Lemma for_each_load_task (ds : list dict) (s : state) :
  Forall text_timestamp ds ->
  for_each (load_task clock) (map PDict ds) s
  = (Ok (loaded_from clock (ticks s) ds),
     after_warnings s (map timestamp_warning (filter timestamp_rejected ds))).
Proof.
  intros H. revert s. induction H as [|d ds Hd _ IH]; intros s.
  - cbn. now rewrite after_warnings_nil.
  - cbn [map for_each]. unfold bind at 1. rewrite load_task_dict by exact Hd.
    unfold bind at 1. rewrite IH. cbn [ret loaded_from filter].
    destruct (timestamp_rejected d); [|reflexivity].
    cbn [map]. now rewrite after_warnings_cons.
Qed.
End Loading.

Lemma dict_get_app_absent (d : dict) (k k' : string) (v : pyval) :
  dict_get (d ++ [(k, v)])%list k'
  = match dict_get d k' with
    | Some w => Some w
    | None => if String.eqb k' k then Some v else None
    end.
Proof.
  induction d as [|[k0 v0] d IH]; cbn; [reflexivity|].
  now destruct (String.eqb k' k0).
Qed.

Lemma spec_defaulted_fields (now : string) (d : dict) :
  text_timestamp d -> fields_defaulted now d (spec_defaulted now d).
Proof.
  intros Ht. unfold fields_defaulted, spec_defaulted. cbv zeta.
  pose proof (setdefaults_spec d) as E0. cbv zeta in E0. rewrite <- !E0. clear E0.
  set (d2 := dict_setdefault (dict_setdefault d _ _) _ _).
  assert (Hdesc : dict_get d2 "description"
                  = Some (dict_get_default d "description" (PStr "No Description"))).
  { unfold d2. rewrite dict_get_setdefault_other by discriminate.
    apply dict_get_setdefault_same. }
  assert (Hdone : dict_get d2 "done"
                  = Some (dict_get_default d "done" (PBool false))).
  { unfold d2. rewrite dict_get_setdefault_same. f_equal.
    unfold dict_get_default.
    now rewrite dict_get_setdefault_other by discriminate. }
  assert (Hts : dict_get d2 "timestamp" = dict_get d "timestamp")
    by apply setdefaults_timestamp.
  assert (Hk : forall k, k <> "description" -> k <> "done" ->
                         dict_get d2 k = dict_get d k).
  { intros k N1 N2. unfold d2. now rewrite !dict_get_setdefault_other. }
  unfold timestamp_rejected. rewrite Hts.
  destruct (dict_get d "timestamp") as [v|] eqn:E.
  - destruct (Ht v E) as [t ->].
    destruct (strptime_text_cases t) as [[dt Hd]|Hd]; rewrite Hd.
    + repeat split; auto.
    + repeat split.
      * now rewrite dict_get_set_other by discriminate.
      * now rewrite dict_get_set_other by discriminate.
      * apply dict_get_set_same.
      * intros k N1 N2 N3. rewrite dict_get_set_other by exact N3. now apply Hk.
  - repeat split.
    + rewrite dict_get_app_absent, Hdesc. reflexivity.
    + rewrite dict_get_app_absent, Hdone. reflexivity.
    + rewrite dict_get_app_absent, Hts. reflexivity.
    + intros k N1 N2 N3. rewrite dict_get_app_absent, Hk by assumption.
      apply String.eqb_neq in N3. rewrite N3. now destruct (dict_get d k).
Qed.

Section LoadingClaims.
Variable json_loads : string -> result pyval.
Variable clock : nat -> datetime.

Lemma load_tasks_present (filename : string) (s : state) (size : nat)
      (content : result string) :
  fs s filename = Present size content -> size <> 0%nat ->
  load_tasks json_loads clock filename s
  = match load_body json_loads clock filename content s with
    | (Ok l, s') => (Ok l, s')
    | (Raise e, s') => (Ok [], emit (Printed (loading_error filename e)) s')
    end.
Proof.
  intros Hf Hs. unfold load_tasks, bind at 1, gets. rewrite Hf.
  apply Nat.eqb_neq in Hs. rewrite Hs. unfold try_except.
  destruct (load_body _ _ _ _ s) as [[l|e] s']; [reflexivity|].
  now destruct e.
Qed.

(** Loading a file that holds an array of objects. *)
Lemma load_tasks_objects (filename : string) (s : state) (size : nat)
      (text : string) (ds : list dict) :
  fs s filename = Present size (Ok text) ->
  size <> 0%nat ->
  json_loads text = Ok (PList (map PDict ds)) ->
  Forall text_timestamp ds ->
  load_tasks json_loads clock filename s
  = (Ok (loaded_from clock (ticks s) ds),
     after_warnings s (map timestamp_warning (filter timestamp_rejected ds))).
Proof.
  intros Hf Hs Hj Ht. rewrite (load_tasks_present _ _ _ _ Hf Hs).
  unfold load_body, bind, lift. rewrite Hj.
  now rewrite for_each_load_task.
Qed.

(** C1.  For a file that holds a JSON array of objects (with text
    timestamps where present), [load_tasks] returns one record per stored
    object, each with the fields defaulted: a missing description becomes
    'No Description', a missing done flag becomes false, a missing
    timestamp becomes '1970-01-01 00:00:00', a timestamp that does not
    parse becomes the current time, with one warning printed for each, and
    every field that is present is otherwise left as it is. *)
Theorem load_tasks_defaulting (filename : string) (s : state) (size : nat)
        (text : string) (ds : list dict) :
  fs s filename = Present size (Ok text) ->
  size <> 0%nat ->
  json_loads text = Ok (PList (map PDict ds)) ->
  Forall text_timestamp ds ->
  exists l,
    load_tasks json_loads clock filename s
    = (Ok l, after_warnings s (map timestamp_warning
                                   (filter timestamp_rejected ds)))
    /\ l = loaded_from clock (ticks s) ds
    /\ Forall2 (fun d d' =>
                  exists n, (ticks s <= n)%nat
                            /\ d' = spec_defaulted (strftime (clock n)) d
                            /\ fields_defaulted (strftime (clock n)) d d')
               ds l.
Proof.
  intros Hf Hs Hj Ht. exists (loaded_from clock (ticks s) ds).
  split; [|split; [reflexivity|]].
  - now apply load_tasks_objects with (size := size) (text := text).
  - clear Hj. generalize (ticks s). intros n. revert n.
    induction Ht as [|d ds Hd _ IH]; intros n; cbn; constructor.
    + exists n.
      split; [lia | split; [reflexivity | now apply spec_defaulted_fields]].
    + eapply Forall2_impl; [|apply IH].
      intros a b (m & Hm & Hf'). exists m. split; [|exact Hf'].
      destruct (timestamp_rejected d); lia.
Qed.
End LoadingClaims.

Section LoadingOutcomes.
Variable json_loads : string -> result pyval.
Variable clock : nat -> datetime.

Lemma load_task_not_object (v : pyval) (s : state) :
  not_object v -> load_task clock v s = (Raise AttributeError, s).
Proof.
  intros H. destruct v; try reflexivity. now elim (H items).
Qed.

(** One turn of the loop on any stored object. *)
Lemma load_task_object (d : dict) (s : state) :
  let d2 := dict_setdefault
              (dict_setdefault d "description" (PStr "No Description"))
              "done" (PBool false) in
  load_task clock (PDict d) s
  = match dict_get d "timestamp" with
    | None => (Ok (dict_set d2 "timestamp" (PStr "1970-01-01 00:00:00")), s)
    | Some v =>
        match strptime v with
        | Ok _ => (Ok d2, s)
        | Raise TypeError => (Raise TypeError, s)
        | Raise _ =>
            (Ok (dict_set d2 "timestamp" (PStr (strftime (clock (ticks s))))),
             tick (emit (Printed (WarnTimestamp (dict_get_none d2 "description"))) s))
        end
    end.
Proof.
  intros d2. unfold load_task. fold d2. unfold dict_contains, getitem.
  replace (dict_get d2 "timestamp") with (dict_get d "timestamp")
    by (symmetry; apply setdefaults_timestamp).
  destruct (dict_get d "timestamp") as [v|]; [|reflexivity].
  cbn [negb]. unfold try_except, bind, lift, ret.
  destruct (strptime v) as [dt|e] eqn:E; [reflexivity|].
  destruct (strptime_raises v e E) as [-> | ->]; reflexivity.
Qed.

Lemma load_task_raises (v : pyval) (s s' : state) (e : exn) :
  load_task clock v s = (Raise e, s') ->
  s' = s /\ (e = AttributeError \/ e = TypeError).
Proof.
  destruct v; try (cbn; intros [= <- <-]; auto).
  rewrite load_task_object. cbv zeta.
  destruct (dict_get items "timestamp") as [v|]; [|discriminate].
  destruct (strptime v) as [dt|e'] eqn:E; [discriminate|].
  destruct (strptime_raises v e' E) as [-> | ->]; [discriminate|].
  intros [= <- <-]. auto.
Qed.

Lemma load_task_fields (v : pyval) (s s' : state) (d' : dict) :
  (forall n, valid_datetime (clock n)) ->
  load_task clock v s = (Ok d', s') -> fields_present d'.
Proof.
  intros Hc. destruct v; try discriminate.
  rewrite load_task_object. cbv zeta.
  set (d2 := dict_setdefault (dict_setdefault items _ _) _ _).
  assert (Hdesc : dict_get d2 "description" <> None).
  { unfold d2. rewrite dict_get_setdefault_other by discriminate.
    now rewrite dict_get_setdefault_same. }
  assert (Hdone : dict_get d2 "done" <> None).
  { unfold d2. now rewrite dict_get_setdefault_same. }
  assert (Hts : dict_get d2 "timestamp" = dict_get items "timestamp")
    by apply setdefaults_timestamp.
  destruct (dict_get items "timestamp") as [v|] eqn:Ev.
  - destruct (strptime v) as [dt|e] eqn:E.
    + intros [= <- <-]. repeat split; try assumption.
      destruct v; try discriminate. exists s0, dt. now rewrite Hts.
    + destruct (strptime_raises v e E) as [-> | ->]; [|discriminate].
      intros [= <- <-]. repeat split.
      * now rewrite dict_get_set_other by discriminate.
      * now rewrite dict_get_set_other by discriminate.
      * exists (strftime (clock (ticks s))), (clock (ticks s)).
        split; [apply dict_get_set_same | now apply strptime_strftime].
  - intros [= <- <-]. repeat split.
    + now rewrite dict_get_set_other by discriminate.
    + now rewrite dict_get_set_other by discriminate.
    + exists "1970-01-01 00:00:00", (mk_datetime 1970 1 1 0 0 0).
      split; [apply dict_get_set_same | reflexivity].
Qed.

Lemma for_each_load_raises (items : list pyval) (s s' : state) (e : exn) :
  for_each (load_task clock) items s = (Raise e, s') ->
  e = AttributeError \/ e = TypeError.
Proof.
  revert s. induction items as [|v items IH]; intros s; [discriminate|].
  cbn [for_each]. unfold bind at 1.
  destruct (load_task clock v s) as [[d|e0] s0] eqn:E.
  - unfold bind at 1.
    destruct (for_each (load_task clock) items s0) as [[l|e1] s1] eqn:E1.
    + discriminate.
    + intros [= <- <-]. exact (IH _ E1).
  - intros [= <- <-]. now apply load_task_raises in E.
Qed.

Lemma for_each_load_bad (items : list pyval) (s : state) :
  Exists not_object items ->
  exists e s', for_each (load_task clock) items s = (Raise e, s').
Proof.
  intros H. revert s. induction H as [v items Hv|v items _ IH]; intros s.
  - cbn [for_each]. unfold bind at 1. rewrite load_task_not_object by exact Hv.
    now exists AttributeError, s.
  - cbn [for_each]. unfold bind at 1.
    destruct (load_task clock v s) as [[d|e0] s0].
    + unfold bind at 1. destruct (IH s0) as (e & s' & ->). now exists e, s'.
    + now exists e0, s0.
Qed.

Lemma for_each_load_fields (items : list pyval) (s s' : state) (l : list dict) :
  (forall n, valid_datetime (clock n)) ->
  for_each (load_task clock) items s = (Ok l, s') -> Forall fields_present l.
Proof.
  intros Hc. revert s l. induction items as [|v items IH]; intros s l.
  - intros [= <- <-]. constructor.
  - cbn [for_each]. unfold bind at 1.
    destruct (load_task clock v s) as [[d|e0] s0] eqn:E; [|discriminate].
    unfold bind at 1.
    destruct (for_each (load_task clock) items s0) as [[l1|e1] s1] eqn:E1;
      [|discriminate].
    intros [= <- <-]. constructor.
    + eapply load_task_fields; eassumption.
    + eapply IH; eassumption.
Qed.

Lemma load_body_raises (filename : string) (text : string) (items : list pyval)
      (s s' : state) (e : exn) :
  json_loads text = Ok (PList items) ->
  load_body json_loads clock filename (Ok text) s = (Raise e, s') ->
  loading_error filename e = ErrUnexpectedLoading e.
Proof.
  intros Hj. unfold load_body, bind, lift. rewrite Hj. intros H.
  apply for_each_load_raises in H. now destruct H as [-> | ->].
Qed.

(** C10.  Loading is all or nothing: when the file holds a JSON array
    one of whose elements is not an object, [load_tasks] returns the empty
    list, whatever well-formed objects the array also holds, and reports
    the failure as an unexpected error. *)
Theorem load_tasks_all_or_nothing (filename : string) (s : state)
        (size : nat) (text : string) (items : list pyval) :
  fs s filename = Present size (Ok text) ->
  size <> 0%nat ->
  json_loads text = Ok (PList items) ->
  Exists not_object items ->
  exists e s1,
    load_tasks json_loads clock filename s
    = (Ok [], emit (Printed (ErrUnexpectedLoading e)) s1).
Proof.
  intros Hf Hs Hj Hbad.
  rewrite (load_tasks_present _ _ _ _ _ _ Hf Hs).
  destruct (for_each_load_bad items s Hbad) as (e & s1 & He).
  assert (Hb : load_body json_loads clock filename (Ok text) s = (Raise e, s1)).
  { unfold load_body, bind, lift. now rewrite Hj. }
  rewrite Hb. rewrite (load_body_raises _ _ _ _ _ _ Hj Hb).
  now exists e, s1.
Qed.

Lemma load_tasks_absent (filename : string) (s : state) :
  fs s filename = Absent ->
  load_tasks json_loads clock filename s = (Ok [], s).
Proof. intros Hf. unfold load_tasks, bind, gets. now rewrite Hf. Qed.

Lemma load_tasks_empty (filename : string) (s : state) (content : result string) :
  fs s filename = Present 0 content ->
  load_tasks json_loads clock filename s
  = (Ok [], emit (Printed (WarnEmptyFile filename)) s).
Proof. intros Hf. unfold load_tasks, bind, gets. now rewrite Hf. Qed.

Lemma load_body_unreadable (filename : string) (e : exn) (s : state) :
  load_body json_loads clock filename (Raise e) s = (Raise e, s).
Proof. reflexivity. Qed.

Lemma load_body_undecodable (filename text : string) (e : exn) (s : state) :
  json_loads text = Raise e ->
  load_body json_loads clock filename (Ok text) s = (Raise e, s).
Proof. intros H. unfold load_body, bind, lift. now rewrite H. Qed.

Lemma load_body_not_list (filename text : string) (v : pyval) (s : state) :
  json_loads text = Ok v -> (forall items, v <> PList items) ->
  load_body json_loads clock filename (Ok text) s
  = (Ok [], emit (Printed (WarnFormat filename)) s).
Proof.
  intros H N. unfold load_body, bind, lift. rewrite H.
  destruct v; try reflexivity. now elim (N items).
Qed.

Lemma load_tasks_returns (filename : string) (s : state) :
  exists l s', load_tasks json_loads clock filename s = (Ok l, s').
Proof.
  destruct (fs s filename) as [|size content] eqn:Hf.
  - rewrite load_tasks_absent by exact Hf. now exists [], s.
  - destruct (Nat.eq_dec size 0) as [->|Hs].
    + rewrite (load_tasks_empty _ _ _ Hf). eauto.
    + rewrite (load_tasks_present _ _ _ _ _ _ Hf Hs).
      destruct (load_body json_loads clock filename content s) as [[l|e] s1];
        eauto.
Qed.

(** C2.  [load_tasks] never raises and always returns a list.  It is the
    empty list, without a message, when the path does not exist; the empty
    list with a warning when the file has length zero, when its content is
    not a JSON array, when it does not decode, when it cannot be read, and
    whenever anything else goes wrong inside the [try] block. *)
Theorem load_tasks_total (filename : string) (s : state) :
  exists l s',
    load_tasks json_loads clock filename s = (Ok l, s')
    /\ (fs s filename = Absent -> l = [] /\ s' = s)
    /\ (forall size content,
           fs s filename = Present size content -> size = 0%nat ->
           l = [] /\ s' = emit (Printed (WarnEmptyFile filename)) s)
    /\ (forall size text v,
           fs s filename = Present size (Ok text) -> size <> 0%nat ->
           json_loads text = Ok v -> (forall items, v <> PList items) ->
           l = [] /\ s' = emit (Printed (WarnFormat filename)) s)
    /\ (forall size text,
           fs s filename = Present size (Ok text) -> size <> 0%nat ->
           json_loads text = Raise JSONDecodeError ->
           l = [] /\ s' = emit (Printed (ErrLoading filename JSONDecodeError)) s)
    /\ (forall size,
           fs s filename = Present size (Raise OSError) -> size <> 0%nat ->
           l = [] /\ s' = emit (Printed (ErrLoading filename OSError)) s)
    /\ (forall size content e s1,
           fs s filename = Present size content -> size <> 0%nat ->
           load_body json_loads clock filename content s = (Raise e, s1) ->
           l = [] /\ s' = emit (Printed (loading_error filename e)) s1).
Proof.
  destruct (load_tasks_returns filename s) as (l & s' & E).
  exists l, s'. split; [exact E|].
  split; [|split; [|split; [|split; [|split]]]].
  - intros Hf. rewrite load_tasks_absent in E by exact Hf.
    now injection E as <- <-.
  - intros size content Hf ->. rewrite (load_tasks_empty _ _ _ Hf) in E.
    now injection E as <- <-.
  - intros size text v Hf Hs Hj Hv.
    rewrite (load_tasks_present _ _ _ _ _ _ Hf Hs) in E.
    rewrite (load_body_not_list _ _ _ _ Hj Hv) in E.
    now injection E as <- <-.
  - intros size text Hf Hs Hj.
    rewrite (load_tasks_present _ _ _ _ _ _ Hf Hs) in E.
    rewrite (load_body_undecodable _ _ _ _ Hj) in E.
    now injection E as <- <-.
  - intros size Hf Hs.
    rewrite (load_tasks_present _ _ _ _ _ _ Hf Hs) in E.
    rewrite load_body_unreadable in E.
    now injection E as <- <-.
  - intros size content e s1 Hf Hs Hb.
    rewrite (load_tasks_present _ _ _ _ _ _ Hf Hs) in E.
    rewrite Hb in E.
    now injection E as <- <-.
Qed.
End LoadingOutcomes.

Lemma noon_valid (n : nat) : valid_datetime (noon n).
Proof. reflexivity. Qed.

Section LoadingInvariant.
Variable json_loads : string -> result pyval.
Variable clock : nat -> datetime.

(** C3, as the program has it.  After [load_tasks] every record of the
    returned list has the three fields present, and its timestamp is text
    that the date parser accepts; the description and the done flag are
    whatever value was stored, when one was stored. *)
Theorem load_tasks_fields_present (filename : string) (s : state) :
  (forall n, valid_datetime (clock n)) ->
  exists l s',
    load_tasks json_loads clock filename s = (Ok l, s')
    /\ Forall fields_present l.
Proof.
  intros Hc.
  destruct (fs s filename) as [|size content] eqn:Hf.
  - rewrite load_tasks_absent by exact Hf. exists [], s. now split.
  - destruct (Nat.eq_dec size 0) as [->|Hs].
    + rewrite (load_tasks_empty _ _ _ _ _ Hf). eexists _, _. now split.
    + rewrite (load_tasks_present _ _ _ _ _ _ Hf Hs).
      destruct (load_body json_loads clock filename content s)
        as [[l|e] s1] eqn:Hb; [|eexists _, _; now split].
      exists l, s1. split; [reflexivity|].
      unfold load_body, bind, lift in Hb.
      destruct content as [text|e]; [|discriminate].
      destruct (json_loads text) as [v|e]; [|discriminate].
      destruct v; try (injection Hb as <- <-; constructor).
      eapply for_each_load_fields; eassumption.
Qed.
End LoadingInvariant.

(** C3, counterexample.  A stored record whose description is blank and
    whose done flag is text is loaded as it is: the returned record is not
    well typed. *)
Lemma load_keeps_ill_typed_fields :
  exists l s',
    load_tasks RefJson.loads noon TASKS_FILE
      (start_with (file_of_text
         (RefJson.json_text "[{'description': '  ', 'done': 'yes'}]")))
    = (Ok l, s')
    /\ l = [[("description", PStr "  "); ("done", PStr "yes");
             ("timestamp", PStr "1970-01-01 00:00:00")]]
    /\ ~ Forall well_typed_task l.
Proof.
  eexists _, _. split; [vm_compute; reflexivity|]. split; [reflexivity|].
  intros H. inversion H as [|d l Hd _]; subst.
  destruct Hd as ((t & Ht & Hs) & _).
  injection Ht as <-. now apply Hs.
Qed.

Lemma load_tasks_fields_present_witness :
  (forall n, valid_datetime (noon n))
  /\ exists l s',
      load_tasks RefJson.loads noon TASKS_FILE
        (start_with (file_of_text
           (RefJson.json_text "[{'description': '  ', 'timestamp': 'soon'}]")))
      = (Ok l, s')
      /\ Forall fields_present l.
Proof.
  split; [exact noon_valid|].
  apply (load_tasks_fields_present RefJson.loads noon TASKS_FILE).
  exact noon_valid.
Defined.

(** ** Saving *)

Section Saving.
Variable json_loads : string -> result pyval.
Variable json_dumps : pyval -> string.
Variable clock : nat -> datetime.

Lemma save_tasks_writable (l : list dict) (filename : string) (s : state) :
  unwritable s filename = None ->
  save_tasks json_dumps l filename s
  = (Ok tt,
     let text := json_dumps (PList (map PDict l)) in
     emit (Wrote filename text)
          (set_file filename (Present (String.length text) (Ok text)) s)).
Proof.
  intros H. unfold save_tasks, try_except, bind, gets, modify. cbn. now rewrite H.
Qed.

Lemma save_tasks_unwritable (l : list dict) (filename : string) (s : state)
      (e : exn) :
  unwritable s filename = Some e ->
  save_tasks json_dumps l filename s
  = (Ok tt,
     emit (Printed (match e with
                    | OSError => ErrSaving filename e
                    | _ => ErrUnexpectedSaving e
                    end))
          (emit (WriteFailed filename e) s)).
Proof.
  intros H. unfold save_tasks, try_except, bind, gets, modify. cbn. rewrite H.
  now destruct e.
Qed.

Lemma well_typed_not_rejected (d : dict) :
  well_typed_task d -> text_timestamp d /\ timestamp_rejected d = false
                       /\ forall now, spec_defaulted now d = d.
Proof.
  intros ((t1 & H1 & _) & (b & H2) & (t & dt & H3 & H4)).
  unfold text_timestamp, timestamp_rejected, spec_defaulted.
  rewrite H1, H2, H3, H4. repeat split.
  intros v [= <-]. now exists t.
Qed.

Lemma loaded_from_well_typed (n : nat) (l : list dict) :
  Forall well_typed_task l ->
  loaded_from clock n l = l /\ filter timestamp_rejected l = [].
Proof.
  intros H. revert n. induction H as [|d l Hd _ IH]; intros n; [now split|].
  destruct (well_typed_not_rejected d Hd) as (_ & Hr & Hs).
  cbn. rewrite Hr, Hs. destruct (IH n) as [-> ->]. now split.
Qed.

(** Loading a file that holds the encoding of well-formed records gives
    the records back and prints nothing. *)
Lemma load_tasks_encoded (filename text : string) (l : list dict) (s1 : state) :
  Forall well_typed_task l ->
  fs s1 filename = file_of_text text ->
  text <> "" ->
  json_loads text = Ok (PList (map PDict l)) ->
  load_tasks json_loads clock filename s1 = (Ok l, s1).
Proof.
  intros Hl Hf Hne Hj.
  assert (Hs : String.length text <> 0%nat).
  { destruct text; [now elim Hne | discriminate]. }
  assert (Ht : Forall text_timestamp l).
  { eapply Forall_impl; [|exact Hl]. intros d Hd.
    now apply well_typed_not_rejected. }
  rewrite (load_tasks_objects json_loads clock filename s1 _ _ l Hf Hs Hj Ht).
  destruct (loaded_from_well_typed (ticks s1) l Hl) as (-> & ->).
  cbn [map]. now rewrite after_warnings_nil.
Qed.

Lemma save_tasks_file (filename : string) (l : list dict) (s : state) :
  unwritable s filename = None ->
  exists s1,
    save_tasks json_dumps l filename s = (Ok tt, s1)
    /\ fs s1 filename = file_of_text (json_dumps (PList (map PDict l))).
Proof.
  intros Hw. rewrite (save_tasks_writable _ _ _ Hw). cbv zeta.
  eexists. split; [reflexivity|]. cbn. now rewrite String.eqb_refl.
Qed.

(** C4.  Round trip: for a list of well-formed Task records, on a
    writable path, and with a [json] module whose decoder reads back what
    its encoder writes for this list, [save_tasks] followed by
    [load_tasks] returns the list itself, with nothing printed. *)
Theorem save_then_load (filename : string) (l : list dict) (s : state) :
  Forall well_typed_task l ->
  unwritable s filename = None ->
  json_loads (json_dumps (PList (map PDict l))) = Ok (PList (map PDict l)) ->
  json_dumps (PList (map PDict l)) <> "" ->
  exists s1,
    save_tasks json_dumps l filename s = (Ok tt, s1)
    /\ load_tasks json_loads clock filename s1 = (Ok l, s1).
Proof.
  intros Hl Hw Hj Hne.
  destruct (save_tasks_file filename l s Hw) as (s1 & E & Hf).
  exists s1. split; [exact E|].
  now apply load_tasks_encoded with (text := json_dumps (PList (map PDict l))).
Qed.
End Saving.

(** The round trip with the reference codec, for records whose objects
    have distinct keys: nothing is assumed of the [json] module there. *)
Corollary save_then_load_reference (clock : nat -> datetime) (filename : string)
          (l : list dict) (s : state) :
  Forall well_typed_task l ->
  Forall (fun d => RefJson.json_wf (PDict d)) l ->
  unwritable s filename = None ->
  exists s1,
    save_tasks RefJson.dumps l filename s = (Ok tt, s1)
    /\ load_tasks RefJson.loads clock filename s1 = (Ok l, s1).
Proof.
  intros Hl Hwf Hw.
  destruct (save_tasks_file RefJson.dumps filename l s Hw) as (s1 & E & Hf).
  exists s1. split; [exact E|].
  apply load_tasks_encoded with (text := RefJson.dumps (PList (map PDict l)));
    try assumption.
  - apply RefJsonFacts.dumps_nonempty.
  - apply RefJsonFacts.loads_dumps, RefJsonFacts.json_wf_objects, Hwf.
Qed.

(** ** Rendering leaves the tasks alone *)

Lemma save_count_printed (m : message) (s : state) :
  save_count (emit (Printed m) s) = save_count s.
Proof.
  unfold save_count. cbn. rewrite filter_app. cbn. now rewrite app_nil_r.
Qed.

Lemma display_order_effect (l : list dict) (s : state) :
  exists r, display_order l s = (r, s)
            \/ display_order l s = (r, emit (Printed ErrSorting) s).
Proof.
  unfold display_order, try_except, bind, lift.
  destruct (sorted dt_lt key_timestamp l) as [l1|e]; cbn.
  - destruct (sorted py_lt key_done l1) as [l2|e]; cbn.
    + eauto.
    + destruct e; cbn; unfold bind, print, modify, raise; cbn; eauto.
  - destruct e; cbn; unfold bind, print, modify, raise; cbn; eauto.
Qed.

Lemma refresh_task_list_same_store (s : state) :
  exists r s', refresh_task_list s = (r, s') /\ same_store s s'.
Proof.
  unfold refresh_task_list, bind, modify, gets. cbn.
  destruct (display_order_effect (tasks s) (set_shown [] s)) as (r & [E|E]);
    rewrite E; destruct r as [out|e]; eexists _, _; (split; [reflexivity|]);
    repeat split; cbn; unfold save_count; cbn;
    rewrite ?filter_app, ?app_nil_r; reflexivity.
Qed.

(** ** Mutations *)

Section Mutations.
Variable json_dumps : pyval -> string.
Variable clock : nat -> datetime.

(** What a call of [save_tasks] does to the state: one more save in the
    trace and, when the path is writable, the encoded list in the file. *)
Lemma save_tasks_effect (l : list dict) (filename : string) (s : state) :
  exists s1,
    save_tasks json_dumps l filename s = (Ok tt, s1)
    /\ tasks s1 = tasks s /\ task_entry s1 = task_entry s
    /\ unwritable s1 = unwritable s /\ ticks s1 = ticks s
    /\ save_count s1 = S (save_count s)
    /\ (unwritable s filename = None ->
        fs s1 filename = file_of_text (json_dumps (PList (map PDict l)))).
Proof.
  destruct (unwritable s filename) as [e|] eqn:E.
  - rewrite (save_tasks_unwritable _ _ _ _ _ E). eexists. split; [reflexivity|].
    repeat split; try discriminate.
    rewrite save_count_printed. unfold save_count. cbn.
    rewrite filter_app, length_app. cbn. lia.
  - rewrite (save_tasks_writable _ _ _ _ E). eexists. split; [reflexivity|].
    repeat split.
    + unfold save_count. cbn. rewrite filter_app, length_app. cbn. lia.
    + intros _. cbn. now rewrite String.eqb_refl.
Qed.

(** C5.  [add_task_event] with an entry that is not blank appends one
    record to the end of the list, with the trimmed description, done
    false and the current time as timestamp, and saves the list; with a
    blank entry it prints a message and changes nothing else: the list is
    the same and nothing is saved. *)
Theorem add_task_event_spec (s : state) :
  exists r s',
    add_task_event json_dumps clock s = (r, s')
    /\ (strip (task_entry s) <> "" ->
        tasks s'
        = (tasks s ++ [new_task (strip (task_entry s))
                                (strftime (clock (ticks s)))])%list
        /\ (valid_datetime (clock (ticks s)) ->
            strptime (PStr (strftime (clock (ticks s)))) = Ok (clock (ticks s)))
        /\ save_count s' = S (save_count s)
        /\ (unwritable s TASKS_FILE = None ->
            fs s' TASKS_FILE
            = file_of_text (json_dumps (PList (map PDict (tasks s'))))))
    /\ (strip (task_entry s) = "" ->
        r = Ok tt /\ s' = emit (Printed MsgEmptyDescription) s
        /\ tasks s' = tasks s /\ fs s' = fs s
        /\ save_count s' = save_count s).
Proof.
  unfold add_task_event, bind at 1, gets at 1.
  destruct (strip (task_entry s)) as [|c d] eqn:Ed.
  - cbn. eexists _, _. split; [reflexivity|]. split; [easy|]. intros _.
    repeat split. apply save_count_printed.
  - cbn [truthy String.eqb negb].
    unfold now_text, bind, gets, modify, ret, new_task.
    cbn -[save_tasks refresh_task_list strftime save_count file_of_text].
    set (l' := (tasks s ++ [_])%list).
    set (s0 := set_tasks l' (tick s)).
    destruct (save_tasks_effect l' TASKS_FILE s0)
      as (s1 & -> & Ht & _ & Hw & _ & Hc & Hf).
    destruct (refresh_task_list_same_store (set_task_entry "" s1))
      as (r & s' & -> & Hs).
    destruct Hs as (Hs1 & _ & Hs3 & _ & _ & Hs6).
    exists r, s'. split; [reflexivity|]. split; [|discriminate]. intros _.
    cbn in Hs1, Hs3, Hs6. rewrite Hs1, Ht, Hs3.
    split; [reflexivity|]. split; [apply strptime_strftime|]. split.
    + unfold save_count in *. cbn in Hs6. rewrite Hs6. exact Hc.
    + exact Hf.
Qed.
End Mutations.

Lemma filter_keeps_all {A} (f : A -> bool) (l : list A) :
  Forall (fun x => f x = true) l -> filter f l = l.
Proof.
  induction 1 as [|x l Hx _ IH]; [reflexivity|]. cbn. now rewrite Hx, IH.
Qed.

Lemma filter_drops_some {A} (f : A -> bool) (l : list A) :
  Exists (fun x => f x = false) l ->
  (List.length (filter f l) < List.length l)%nat.
Proof.
  induction 1 as [x l Hx|x l _ IH]; cbn.
  - rewrite Hx. pose proof (filter_length_le f l). lia.
  - destruct (f x); cbn; lia.
Qed.

Section ToggleRemove.
Variable json_dumps : pyval -> string.

Lemma toggle_loop_step (target task : dict) (rest : list dict) :
  has_identity target -> has_identity task ->
  toggle_loop target (task :: rest)
  = if same_identity task target then Ok (Some (flipped task :: rest))
    else result_bind (toggle_loop target rest)
                     (fun r => Ok (option_map (cons task) r)).
Proof.
  intros [T1 T2] [H1 H2]. cbn [toggle_loop].
  unfold same_identity, dict_get_none, dict_get_default, getitem, flipped.
  destruct (dict_get task "timestamp") as [t1|]; [|now elim H1].
  destruct (dict_get target "timestamp") as [t2|]; [|now elim T1].
  destruct (dict_get task "description") as [d1|]; [|now elim H2].
  destruct (dict_get target "description") as [d2|]; [|now elim T2].
  cbn. destruct (py_eq t1 t2); cbn; [|reflexivity].
  destruct (py_eq d1 d2); reflexivity.
Qed.

Lemma toggle_loop_no_match (target : dict) (l : list dict) :
  has_identity target -> Forall has_identity l ->
  Forall (fun t => same_identity t target = false) l ->
  toggle_loop target l = Ok None.
Proof.
  intros HT Hl Hn. induction Hl as [|t l Ht _ IH]; [reflexivity|].
  inversion Hn as [|? ? Hn1 Hn2]; subst.
  rewrite toggle_loop_step by assumption. rewrite Hn1, IH by assumption.
  reflexivity.
Qed.

Lemma toggle_loop_first_match (target t : dict) (pre post : list dict) :
  has_identity target -> Forall has_identity pre -> has_identity t ->
  Forall (fun t => same_identity t target = false) pre ->
  same_identity t target = true ->
  toggle_loop target (pre ++ t :: post)%list
  = Ok (Some (pre ++ flipped t :: post)%list).
Proof.
  intros HT Hpre Ht Hn Hm. induction Hpre as [|p pre Hp _ IH].
  - cbn [app]. rewrite toggle_loop_step by assumption. now rewrite Hm.
  - inversion Hn as [|? ? Hn1 Hn2]; subst. cbn [app].
    rewrite toggle_loop_step by assumption. rewrite Hn1, IH by assumption.
    reflexivity.
Qed.

(** C6.  [toggle_complete] flips the done flag of the first task whose
    timestamp and description both equal the target's, and of no other:
    the tasks before it, which do not match, and all the tasks after it
    are unchanged and stay in place, and the list is saved; when no task
    matches, a warning is printed and nothing else changes: the list is
    the same and nothing is saved. *)
Theorem toggle_complete_spec (target : dict) (s : state) :
  has_identity target ->
  Forall has_identity (tasks s) ->
  (Forall (fun t => same_identity t target = false) (tasks s) ->
   toggle_complete json_dumps target s
   = (Ok tt,
      emit (Printed (WarnToggleNotFound (dict_get_none target "description"))) s))
  /\ (forall pre t post,
         tasks s = (pre ++ t :: post)%list ->
         Forall (fun t => same_identity t target = false) pre ->
         same_identity t target = true ->
         exists r s',
           toggle_complete json_dumps target s = (r, s')
           /\ tasks s' = (pre ++ flipped t :: post)%list
           /\ dict_get (flipped t) "done"
              = Some (PBool (negb (truthy (dict_get_default t "done"
                                             (PBool false)))))
           /\ (forall k, k <> "done" -> dict_get (flipped t) k = dict_get t k)
           /\ save_count s' = S (save_count s)
           /\ (unwritable s TASKS_FILE = None ->
               fs s' TASKS_FILE
               = file_of_text (json_dumps (PList (map PDict (tasks s')))))).
Proof.
  intros HT Hl. split.
  - intros Hn. unfold toggle_complete, bind, gets, lift.
    now rewrite toggle_loop_no_match.
  - intros pre t post E Hn Hm.
    rewrite E in Hl. apply Forall_app in Hl. destruct Hl as [Hpre Hl].
    inversion Hl as [|? ? Ht _]; subst.
    unfold toggle_complete, bind at 1, gets at 1. rewrite E.
    unfold bind at 1, lift.
    rewrite toggle_loop_first_match by assumption.
    unfold bind, modify, gets.
    cbn -[save_tasks refresh_task_list save_count file_of_text flipped].
    set (l' := (pre ++ flipped t :: post)%list).
    destruct (save_tasks_effect json_dumps l' TASKS_FILE (set_tasks l' s))
      as (s1 & -> & Ht1 & _ & Hw & _ & Hc & Hf).
    destruct (refresh_task_list_same_store s1) as (r & s' & -> & Hs).
    destruct Hs as (Hs1 & _ & Hs3 & _ & _ & Hs6).
    exists r, s'. split; [reflexivity|].
    rewrite Hs1, Ht1, Hs3, Hs6. cbn [tasks set_tasks].
    split; [reflexivity|]. split; [apply dict_get_set_same|].
    split; [intros k Hk; now apply dict_get_set_other|].
    split; [exact Hc | exact Hf].
Qed.

(** C7.  [remove_task] replaces the list by the list of the tasks that do
    not have both the timestamp and the description of the target, in
    their order; when a task was removed the new list is saved; when none
    matched the list is the same, a warning is printed, and nothing is
    saved. *)
Theorem remove_task_spec (target : dict) (s : state) :
  exists r s',
    remove_task json_dumps target s = (r, s')
    /\ tasks s' = filter (fun t => negb (same_identity t target)) (tasks s)
    /\ (Forall (fun t => same_identity t target = false) (tasks s) ->
        r = Ok tt /\ tasks s' = tasks s /\ fs s' = fs s
        /\ trace s'
           = (trace s
              ++ [Printed (WarnRemoveNotFound
                             (dict_get_none target "description"))])%list
        /\ save_count s' = save_count s)
    /\ (Exists (fun t => same_identity t target = true) (tasks s) ->
        save_count s' = S (save_count s)
        /\ (unwritable s TASKS_FILE = None ->
            fs s' TASKS_FILE
            = file_of_text (json_dumps (PList (map PDict (tasks s')))))).
Proof.
  unfold remove_task, bind, gets, modify.
  cbn -[save_tasks refresh_task_list save_count file_of_text Nat.ltb].
  set (keep := fun t => negb (same_identity t target)).
  set (l' := filter keep (tasks s)).
  destruct (List.length l' <? List.length (tasks s))%nat eqn:Elen.
  - destruct (save_tasks_effect json_dumps l' TASKS_FILE (set_tasks l' s))
      as (s1 & -> & Ht1 & _ & Hw & _ & Hc & Hf).
    destruct (refresh_task_list_same_store s1) as (r & s' & -> & Hs).
    destruct Hs as (Hs1 & _ & Hs3 & _ & _ & Hs6).
    exists r, s'. split; [reflexivity|].
    rewrite Hs1, Ht1, Hs3, Hs6. cbn [tasks set_tasks].
    split; [reflexivity|]. split.
    + intros Hn. exfalso. apply Nat.ltb_lt in Elen.
      unfold l' in Elen. rewrite filter_keeps_all in Elen; [lia|].
      eapply Forall_impl; [|exact Hn]. intros t Ht. unfold keep. now rewrite Ht.
    + intros _. split; [exact Hc | exact Hf].
  - eexists _, _. split; [reflexivity|]. cbn [tasks emit set_tasks].
    split; [reflexivity|]. split.
    + intros Hn. assert (El : l' = tasks s).
      { apply filter_keeps_all. eapply Forall_impl; [|exact Hn].
        intros t Ht. unfold keep. now rewrite Ht. }
      rewrite El. repeat split. now rewrite save_count_printed.
    + intros Hx. exfalso. apply Nat.ltb_ge in Elen.
      assert (List.length l' < List.length (tasks s))%nat; [|lia].
      apply filter_drops_some. eapply Exists_impl; [|exact Hx].
      intros t Ht. unfold keep. now rewrite Ht.
Qed.
End ToggleRemove.

(** ** Display order *)

Lemma key_equiv_time (d : datetime) (t : dict) :
  key_equiv time_or_epoch dt_ltb d t = true <-> time_or_epoch t = d.
Proof.
  unfold key_equiv. split.
  - intros H. apply andb_prop in H. destruct H as [H1 H2].
    apply negb_true_iff in H1, H2. now apply dt_ltb_equiv.
  - intros <-. unfold dt_ltb. now rewrite lex_ltb_irrefl.
Qed.

Lemma filter_twice {A} (f : A -> bool) (l : list A) :
  filter f (filter f l) = filter f l.
Proof.
  induction l as [|x l IH]; [reflexivity|]. cbn.
  destruct (f x) eqn:E; cbn; [now rewrite E, IH | exact IH].
Qed.

Lemma filter_disjoint {A} (f g : A -> bool) (l : list A) :
  (forall x, f x = true -> g x = false) -> filter g (filter f l) = [].
Proof.
  intros H. induction l as [|x l IH]; [reflexivity|]. cbn.
  destruct (f x) eqn:E; cbn; [now rewrite (H x E) | exact IH].
Qed.

Lemma filter_and {A} (f g : A -> bool) (l : list A) :
  filter f (filter g l) = filter (fun x => g x && f x) l.
Proof.
  induction l as [|x l IH]; [reflexivity|]. cbn.
  destruct (g x); cbn; [destruct (f x); now rewrite IH | exact IH].
Qed.

Lemma filter_sorted {A} (R : A -> A -> Prop) (f : A -> bool) (l : list A) :
  StronglySorted R l -> StronglySorted R (filter f l).
Proof.
  induction 1 as [|x l Hs IH Hx]; cbn; [constructor|].
  destruct (f x); [|exact IH]. constructor; [exact IH|].
  apply Forall_forall. intros y Hy. apply filter_In in Hy.
  rewrite Forall_forall in Hx. now apply Hx.
Qed.

Lemma flag_order_perm {A} (f : A -> bool) (l : list A) :
  Permutation (flag_order f l) l.
Proof.
  unfold flag_order. induction l as [|x l IH]; [constructor|]. cbn.
  destruct (f x); cbn.
  - symmetry. apply Permutation_cons_app. now symmetry.
  - now constructor.
Qed.

Lemma flag_order_split {A} (f : A -> bool) (l : list A) :
  filter (fun x => negb (f x)) (flag_order f l) = filter (fun x => negb (f x)) l
  /\ filter f (flag_order f l) = filter f l.
Proof.
  unfold flag_order. rewrite !filter_app, !filter_twice. split.
  - rewrite (filter_disjoint f (fun x => negb (f x))), app_nil_r; [reflexivity|].
    intros x ->. reflexivity.
  - rewrite (filter_disjoint (fun x => negb (f x)) f); [reflexivity|].
    intros x Hx. now apply negb_true_iff.
Qed.

Lemma flag_order_filter {A} (f p : A -> bool) (b : bool) (l : list A) :
  (forall x, p x = true -> f x = b) ->
  filter p (flag_order f l) = filter p l.
Proof.
  intros H. unfold flag_order. rewrite filter_app. destruct b.
  - rewrite (filter_disjoint (fun x => negb (f x)) p).
    + cbn. rewrite filter_and. apply filter_ext. intros x.
      destruct (p x) eqn:E; [now rewrite (H x E) | apply andb_false_r].
    + intros x Hx. destruct (p x) eqn:E; [|reflexivity].
      rewrite (H x E) in Hx. discriminate.
  - rewrite (filter_disjoint f p), app_nil_r.
    + rewrite filter_and. apply filter_ext. intros x.
      destruct (p x) eqn:E; [now rewrite (H x E) | apply andb_false_r].
    + intros x Hx. destruct (p x) eqn:E; [|reflexivity].
      rewrite (H x E) in Hx. discriminate.
Qed.

Lemma key_done_flag (t : dict) :
  done_is_flag t -> key_done t = Ok (PBool (is_done t)).
Proof. intros [b Hb]. unfold key_done, is_done. now rewrite Hb. Qed.

Lemma key_timestamp_parses (t : dict) :
  parses t -> key_timestamp t = Ok (time_or_epoch t).
Proof. intros [d Hd]. unfold time_or_epoch. now rewrite Hd. Qed.

Lemma sorted_by_done (l : list dict) :
  Forall done_is_flag l -> sorted py_lt key_done l = Ok (flag_order is_done l).
Proof.
  intros H. apply sorted_flag. eapply Forall_impl; [|exact H].
  intros t. apply key_done_flag.
Qed.

Lemma display_order_parsed (l : list dict) (s : state) :
  Forall parses l -> Forall done_is_flag l ->
  display_order l s = (Ok (two_key_order l), s).
Proof.
  intros Hp Hd. unfold display_order, try_except, bind, lift.
  rewrite (sorted_stable time_or_epoch dt_ltb dt_lt key_timestamp l).
  - rewrite sorted_by_done; [reflexivity|].
    eapply Permutation_Forall; [|exact Hd].
    symmetry. apply sort_stable_perm.
  - eapply Forall_impl; [|exact Hp]. intros t. apply key_timestamp_parses.
  - reflexivity.
Qed.

(** C8.  When every timestamp of the list parses (and the done flags are
    booleans), [refresh_task_list] draws the tasks in the two-key order and
    leaves the list itself as it is: the drawn list is a rearrangement of
    the tasks, the incomplete ones before the completed ones, each group
    by time ascending, and tasks with the same time and status in the order
    of the list.  The tasks A, B, C of the specification are drawn as
    C, A, B. *)
Theorem refresh_task_list_order (s : state) :
  Forall parses (tasks s) ->
  Forall done_is_flag (tasks s) ->
  exists out,
    refresh_task_list s = (Ok tt, set_shown out s)
    /\ tasks (set_shown out s) = tasks s
    /\ out = two_key_order (tasks s)
    /\ Permutation out (tasks s)
    /\ out = (filter (fun t => negb (is_done t)) out ++ filter is_done out)%list
    /\ StronglySorted not_later (filter (fun t => negb (is_done t)) out)
    /\ StronglySorted not_later (filter is_done out)
    /\ (forall d b, filter (has_keys d b) out = filter (has_keys d b) (tasks s))
    /\ (tasks s = [task_A; task_B; task_C] -> out = [task_C; task_A; task_B]).
Proof.
  intros Hp Hd. exists (two_key_order (tasks s)).
  set (l := tasks s) in *.
  set (X := sort_stable time_or_epoch dt_ltb l).
  assert (HX : StronglySorted not_later X).
  { apply (sort_stable_sorted time_or_epoch dt_ltb);
      [apply dt_ltb_asym | apply dt_ltb_negtrans]. }
  destruct (flag_order_split is_done X) as [HF HT].
  split; [|split; [reflexivity|split; [reflexivity|]]].
  - unfold refresh_task_list, bind, modify, gets. cbn [tasks set_shown fst snd].
    fold l. rewrite display_order_parsed by assumption.
    destruct s; reflexivity.
  - unfold two_key_order. fold X. split; [|split; [|split; [|split; [|split]]]].
    + rewrite flag_order_perm. apply sort_stable_perm.
    + rewrite HF, HT. reflexivity.
    + rewrite HF. now apply filter_sorted.
    + rewrite HT. now apply filter_sorted.
    + intros d b.
      rewrite (flag_order_filter is_done (has_keys d b) b).
      * unfold has_keys.
        rewrite <- !(filter_and (fun t => Bool.eqb (is_done t) b)
                               (key_equiv time_or_epoch dt_ltb d)).
        unfold X. now rewrite sort_stable_filter by apply dt_ltb_negtrans.
      * intros x Hx. unfold has_keys in Hx. apply andb_prop in Hx.
        now apply Bool.eqb_prop.
    + unfold X. intros ->. reflexivity.
Qed.

Lemma key_timestamp_text (t : dict) :
  text_timestamp t ->
  (exists d, key_timestamp t = Ok d) \/ key_timestamp t = Raise ValueError.
Proof.
  intros H. unfold key_timestamp, dict_get_default.
  destruct (dict_get t "timestamp") as [v|] eqn:E.
  - destruct (H v E) as [x ->]. apply strptime_text_cases.
  - apply strptime_text_cases.
Qed.

Lemma Forall_or_Exists {A} (P Q : A -> Prop) (l : list A) :
  Forall (fun x => P x \/ Q x) l -> Forall P l \/ Exists Q l.
Proof.
  induction 1 as [|x l Hx _ IH]; [left; constructor|].
  destruct Hx as [Hx|Hx]; [|right; now left].
  destruct IH as [IH|IH]; [left; now constructor | right; now right].
Qed.

Lemma display_order_rejected (l : list dict) (s : state) :
  Forall text_timestamp l -> Forall done_is_flag l ->
  Exists (fun t => key_timestamp t = Raise ValueError) l ->
  display_order l s
  = (Ok (flag_order is_done l), emit (Printed ErrSorting) s).
Proof.
  intros Ht Hd Hx. unfold display_order, try_except, bind, lift.
  assert (E : sorted dt_lt key_timestamp l = Raise ValueError).
  { unfold sorted. rewrite (result_map_raise _ ValueError); [reflexivity| |].
    - eapply Forall_impl; [|exact Ht]. intros t H.
      destruct (key_timestamp_text t H) as [[d E]|E]; rewrite E; cbn; eauto.
    - eapply Exists_impl; [|exact Hx]. intros t ->. reflexivity. }
  rewrite E. cbn. unfold bind, print, modify, lift.
  now rewrite sorted_by_done.
Qed.

(** C9, as the program has it.  A task without a timestamp is sorted as of
    the epoch.  With text timestamps and boolean done flags the order never
    fails to be computed: it is the two-key order when every timestamp
    parses, and as soon as one timestamp does not parse the whole list is
    ordered by completion status alone, in list order within each status,
    and an error is printed. *)
Theorem display_order_fallback (l : list dict) (s : state) :
  Forall text_timestamp l ->
  Forall done_is_flag l ->
  (forall t, dict_get t "timestamp" = None ->
             key_timestamp t = Ok (mk_datetime 1970 1 1 0 0 0))
  /\ (Forall parses l -> display_order l s = (Ok (two_key_order l), s))
  /\ (Exists (fun t => key_timestamp t = Raise ValueError) l ->
      display_order l s
      = (Ok (flag_order is_done l), emit (Printed ErrSorting) s))
  /\ exists out s', display_order l s = (Ok out, s').
Proof.
  intros Ht Hd. split; [|split; [|split]].
  - intros t E. unfold key_timestamp, dict_get_default. now rewrite E.
  - intros Hp. now apply display_order_parsed.
  - now apply display_order_rejected.
  - assert (H : Forall parses l
                \/ Exists (fun t => key_timestamp t = Raise ValueError) l).
    { apply Forall_or_Exists. eapply Forall_impl; [|exact Ht].
      intros t. apply key_timestamp_text. }
    destruct H as [H|H].
    + rewrite display_order_parsed by assumption. eauto.
    + rewrite display_order_rejected by assumption. eauto.
Qed.

(** C9, counterexample.  One task with a timestamp that does not parse
    does not count as of the epoch: the whole list is drawn in list order,
    A (2 January) before C (1 January), where the two-key scheme with the
    epoch for X gives X, C, A.  And rendering can fail: a stored list whose
    done flags are a text and a boolean is loaded as it is, and drawing it
    raises [TypeError]. *)
Lemma display_order_no_single_fallback :
  display_order [task_X; task_A; task_C] (start_with Absent)
  = (Ok [task_X; task_A; task_C], emit (Printed ErrSorting) (start_with Absent))
  /\ two_key_order [task_X; task_A; task_C] = [task_X; task_C; task_A]
  /\ exists s',
      init RefJson.loads noon
           (start_with (file_of_text
              (RefJson.json_text "[{'done': 'yes'}, {'done': true}]")))
      = (Raise TypeError, s').
Proof.
  split; [reflexivity|]. split; [reflexivity|].
  eexists. vm_compute. reflexivity.
Qed.

(** ** Instances on concrete files and lists *)

Lemma load_tasks_defaulting_witness :
  exists l,
    load_tasks RefJson.loads noon TASKS_FILE (start_with (file_of_text stored_text))
    = (Ok l, after_warnings (start_with (file_of_text stored_text))
                            (map timestamp_warning
                                 (filter timestamp_rejected stored_records)))
    /\ l = loaded_from noon 0 stored_records
    /\ Forall2 (fun d d' =>
                  exists n, (0 <= n)%nat
                            /\ d' = spec_defaulted (strftime (noon n)) d
                            /\ fields_defaulted (strftime (noon n)) d d')
               stored_records l.
Proof.
  apply (load_tasks_defaulting RefJson.loads noon TASKS_FILE
           (start_with (file_of_text stored_text))
           (String.length stored_text) stored_text stored_records).
  - reflexivity.
  - vm_compute. discriminate.
  - vm_compute. reflexivity.
  - repeat constructor; intros v E; vm_compute in E;
      first [discriminate | injection E as <-; eexists; reflexivity].
Defined.

Example load_tasks_defaulting_run :
  fst (load_tasks RefJson.loads noon TASKS_FILE
         (start_with (file_of_text stored_text)))
  = Ok [[("description", PStr "water plants"); ("done", PBool false);
         ("timestamp", PStr "1970-01-01 00:00:00")];
        [("done", PBool true); ("timestamp", PStr "2025-06-01 12:00:00");
         ("description", PStr "No Description")]].
Proof. vm_compute. reflexivity. Qed.

Lemma load_tasks_total_witness :
  exists l s',
    load_tasks RefJson.loads noon TASKS_FILE
      (start_with (file_of_text "{not json")) = (Ok l, s')
    /\ l = []
    /\ s' = emit (Printed (ErrLoading TASKS_FILE JSONDecodeError))
                 (start_with (file_of_text "{not json")).
Proof.
  destruct (load_tasks_total RefJson.loads noon TASKS_FILE
              (start_with (file_of_text "{not json")))
    as (l & s' & E & _ & _ & _ & H & _).
  exists l, s'. split; [exact E|].
  apply (H 9%nat "{not json"); [reflexivity | discriminate | reflexivity].
Defined.

Lemma load_tasks_all_or_nothing_witness :
  exists e s1,
    load_tasks RefJson.loads noon TASKS_FILE
      (start_with (file_of_text
         (RefJson.json_text "[{'description': 'a', 'done': false}, 5]")))
    = (Ok [], emit (Printed (ErrUnexpectedLoading e)) s1).
Proof.
  eapply (load_tasks_all_or_nothing RefJson.loads noon TASKS_FILE).
  - reflexivity.
  - vm_compute. discriminate.
  - vm_compute. reflexivity.
  - right. left. intros d. discriminate.
Defined.

Lemma save_then_load_witness :
  exists s1,
    save_tasks RefJson.dumps sample_tasks TASKS_FILE (start_with Absent)
    = (Ok tt, s1)
    /\ load_tasks RefJson.loads noon TASKS_FILE s1 = (Ok sample_tasks, s1).
Proof.
  apply (save_then_load RefJson.loads RefJson.dumps noon TASKS_FILE
           sample_tasks (start_with Absent)).
  - repeat constructor.
    + eexists. split; [reflexivity | discriminate].
    + eexists. reflexivity.
    + eexists _, _. split; reflexivity.
    + eexists. split; [reflexivity | vm_compute; discriminate].
    + eexists. reflexivity.
    + eexists _, _. split; reflexivity.
  - reflexivity.
  - vm_compute. reflexivity.
  - vm_compute. discriminate.
Defined.

Lemma add_task_event_spec_witness :
  exists r s',
    add_task_event RefJson.dumps noon (running [task_A] "  buy milk  ") = (r, s')
    /\ tasks s' = [task_A; new_task "buy milk" "2025-06-01 12:00:00"]
    /\ save_count s' = 1%nat.
Proof.
  destruct (add_task_event_spec RefJson.dumps noon
              (running [task_A] "  buy milk  "))
    as (r & s' & E & H & _).
  exists r, s'. split; [exact E|].
  destruct H as (H1 & _ & H2 & _); [vm_compute; discriminate|].
  split; [exact H1 | exact H2].
Defined.

Example add_rejects_blank :
  add_task_event RefJson.dumps noon (running [task_A] "   ")
  = (Ok tt, emit (Printed MsgEmptyDescription) (running [task_A] "   ")).
Proof. reflexivity. Qed.

Lemma toggle_complete_spec_witness :
  exists r s',
    toggle_complete RefJson.dumps twin_2 (running [twin_1; twin_2] "") = (r, s')
    /\ tasks s' = [twin_1; flipped twin_2]
    /\ dict_get (flipped twin_2) "done" = Some (PBool true)
    /\ save_count s' = 1%nat.
Proof.
  destruct (toggle_complete_spec RefJson.dumps twin_2
              (running [twin_1; twin_2] "")) as [_ H].
  - split; discriminate.
  - repeat constructor; discriminate.
  - destruct (H [twin_1] twin_2 []) as (r & s' & E & Ht & Hd & _ & Hc & _).
    + reflexivity.
    + repeat constructor.
    + reflexivity.
    + exists r, s'. repeat split; assumption.
Defined.

Lemma remove_task_spec_witness :
  exists r s',
    remove_task RefJson.dumps twin_1 (running [twin_1; twin_2; twin_1] "") = (r, s')
    /\ tasks s' = [twin_2]
    /\ save_count s' = 1%nat.
Proof.
  destruct (remove_task_spec RefJson.dumps twin_1
              (running [twin_1; twin_2; twin_1] ""))
    as (r & s' & E & Ht & _ & H).
  exists r, s'. split; [exact E|]. split; [exact Ht|].
  apply H. left. reflexivity.
Defined.

Example remove_unknown_timestamp :
  remove_task RefJson.dumps (new_task "call" "2024-03-01 08:00:02")
              (running [twin_1; twin_2] "")
  = (Ok tt,
     emit (Printed (WarnRemoveNotFound (PStr "call")))
          (running [twin_1; twin_2] "")).
Proof. reflexivity. Qed.

Lemma refresh_task_list_order_witness :
  exists out,
    refresh_task_list (running [task_A; task_B; task_C] "")
    = (Ok tt, set_shown out (running [task_A; task_B; task_C] ""))
    /\ out = [task_C; task_A; task_B].
Proof.
  destruct (refresh_task_list_order (running [task_A; task_B; task_C] ""))
    as (out & E & _ & _ & _ & _ & _ & _ & _ & H).
  - repeat constructor; eexists; reflexivity.
  - repeat constructor; eexists; reflexivity.
  - exists out. split; [exact E | now apply H].
Defined.

Lemma display_order_fallback_witness :
  display_order [task_X; task_B; task_A; task_C] (running [] "")
  = (Ok [task_X; task_A; task_C; task_B],
     emit (Printed ErrSorting) (running [] "")).
Proof.
  destruct (display_order_fallback [task_X; task_B; task_A; task_C]
              (running [] "")) as (_ & _ & H & _).
  - repeat constructor; intros v E; injection E as <-; eexists; reflexivity.
  - repeat constructor; eexists; reflexivity.
  - apply H. left. reflexivity.
Defined.

(** ** Further properties of the program *)

Lemma only_printed_refl (s : state) : only_printed s s.
Proof. repeat split. lia. Qed.

Lemma only_printed_trans (a b c : state) :
  only_printed a b -> only_printed b c -> only_printed a c.
Proof.
  intros (A1 & A2 & A3 & A4 & A5 & A6 & A7) (B1 & B2 & B3 & B4 & B5 & B6 & B7).
  repeat split; try congruence. lia.
Qed.

Lemma only_printed_warned (m : message) (s : state) :
  only_printed s (tick (emit (Printed m) s)).
Proof.
  repeat split; cbn; [|lia]. unfold save_count. cbn.
  rewrite filter_app. cbn. now rewrite app_nil_r.
Qed.

Lemma only_printed_emit (m : message) (s s' : state) :
  only_printed s s' -> only_printed s (emit (Printed m) s').
Proof.
  intros (A1 & A2 & A3 & A4 & A5 & A6 & A7).
  repeat split; try (cbn; assumption). now rewrite save_count_printed.
Qed.

Section ReadOnly.
Variable json_loads : string -> result pyval.
Variable clock : nat -> datetime.

Lemma load_task_only_printed (v : pyval) (s : state) :
  only_printed s (snd (load_task clock v s)).
Proof.
  destruct v; try apply only_printed_refl.
  rewrite load_task_object. cbv zeta.
  destruct (dict_get items "timestamp") as [v|]; [|apply only_printed_refl].
  destruct (strptime v) as [d|[]]; cbn [snd];
    try apply only_printed_refl; apply only_printed_warned.
Qed.

Lemma for_each_only_printed (items : list pyval) (s : state) :
  only_printed s (snd (for_each (load_task clock) items s)).
Proof.
  revert s. induction items as [|v items IH]; intros s; [apply only_printed_refl|].
  cbn [for_each]. unfold bind at 1.
  pose proof (load_task_only_printed v s) as H1.
  destruct (load_task clock v s) as [[d|e] s1]; cbn [snd] in *; [|exact H1].
  unfold bind at 1. pose proof (IH s1) as H2.
  destruct (for_each (load_task clock) items s1) as [[l|e] s2]; cbn [snd] in *;
    eapply only_printed_trans; eassumption.
Qed.

Lemma load_body_only_printed (filename : string) (content : result string)
      (s : state) :
  only_printed s (snd (load_body json_loads clock filename content s)).
Proof.
  unfold load_body, bind, lift.
  destruct content as [text|e]; [|apply only_printed_refl].
  destruct (json_loads text) as [v|e]; [|apply only_printed_refl].
  destruct v; try (apply only_printed_emit, only_printed_refl).
  apply for_each_only_printed.
Qed.

Lemma load_tasks_only_printed (filename : string) (s : state) :
  only_printed s (snd (load_tasks json_loads clock filename s)).
Proof.
  destruct (fs s filename) as [|size content] eqn:Hf.
  - rewrite load_tasks_absent by exact Hf. apply only_printed_refl.
  - destruct (Nat.eq_dec size 0) as [->|Hs].
    + rewrite (load_tasks_empty _ _ _ _ _ Hf).
      apply only_printed_emit, only_printed_refl.
    + rewrite (load_tasks_present _ _ _ _ _ _ Hf Hs).
      pose proof (load_body_only_printed filename content s) as H.
      destruct (load_body json_loads clock filename content s) as [[l|e] s1];
        cbn [snd] in *; [exact H | now apply only_printed_emit].
Qed.

(** X1.  [load_tasks] only reads: whatever the file holds, it returns a
    list and leaves the tasks in memory, the entry field, the drawn list and
    every file as they were; it writes nothing, and all it adds to the
    trace is printed lines. *)
Theorem load_tasks_only_reads (filename : string) (s : state) :
  exists l s',
    load_tasks json_loads clock filename s = (Ok l, s')
    /\ tasks s' = tasks s /\ task_entry s' = task_entry s /\ shown s' = shown s
    /\ fs s' = fs s /\ unwritable s' = unwritable s
    /\ save_count s' = save_count s.
Proof.
  destruct (load_tasks_returns json_loads clock filename s) as (l & s' & E).
  pose proof (load_tasks_only_printed filename s) as H. rewrite E in H.
  destruct H as (H1 & H2 & H3 & H4 & H5 & H6 & _).
  now exists l, s'.
Qed.
End ReadOnly.

Lemma fields_present_fixed (d : dict) :
  fields_present d ->
  text_timestamp d /\ timestamp_rejected d = false
  /\ forall now, spec_defaulted now d = d.
Proof.
  intros (H1 & H2 & (t & dt & H3 & H4)).
  unfold text_timestamp, timestamp_rejected, spec_defaulted.
  destruct (dict_get d "description"); [|now elim H1].
  destruct (dict_get d "done"); [|now elim H2].
  rewrite H3, H4. repeat split. intros v [= <-]. now exists t.
Qed.

Section FixedPoint.
Variable json_loads : string -> result pyval.
Variable json_dumps : pyval -> string.
Variable clock : nat -> datetime.

Lemma loaded_from_present (n : nat) (l : list dict) :
  Forall fields_present l ->
  loaded_from clock n l = l /\ filter timestamp_rejected l = [].
Proof.
  intros H. revert n. induction H as [|d l Hd _ IH]; intros n; [now split|].
  destruct (fields_present_fixed d Hd) as (_ & Hr & Hs).
  cbn. rewrite Hr, Hs. destruct (IH n) as [-> ->]. now split.
Qed.

(** Loading a file that holds the encoding of records with the three
    fields present and a parsing timestamp gives the records back. *)
Lemma load_tasks_encoded_present (filename text : string) (l : list dict)
      (s1 : state) :
  Forall fields_present l ->
  fs s1 filename = file_of_text text ->
  text <> "" ->
  json_loads text = Ok (PList (map PDict l)) ->
  load_tasks json_loads clock filename s1 = (Ok l, s1).
Proof.
  intros Hl Hf Hne Hj.
  assert (Hs : String.length text <> 0%nat).
  { destruct text; [now elim Hne | discriminate]. }
  assert (Ht : Forall text_timestamp l).
  { eapply Forall_impl; [|exact Hl]. intros d Hd.
    now apply fields_present_fixed. }
  rewrite (load_tasks_objects json_loads clock filename s1 _ _ l Hf Hs Hj Ht).
  destruct (loaded_from_present (ticks s1) l Hl) as (-> & ->).
  cbn [map]. now rewrite after_warnings_nil.
Qed.

Lemma load_tasks_result_fields (filename : string) (s s' : state) (l : list dict) :
  (forall n, valid_datetime (clock n)) ->
  load_tasks json_loads clock filename s = (Ok l, s') ->
  Forall fields_present l.
Proof.
  intros Hc.
  destruct (fs s filename) as [|size content] eqn:Hf.
  - rewrite load_tasks_absent by exact Hf. intros [= <- _]. constructor.
  - destruct (Nat.eq_dec size 0) as [->|Hs].
    + rewrite (load_tasks_empty _ _ _ _ _ Hf). intros [= <- _]. constructor.
    + rewrite (load_tasks_present _ _ _ _ _ _ Hf Hs).
      destruct (load_body json_loads clock filename content s)
        as [[l0|e] s1] eqn:Hb; intros [= <- _]; [|constructor].
      unfold load_body, bind, lift in Hb.
      destruct content as [text|e]; [|discriminate].
      destruct (json_loads text) as [v|e]; [|discriminate].
      destruct v; try (injection Hb as <- <-; constructor).
      eapply for_each_load_fields; eassumption.
Qed.

(** X2.  What [load_tasks] returns is a fixed point of saving and
    loading: with a clock that gives valid dates, when the path is writable
    and the [json] module reads back what it writes for the returned list,
    saving that list and loading again returns the same list and prints
    nothing. *)
Theorem load_save_load (filename : string) (s : state) :
  (forall n, valid_datetime (clock n)) ->
  exists l s1,
    load_tasks json_loads clock filename s = (Ok l, s1)
    /\ (unwritable s filename = None ->
        json_loads (json_dumps (PList (map PDict l))) = Ok (PList (map PDict l)) ->
        json_dumps (PList (map PDict l)) <> "" ->
        exists s2,
          save_tasks json_dumps l filename s1 = (Ok tt, s2)
          /\ load_tasks json_loads clock filename s2 = (Ok l, s2)).
Proof.
  intros Hc.
  destruct (load_tasks_returns json_loads clock filename s) as (l & s1 & E).
  pose proof (load_tasks_only_printed json_loads clock filename s) as Hp.
  rewrite E in Hp. destruct Hp as (_ & _ & _ & _ & Hu & _). cbn [snd] in Hu.
  exists l, s1. split; [exact E|]. intros Hw Hj Hne.
  assert (Hw1 : unwritable s1 filename = None) by now rewrite Hu.
  destruct (save_tasks_file json_dumps filename l s1 Hw1) as (s2 & E2 & Hf).
  exists s2. split; [exact E2|].
  apply load_tasks_encoded_present with (text := json_dumps (PList (map PDict l)));
    try assumption.
  eapply load_tasks_result_fields; eassumption.
Qed.
End FixedPoint.

Section OddTimestamp.
Variable json_loads : string -> result pyval.
Variable clock : nat -> datetime.

Lemma load_task_odd_timestamp (v : pyval) (s : state) :
  odd_timestamp v -> load_task clock v s = (Raise TypeError, s).
Proof.
  intros (d & x & -> & Hx & Hn). rewrite load_task_object. cbv zeta.
  rewrite Hx. now rewrite strptime_not_text.
Qed.

Lemma for_each_load_odd (items : list pyval) (s : state) :
  Exists odd_timestamp items ->
  exists e s', for_each (load_task clock) items s = (Raise e, s').
Proof.
  intros H. revert s. induction H as [v items Hv|v items _ IH]; intros s.
  - cbn [for_each]. unfold bind at 1. rewrite load_task_odd_timestamp by exact Hv.
    now exists TypeError, s.
  - cbn [for_each]. unfold bind at 1.
    destruct (load_task clock v s) as [[d|e0] s0].
    + unfold bind at 1. destruct (IH s0) as (e & s' & ->). now exists e, s'.
    + now exists e0, s0.
Qed.

(** X3.  A stored record whose timestamp is present but is not text makes
    [load_tasks] give up on the whole file: it returns the empty list and
    reports an unexpected error, and the records around it are dropped. *)
Theorem load_tasks_odd_timestamp (filename : string) (s : state)
        (size : nat) (text : string) (items : list pyval) :
  fs s filename = Present size (Ok text) ->
  size <> 0%nat ->
  json_loads text = Ok (PList items) ->
  Exists odd_timestamp items ->
  exists e s1,
    load_tasks json_loads clock filename s
    = (Ok [], emit (Printed (ErrUnexpectedLoading e)) s1)
    /\ (e = AttributeError \/ e = TypeError).
Proof.
  intros Hf Hs Hj Hbad.
  rewrite (load_tasks_present _ _ _ _ _ _ Hf Hs).
  destruct (for_each_load_odd items s Hbad) as (e & s1 & He).
  assert (Hb : load_body json_loads clock filename (Ok text) s = (Raise e, s1)).
  { unfold load_body, bind, lift. now rewrite Hj. }
  rewrite Hb. rewrite (load_body_raises _ _ _ _ _ _ _ _ Hj Hb).
  exists e, s1. split; [reflexivity|].
  eapply for_each_load_raises; eassumption.
Qed.
End OddTimestamp.

Section SaveContained.
Variable json_dumps : pyval -> string.

(** X4.  [save_tasks] never raises and touches no file but its own: the
    tasks in memory, the entry field and what is drawn stay as they are;
    when the path cannot be opened every file is as before and the error
    is printed; otherwise the file holds the encoded list. *)
Theorem save_tasks_contained (l : list dict) (filename : string) (s : state) :
  exists s',
    save_tasks json_dumps l filename s = (Ok tt, s')
    /\ tasks s' = tasks s /\ task_entry s' = task_entry s /\ shown s' = shown s
    /\ ticks s' = ticks s
    /\ (forall p, p <> filename -> fs s' p = fs s p)
    /\ (forall e, unwritable s filename = Some e ->
                  fs s' = fs s
                  /\ exists m, trace s'
                               = (trace s ++ [WriteFailed filename e; Printed m])%list)
    /\ (unwritable s filename = None ->
        fs s' filename = file_of_text (json_dumps (PList (map PDict l)))
        /\ trace s'
           = (trace s ++ [Wrote filename (json_dumps (PList (map PDict l)))])%list).
Proof.
  destruct (unwritable s filename) as [e|] eqn:E.
  - rewrite (save_tasks_unwritable _ _ _ _ _ E). eexists. split; [reflexivity|].
    do 5 (split; [reflexivity|]). split; [|discriminate].
    intros e' [= <-]. split; [reflexivity|]. eexists. cbn.
    now rewrite <- app_assoc.
  - rewrite (save_tasks_writable _ _ _ _ E). eexists. split; [reflexivity|].
    do 4 (split; [reflexivity|]). split; [|split; [discriminate|]].
    + intros p Hp. cbn. apply String.eqb_neq in Hp. now rewrite Hp.
    + intros _. cbn. now rewrite String.eqb_refl.
Qed.
End SaveContained.

(** Sorting *)

Lemma py_lt_raises (a : pyval) : forall b e, py_lt a b = Raise e -> e = TypeError.
Proof.
  induction a as [| x | x | x | l IH | l IH] using RefJsonFacts.pyval_nested_ind;
    intros b e; cbn [py_lt].
  - destruct b; now intros [= <-].
  - destruct (as_int b); [discriminate | now intros [= <-]].
  - destruct (as_int b); [discriminate | now intros [= <-]].
  - destruct b; now intros [= <-].
  - destruct b as [| | | | ys |]; try (now intros [= <-]).
    revert ys. induction IH as [|x xs Hx _ IHxs]; intros [|y ys]; try discriminate.
    destruct (py_eq x y); [apply IHxs | apply Hx].
  - destruct b; now intros [= <-].
Qed.

Section SortOutcome.
Context {K A : Type} (lt : K -> K -> result bool).

Lemma insert_by_perm (x : K * A) (l r : list (K * A)) :
  insert_by lt x l = Ok r -> Permutation r (x :: l).
Proof.
  revert r. induction l as [|y l IH]; intros r; cbn [insert_by].
  - now intros [= <-].
  - destruct (lt (fst y) (fst x)) as [[]|e]; cbn; try discriminate.
    + destruct (insert_by lt x l) as [r'|e]; cbn; [|discriminate].
      intros [= <-]. rewrite (IH r' eq_refl). apply perm_swap.
    + now intros [= <-].
Qed.

Lemma sort_by_perm (l r : list (K * A)) :
  sort_by lt l = Ok r -> Permutation r l.
Proof.
  revert r. induction l as [|x l IH]; intros r; cbn [sort_by].
  - now intros [= <-].
  - destruct (sort_by lt l) as [r'|e]; cbn; [|discriminate].
    intros H. apply insert_by_perm in H. rewrite H. constructor. now apply IH.
Qed.

Variable E0 : exn.
Hypothesis lt_raises : forall a b e, lt a b = Raise e -> e = E0.

Lemma insert_by_raises (x : K * A) (l : list (K * A)) (e : exn) :
  insert_by lt x l = Raise e -> e = E0.
Proof.
  induction l as [|y l IH]; cbn [insert_by]; [discriminate|].
  destruct (lt (fst y) (fst x)) as [[]|e'] eqn:El; cbn.
  - destruct (insert_by lt x l) as [r'|e'']; cbn; [discriminate|].
    intros [= <-]. now apply IH.
  - discriminate.
  - intros [= <-]. eapply lt_raises, El.
Qed.

Lemma sort_by_raises (l : list (K * A)) (e : exn) :
  sort_by lt l = Raise e -> e = E0.
Proof.
  induction l as [|x l IH]; cbn [sort_by]; [discriminate|].
  destruct (sort_by lt l) as [r'|e']; cbn.
  - apply insert_by_raises.
  - intros [= <-]. now apply IH.
Qed.
End SortOutcome.

Lemma result_map_keys {K A} (key : A -> result K) (l : list A)
      (kl : list (K * A)) :
  result_map (fun x => result_bind (key x) (fun k => Ok (k, x))) l = Ok kl ->
  map snd kl = l.
Proof.
  revert kl. induction l as [|x l IH]; intros kl; cbn [result_map].
  - now intros [= <-].
  - destruct (key x) as [k|e]; cbn; [|discriminate].
    destruct (result_map _ l) as [r|e]; cbn; [|discriminate].
    intros [= <-]. cbn. now rewrite (IH r eq_refl).
Qed.

Lemma result_map_raises {A B} (f : A -> result B) (l : list A) (e : exn) :
  result_map f l = Raise e -> exists x, In x l /\ f x = Raise e.
Proof.
  induction l as [|x l IH]; cbn [result_map]; [discriminate|].
  destruct (f x) as [y|e'] eqn:E; cbn.
  - destruct (result_map f l) as [r|e'']; cbn; [discriminate|].
    intros [= <-]. destruct IH as (z & Hz & Ez); [reflexivity|].
    exists z. split; [now right | exact Ez].
  - intros [= <-]. exists x. split; [now left | exact E].
Qed.

Lemma sorted_perm {K A} (lt : K -> K -> result bool) (key : A -> result K)
      (l r : list A) :
  sorted lt key l = Ok r -> Permutation r l.
Proof.
  unfold sorted.
  destruct (result_map _ l) as [kl|e] eqn:E; cbn; [|discriminate].
  apply result_map_keys in E.
  destruct (sort_by lt kl) as [r'|e] eqn:E'; cbn; [|discriminate].
  intros [= <-]. apply sort_by_perm in E'. rewrite <- E.
  now apply Permutation_map.
Qed.

Lemma sorted_raises {K A} (lt : K -> K -> result bool) (key : A -> result K)
      (E0 : exn) (l : list A) (e : exn) :
  (forall a b e, lt a b = Raise e -> e = E0) ->
  sorted lt key l = Raise e ->
  e = E0 \/ exists x, In x l /\ key x = Raise e.
Proof.
  intros Hlt. unfold sorted.
  destruct (result_map _ l) as [kl|e'] eqn:E; cbn.
  - destruct (sort_by lt kl) as [r'|e''] eqn:E'; cbn; [discriminate|].
    intros [= <-]. left. now apply (sort_by_raises lt E0 Hlt kl).
  - intros [= <-]. right. apply result_map_raises in E.
    destruct E as (x & Hx & Ex). exists x. split; [exact Hx|].
    destruct (key x); [discriminate | now injection Ex as ->].
Qed.

Lemma sorted_by_done_outcome (l : list dict) :
  sorted py_lt key_done l = Raise TypeError
  \/ exists out, sorted py_lt key_done l = Ok out /\ Permutation out l.
Proof.
  destruct (sorted py_lt key_done l) as [out|e] eqn:E.
  - right. exists out. split; [reflexivity|]. now apply sorted_perm in E.
  - left. apply (sorted_raises py_lt key_done TypeError) in E.
    + destruct E as [->|(x & _ & Ex)]; [reflexivity | discriminate].
    + intros a b e'. apply py_lt_raises.
Qed.

Lemma fields_present_parses (t : dict) : fields_present t -> parses t.
Proof.
  intros (_ & _ & (x & d & H1 & H2)). exists d.
  unfold key_timestamp, dict_get_default. now rewrite H1.
Qed.

Lemma sorted_by_time_parses (l : list dict) :
  Forall parses l ->
  sorted dt_lt key_timestamp l = Ok (sort_stable time_or_epoch dt_ltb l).
Proof.
  intros Hp. apply sorted_stable; [|reflexivity].
  eapply Forall_impl; [|exact Hp]. intros t. apply key_timestamp_parses.
Qed.

(** The outcomes of [display_order]: the tasks rearranged, or [TypeError];
    the only thing it may print is the sorting error, and it prints it
    only when a timestamp does not parse. *)
Lemma display_order_total (l : list dict) (s : state) :
  exists r s',
    display_order l s = (r, s')
    /\ (s' = s \/ s' = emit (Printed ErrSorting) s)
    /\ (Forall parses l -> s' = s)
    /\ (r = Raise TypeError \/ exists out, r = Ok out /\ Permutation out l).
Proof.
  unfold display_order, try_except, bind, lift.
  destruct (sorted dt_lt key_timestamp l) as [l1|e] eqn:E1.
  - pose proof (sorted_perm _ _ _ _ E1) as H1.
    destruct (sorted_by_done_outcome l1) as [E2|(out & E2 & H2)]; rewrite E2.
    + eexists _, _. split; [reflexivity|]. split; [now left|].
      split; [reflexivity | now left].
    + eexists _, _. split; [reflexivity|]. split; [now left|].
      split; [reflexivity|]. right. exists out. split; [reflexivity|].
      now rewrite H2.
  - assert (He : e = ValueError \/ e = TypeError).
    { apply (sorted_raises dt_lt key_timestamp TypeError) in E1.
      - destruct E1 as [->|(x & _ & Ex)]; [now right|].
        now apply strptime_raises in Ex.
      - discriminate. }
    destruct He as [-> | ->].
    + cbn. unfold bind, print, modify, lift.
      assert (Hn : Forall parses l -> emit (Printed ErrSorting) s = s).
      { intros Hp. rewrite sorted_by_time_parses in E1 by exact Hp.
        discriminate. }
      destruct (sorted_by_done_outcome l) as [E2|(out & E2 & H2)]; rewrite E2.
      * eexists _, _. split; [reflexivity|]. split; [now right|].
        split; [exact Hn | now left].
      * eexists _, _. split; [reflexivity|]. split; [now right|].
        split; [exact Hn|]. right. now exists out.
    + cbn. eexists _, _. split; [reflexivity|]. split; [now left|].
      split; [reflexivity | now left].
Qed.

Lemma refresh_task_list_total (s : state) :
  exists r s',
    refresh_task_list s = (r, s')
    /\ same_store s s'
    /\ (trace s' = trace s \/ trace s' = (trace s ++ [Printed ErrSorting])%list)
    /\ (Forall parses (tasks s) -> trace s' = trace s)
    /\ ((r = Raise TypeError /\ shown s' = [])
        \/ (r = Ok tt /\ Permutation (shown s') (tasks s))).
Proof.
  unfold refresh_task_list, bind, modify, gets.
  cbn [fst snd tasks set_shown].
  destruct (display_order_total (tasks s) (set_shown [] s))
    as (r & s1 & -> & Hs & Hp & Hr).
  assert (Hst : same_store s s1 /\ shown s1 = []
                /\ (trace s1 = trace s
                    \/ trace s1 = (trace s ++ [Printed ErrSorting])%list)).
  { destruct Hs as [-> | ->].
    - split; [now repeat split|]. split; [reflexivity | now left].
    - split; [|split; [reflexivity | now right]].
      repeat split. now rewrite save_count_printed. }
  destruct Hst as (Hss & Hsh & Htr).
  assert (Hpt : Forall parses (tasks s) -> trace s1 = trace s).
  { intros H. now rewrite (Hp H). }
  destruct Hr as [-> | (out & -> & Hout)].
  - exists (Raise TypeError), s1. split; [reflexivity|]. split; [exact Hss|].
    split; [exact Htr|]. split; [exact Hpt|]. now left.
  - exists (Ok tt), (set_shown out s1). split; [reflexivity|].
    split; [exact Hss|]. split; [exact Htr|]. split; [exact Hpt|]. now right.
Qed.

(** X5.  [refresh_task_list] on any list: the list itself and the files are
    left alone, at most the sorting error is printed (and nothing when
    every timestamp parses), and either every task is drawn exactly once,
    or [TypeError] is raised with nothing drawn. *)
Theorem refresh_task_list_draws_all (s : state) :
  exists r s',
    refresh_task_list s = (r, s')
    /\ tasks s' = tasks s /\ fs s' = fs s /\ save_count s' = save_count s
    /\ (trace s' = trace s \/ trace s' = (trace s ++ [Printed ErrSorting])%list)
    /\ (Forall parses (tasks s) -> trace s' = trace s)
    /\ ((r = Raise TypeError /\ shown s' = [])
        \/ (r = Ok tt /\ Permutation (shown s') (tasks s))).
Proof.
  destruct (refresh_task_list_total s)
    as (r & s' & E & (H1 & _ & H3 & _ & _ & H6) & Ht & Hp & Hr).
  exists r, s'. now repeat (split; [assumption|]).
Qed.

Section Startup.
Variable json_loads : string -> result pyval.
Variable json_dumps : pyval -> string.
Variable clock : nat -> datetime.

Lemma init_run (s : state) (l : list dict) (s1 : state) :
  load_tasks json_loads clock TASKS_FILE s = (Ok l, s1) ->
  init json_loads clock s = refresh_task_list (set_tasks l s1).
Proof. intros E. unfold init, bind at 1. rewrite E. reflexivity. Qed.

(** X6.  Startup.  Whatever the tasks file holds, [__init__] leaves in
    memory a list whose records all have the three fields and a timestamp
    that parses; it writes no file; and it either draws every task of the
    list exactly once, or raises [TypeError] from the sort by done flag. *)
Theorem init_establishes_fields (s : state) :
  (forall n, valid_datetime (clock n)) ->
  exists r s',
    init json_loads clock s = (r, s')
    /\ Forall fields_present (tasks s')
    /\ fs s' = fs s /\ save_count s' = save_count s
    /\ ((r = Raise TypeError /\ shown s' = [])
        \/ (r = Ok tt /\ Permutation (shown s') (tasks s'))).
Proof.
  intros Hc.
  destruct (load_tasks_returns json_loads clock TASKS_FILE s) as (l & s1 & E).
  pose proof (load_tasks_only_printed json_loads clock TASKS_FILE s) as Hp.
  rewrite E in Hp. destruct Hp as (_ & _ & _ & Hfs & _ & Hsc & _).
  cbn [snd] in Hfs, Hsc.
  assert (Hl : Forall fields_present l)
    by (eapply load_tasks_result_fields; eassumption).
  rewrite (init_run s l s1 E).
  destruct (refresh_task_list_total (set_tasks l s1))
    as (r & s' & -> & (H1 & _ & H3 & _ & _ & H6) & _ & _ & Hr).
  exists r, s'. split; [reflexivity|].
  cbn [tasks set_tasks fs] in H1, H3, Hr. rewrite H1, H3, H6.
  split; [exact Hl|]. split; [exact Hfs|]. split; [exact Hsc|]. exact Hr.
Qed.

Lemma on_closing_run (s : state) :
  on_closing json_dumps s
  = save_tasks json_dumps (tasks s) TASKS_FILE
      (emit (Printed MsgSavingBeforeClosing) s).
Proof. reflexivity. Qed.

(** X7.  Closing and starting again.  [on_closing] never raises and keeps
    the list; when the tasks file is writable and the [json] module reads
    back what it writes for the list, a program started on the files it
    leaves has the same list in memory. *)
Theorem on_closing_then_init (s : state) :
  exists s',
    on_closing json_dumps s = (Ok tt, s')
    /\ tasks s' = tasks s
    /\ (Forall fields_present (tasks s) ->
        unwritable s TASKS_FILE = None ->
        json_loads (json_dumps (PList (map PDict (tasks s))))
        = Ok (PList (map PDict (tasks s))) ->
        json_dumps (PList (map PDict (tasks s))) <> "" ->
        forall s0,
          fs s0 TASKS_FILE = fs s' TASKS_FILE ->
          exists r s0',
            init json_loads clock s0 = (r, s0') /\ tasks s0' = tasks s).
Proof.
  rewrite on_closing_run.
  set (sp := emit (Printed MsgSavingBeforeClosing) s).
  destruct (save_tasks_effect json_dumps (tasks s) TASKS_FILE sp)
    as (s' & E & Ht & _ & _ & _ & _ & Hf).
  exists s'. split; [exact E|]. split; [exact Ht|].
  intros Hl Hw Hj Hne s0 Hs0.
  rewrite (Hf Hw) in Hs0.
  rewrite (init_run s0 (tasks s) s0).
  - destruct (refresh_task_list_same_store (set_tasks (tasks s) s0))
      as (r & s0' & -> & (H1 & _)).
    now exists r, s0'.
  - now apply load_tasks_encoded_present
      with (text := json_dumps (PList (map PDict (tasks s)))).
Qed.
End Startup.

(** Text *)

Lemma rstrip_cons (c : ascii) (s : string) :
  rstrip (String c s)
  = match rstrip s with
    | EmptyString => if is_space c then EmptyString else String c EmptyString
    | String a r => String c (String a r)
    end.
Proof. reflexivity. Qed.

Lemma rstrip_idem (s : string) : rstrip (rstrip s) = rstrip s.
Proof.
  induction s as [|c s IH]; [reflexivity|]. rewrite rstrip_cons.
  destruct (rstrip s) as [|a r] eqn:E.
  - destruct (is_space c) eqn:Ec; [reflexivity|]. cbn. now rewrite Ec.
  - rewrite rstrip_cons, IH. reflexivity.
Qed.

Lemma lstrip_head (s : string) :
  lstrip s = "" \/ exists c t, lstrip s = String c t /\ is_space c = false.
Proof.
  induction s as [|c s IH]; [now left|]. cbn.
  destruct (is_space c) eqn:E; [exact IH|]. right. now exists c, s.
Qed.

Lemma rstrip_head (c : ascii) (s : string) :
  is_space c = false -> exists t, rstrip (String c s) = String c t.
Proof.
  intros H. rewrite rstrip_cons. destruct (rstrip s); [rewrite H|]; eauto.
Qed.

Lemma strip_idem (s : string) : strip (strip s) = strip s.
Proof.
  unfold strip. destruct (lstrip_head s) as [->|(c & t & -> & Hc)]; [reflexivity|].
  destruct (rstrip_head c t Hc) as (t' & E).
  rewrite E. cbn [lstrip]. rewrite Hc, <- E. apply rstrip_idem.
Qed.

(** Dictionaries *)

Lemma dict_set_set (d : dict) (k : string) (v w : pyval) :
  dict_set (dict_set d k v) k w = dict_set d k w.
Proof.
  induction d as [|[k' v'] d IH]; cbn.
  - now rewrite String.eqb_refl.
  - destruct (String.eqb k k') eqn:E; cbn; rewrite E; [reflexivity|].
    now rewrite IH.
Qed.

Lemma dict_set_same (d : dict) (k : string) (v : pyval) :
  dict_get d k = Some v -> dict_set d k v = d.
Proof.
  induction d as [|[k' v'] d IH]; cbn; [discriminate|].
  destruct (String.eqb k k'); [now intros [= ->]|].
  intros H. now rewrite IH.
Qed.

Lemma flipped_flipped (t : dict) (b : bool) :
  dict_get t "done" = Some (PBool b) -> flipped (flipped t) = t.
Proof.
  intros H.
  assert (E : dict_get (flipped t) "done" = Some (PBool (negb b))).
  { unfold flipped. rewrite dict_get_set_same.
    unfold dict_get_default. now rewrite H. }
  unfold flipped at 1. unfold dict_get_default at 1. rewrite E.
  cbn [truthy]. rewrite negb_involutive. unfold flipped.
  rewrite dict_set_set. now apply dict_set_same.
Qed.

Lemma flipped_other (t : dict) (k : string) :
  k <> "done" -> dict_get (flipped t) k = dict_get t k.
Proof. intros H. unfold flipped. now apply dict_get_set_other. Qed.

Lemma flipped_identity (t target : dict) :
  same_identity (flipped t) target = same_identity t target.
Proof.
  unfold same_identity, dict_get_none, dict_get_default.
  now rewrite !flipped_other by discriminate.
Qed.

Lemma flipped_has_identity (t : dict) : has_identity t -> has_identity (flipped t).
Proof.
  intros [H1 H2]. split; now rewrite flipped_other by discriminate.
Qed.

Lemma flipped_fields_present (t : dict) :
  fields_present t -> fields_present (flipped t).
Proof.
  intros (H1 & H2 & H3). repeat split.
  - now rewrite flipped_other by discriminate.
  - unfold flipped. now rewrite dict_get_set_same.
  - now rewrite flipped_other by discriminate.
Qed.

Lemma flipped_well_typed (t : dict) :
  well_typed_task t -> well_typed_task (flipped t).
Proof.
  intros (H1 & H2 & H3). repeat split.
  - now rewrite flipped_other by discriminate.
  - unfold flipped. rewrite dict_get_set_same. eauto.
  - now rewrite flipped_other by discriminate.
Qed.

Lemma new_task_fields_present (description : string) (d : datetime) :
  valid_datetime d -> fields_present (new_task description (strftime d)).
Proof.
  intros H. repeat split; try discriminate.
  exists (strftime d), d. split; [reflexivity | now apply strptime_strftime].
Qed.

Lemma new_task_well_typed (entry : string) (d : datetime) :
  valid_datetime d -> strip entry <> "" ->
  well_typed_task (new_task (strip entry) (strftime d)).
Proof.
  intros H Hn. repeat split.
  - exists (strip entry). split; [reflexivity|]. now rewrite strip_idem.
  - now exists false.
  - exists (strftime d), d. split; [reflexivity | now apply strptime_strftime].
Qed.

Lemma set_tasks_same (s : state) : set_tasks (tasks s) s = s.
Proof. now destruct s. Qed.

Lemma well_typed_fields_present (t : dict) :
  well_typed_task t -> fields_present t.
Proof.
  intros ((x & Hx & _) & (b & Hb) & Ht). repeat split; [congruence.. | exact Ht].
Qed.

Lemma well_typed_done_is_flag (t : dict) : well_typed_task t -> done_is_flag t.
Proof.
  intros (_ & (b & Hb) & _). exists b. unfold dict_get_default. now rewrite Hb.
Qed.

Lemma fields_present_has_identity (t : dict) :
  fields_present t -> has_identity t.
Proof.
  intros (H1 & _ & (x & d & H3 & _)). split; [congruence | exact H1].
Qed.

Lemma refresh_task_list_well_typed (s : state) :
  Forall well_typed_task (tasks s) ->
  refresh_task_list s = (Ok tt, set_shown (two_key_order (tasks s)) s).
Proof.
  intros H. unfold refresh_task_list, bind, modify, gets.
  cbn [tasks set_shown fst snd]. rewrite display_order_parsed.
  - now destruct s.
  - eapply Forall_impl; [|exact H]. intros t Ht.
    now apply fields_present_parses, well_typed_fields_present.
  - eapply Forall_impl; [|exact H]. intros t. apply well_typed_done_is_flag.
Qed.

Section MutationRuns.
Variable json_dumps : pyval -> string.
Variable clock : nat -> datetime.

Lemma add_task_event_accepted (s : state) :
  strip (task_entry s) <> "" ->
  exists s1,
    add_task_event json_dumps clock s = refresh_task_list s1
    /\ tasks s1 = (tasks s ++ [new_task (strip (task_entry s))
                                       (strftime (clock (ticks s)))])%list
    /\ task_entry s1 = "" /\ unwritable s1 = unwritable s
    /\ ticks s1 = S (ticks s) /\ save_count s1 = S (save_count s).
Proof.
  intros Hn. unfold add_task_event, bind at 1, gets at 1.
  destruct (strip (task_entry s)) as [|c d] eqn:Ed; [now elim Hn|].
  cbn [truthy String.eqb negb].
  unfold now_text, bind, gets, modify, ret, new_task.
  cbn -[save_tasks refresh_task_list strftime save_count].
  set (l' := (tasks s ++ [_])%list).
  destruct (save_tasks_effect json_dumps l' TASKS_FILE (set_tasks l' (tick s)))
    as (s1 & -> & Ht & He & Hw & Hk & Hc & _).
  exists (set_task_entry "" s1). split; [reflexivity|].
  cbn [tasks task_entry unwritable ticks set_task_entry].
  rewrite Ht, Hw, Hk. now repeat split.
Qed.

Lemma add_task_event_rejected (s : state) :
  strip (task_entry s) = "" ->
  add_task_event json_dumps clock s
  = (Ok tt, emit (Printed MsgEmptyDescription) s).
Proof.
  intros E. unfold add_task_event, bind at 1, gets at 1. now rewrite E.
Qed.

Lemma toggle_complete_run (target : dict) (s : state) :
  match toggle_loop target (tasks s) with
  | Raise e => toggle_complete json_dumps target s = (Raise e, s)
  | Ok None =>
      toggle_complete json_dumps target s
      = (Ok tt,
         emit (Printed (WarnToggleNotFound (dict_get_none target "description"))) s)
  | Ok (Some l') =>
      exists s1,
        toggle_complete json_dumps target s = refresh_task_list s1
        /\ tasks s1 = l' /\ task_entry s1 = task_entry s
        /\ unwritable s1 = unwritable s /\ ticks s1 = ticks s
        /\ save_count s1 = S (save_count s)
  end.
Proof.
  destruct (toggle_loop target (tasks s)) as [[l'|]|e] eqn:E;
    unfold toggle_complete, bind, gets, lift; rewrite E; try reflexivity.
  unfold modify.
  cbn -[save_tasks refresh_task_list save_count].
  destruct (save_tasks_effect json_dumps l' TASKS_FILE (set_tasks l' s))
    as (s1 & -> & Ht & He & Hw & Hk & Hc & _).
  exists s1. split; [reflexivity|].
  rewrite Ht, He, Hw, Hk. now repeat split.
Qed.

Lemma remove_task_found (target : dict) (s : state) :
  let l' := filter (fun t => negb (same_identity t target)) (tasks s) in
  (List.length l' < List.length (tasks s))%nat ->
  exists s1,
    remove_task json_dumps target s = refresh_task_list s1
    /\ tasks s1 = l' /\ task_entry s1 = task_entry s
    /\ unwritable s1 = unwritable s /\ ticks s1 = ticks s
    /\ save_count s1 = S (save_count s).
Proof.
  intros l' Hlt. unfold remove_task, bind, gets, modify.
  cbn -[save_tasks refresh_task_list save_count Nat.ltb]. fold l'.
  apply Nat.ltb_lt in Hlt. rewrite Hlt.
  destruct (save_tasks_effect json_dumps l' TASKS_FILE (set_tasks l' s))
    as (s1 & -> & Ht & He & Hw & Hk & Hc & _).
  exists s1. split; [reflexivity|].
  rewrite Ht, He, Hw, Hk. now repeat split.
Qed.

Lemma remove_task_not_found (target : dict) (s : state) :
  filter (fun t => negb (same_identity t target)) (tasks s) = tasks s ->
  remove_task json_dumps target s
  = (Ok tt,
     emit (Printed (WarnRemoveNotFound (dict_get_none target "description"))) s).
Proof.
  intros E. unfold remove_task, bind, gets, modify.
  cbn -[save_tasks refresh_task_list Nat.ltb].
  rewrite E, Nat.ltb_irrefl, set_tasks_same. reflexivity.
Qed.

Lemma remove_task_cases (target : dict) (s : state) :
  let l' := filter (fun t => negb (same_identity t target)) (tasks s) in
  (l' = tasks s) \/ (List.length l' < List.length (tasks s))%nat.
Proof.
  intros l'. subst l'.
  set (f := fun t => negb (same_identity t target)).
  induction (tasks s) as [|x l IH]; [now left|]. cbn.
  pose proof (filter_length_le f l) as Hle.
  destruct (f x); cbn.
  - destruct IH as [-> | IH]; [now left | right; lia].
  - right. lia.
Qed.
End MutationRuns.

Lemma toggle_loop_shape (target : dict) (l l' : list dict) :
  toggle_loop target l = Ok (Some l') ->
  exists pre x post,
    l = (pre ++ x :: post)%list /\ l' = (pre ++ flipped x :: post)%list.
Proof.
  revert l'. induction l as [|t l IH]; intros l'; [discriminate|].
  cbn [toggle_loop]. unfold getitem.
  destruct (dict_get t "timestamp") as [t1|]; [|discriminate].
  destruct (dict_get target "timestamp") as [t2|]; [|discriminate].
  cbn [result_bind].
  assert (Hrec : result_bind (toggle_loop target l)
                   (fun r => Ok (option_map (cons t) r)) = Ok (Some l') ->
                 exists pre x post, (t :: l = pre ++ x :: post)%list
                                    /\ l' = (pre ++ flipped x :: post)%list).
  { destruct (toggle_loop target l) as [[r|]|e]; try discriminate.
    cbn. intros [= <-]. destruct (IH r eq_refl) as (pre & x & post & -> & ->).
    now exists (t :: pre), x, post. }
  destruct (py_eq t1 t2); [|exact Hrec].
  destruct (dict_get t "description") as [d1|]; [|discriminate].
  destruct (dict_get target "description") as [d2|]; [|discriminate].
  cbn [result_bind]. destruct (py_eq d1 d2); [|exact Hrec].
  intros [= <-]. now exists [], t, l.
Qed.

Lemma toggle_loop_raises (target : dict) (l : list dict) (e : exn) :
  toggle_loop target l = Raise e -> e = KeyError.
Proof.
  induction l as [|t l IH]; [discriminate|].
  cbn [toggle_loop]. unfold getitem.
  destruct (dict_get t "timestamp") as [t1|]; [|now intros [= <-]].
  destruct (dict_get target "timestamp") as [t2|]; [|now intros [= <-]].
  cbn [result_bind].
  assert (Hrec : result_bind (toggle_loop target l)
                   (fun r => Ok (option_map (cons t) r)) = Raise e ->
                 e = KeyError).
  { destruct (toggle_loop target l) as [r|e']; [discriminate|].
    cbn. intros [= <-]. now apply IH. }
  destruct (py_eq t1 t2); [|exact Hrec].
  destruct (dict_get t "description") as [d1|]; [|now intros [= <-]].
  destruct (dict_get target "description") as [d2|]; [|now intros [= <-]].
  cbn [result_bind]. destruct (py_eq d1 d2); [discriminate | exact Hrec].
Qed.

Lemma toggle_loop_cases (target : dict) (l : list dict) :
  has_identity target -> Forall has_identity l ->
  (toggle_loop target l = Ok None
   /\ Forall (fun t => same_identity t target = false) l)
  \/ exists pre x post,
       l = (pre ++ x :: post)%list
       /\ Forall (fun t => same_identity t target = false) pre
       /\ same_identity x target = true
       /\ toggle_loop target l = Ok (Some (pre ++ flipped x :: post)%list).
Proof.
  intros HT Hl. induction Hl as [|t l Ht Hl IH]; [left; now split|].
  rewrite toggle_loop_step by assumption.
  destruct (same_identity t target) eqn:E.
  - right. exists [], t, l. now repeat split.
  - destruct IH as [[-> Hn] | (pre & x & post & -> & Hn & Hx & ->)].
    + left. split; [reflexivity | now constructor].
    + right. exists (t :: pre), x, post. repeat split; try assumption.
      now constructor.
Qed.

Lemma Forall_flipped_at (P : dict -> Prop) (pre post : list dict) (x : dict) :
  (P x -> P (flipped x)) ->
  Forall P (pre ++ x :: post)%list -> Forall P (pre ++ flipped x :: post)%list.
Proof.
  intros Hx H. apply Forall_app in H. destruct H as [H1 H2].
  inversion H2; subst. apply Forall_app. split; [exact H1|].
  constructor; auto.
Qed.

Lemma Forall_filter {A} (P : A -> Prop) (f : A -> bool) (l : list A) :
  Forall P l -> Forall P (filter f l).
Proof.
  induction 1 as [|x l Hx _ IH]; [constructor|]. cbn.
  destruct (f x); [now constructor | exact IH].
Qed.

Section Handlers.
Variable json_dumps : pyval -> string.
Variable clock : nat -> datetime.

(** X8.  [add_task_event] keeps the list in shape: when the clock reading
    is a valid date, records that all have their three fields and a
    timestamp that parses still do afterwards, and on a list of well-typed
    tasks it returns normally with a list of well-typed tasks, drawn in
    the two-key order when a task was added. *)
Theorem add_task_event_invariants (s : state) :
  valid_datetime (clock (ticks s)) ->
  exists r s',
    add_task_event json_dumps clock s = (r, s')
    /\ (Forall fields_present (tasks s) -> Forall fields_present (tasks s'))
    /\ (Forall well_typed_task (tasks s) ->
        r = Ok tt /\ Forall well_typed_task (tasks s')
        /\ (strip (task_entry s) <> "" -> shown s' = two_key_order (tasks s'))).
Proof.
  intros Hc. destruct (string_dec (strip (task_entry s)) "") as [E|N].
  - rewrite (add_task_event_rejected json_dumps clock s E).
    eexists _, _. split; [reflexivity|]. split; [auto|].
    intros H. split; [reflexivity|]. split; [exact H | now intros []].
  - destruct (add_task_event_accepted json_dumps clock s N)
      as (s1 & -> & Ht & _).
    destruct (refresh_task_list_same_store s1) as (r & s' & E & (H1 & _)).
    exists r, s'. split; [exact E|]. split.
    + intros H. rewrite H1, Ht. apply Forall_app. split; [exact H|].
      constructor; [|constructor]. now apply new_task_fields_present.
    + intros H.
      assert (Hw : Forall well_typed_task (tasks s1)).
      { rewrite Ht. apply Forall_app. split; [exact H|].
        constructor; [|constructor]. now apply new_task_well_typed. }
      rewrite (refresh_task_list_well_typed s1 Hw) in E.
      injection E as <- <-. cbn [tasks shown set_shown]. now repeat split.
Qed.

(** X9.  [toggle_complete], for any target, keeps the list in shape:
    records that all have their three fields and a timestamp that parses
    still do afterwards; well-typed tasks stay well-typed, and with them
    a target that has a timestamp and a description is handled without an
    exception. *)
Theorem toggle_complete_invariants (target : dict) (s : state) :
  exists r s',
    toggle_complete json_dumps target s = (r, s')
    /\ (Forall fields_present (tasks s) -> Forall fields_present (tasks s'))
    /\ (Forall well_typed_task (tasks s) ->
        Forall well_typed_task (tasks s')
        /\ (has_identity target -> r = Ok tt)).
Proof.
  pose proof (toggle_complete_run json_dumps target s) as H.
  destruct (toggle_loop target (tasks s)) as [[l'|]|e] eqn:E.
  - destruct H as (s1 & -> & Ht & _).
    apply toggle_loop_shape in E. destruct E as (pre & x & post & El & ->).
    destruct (refresh_task_list_same_store s1) as (r & s' & E & (H1 & _)).
    exists r, s'. split; [exact E|]. split.
    + intros H. rewrite H1, Ht. rewrite El in H.
      revert H. apply Forall_flipped_at, flipped_fields_present.
    + intros H.
      assert (Hw : Forall well_typed_task (tasks s1)).
      { rewrite Ht. rewrite El in H.
        revert H. apply Forall_flipped_at, flipped_well_typed. }
      rewrite (refresh_task_list_well_typed s1 Hw) in E.
      injection E as <- <-. cbn [tasks set_shown]. now split.
  - rewrite H. eexists _, _. split; [reflexivity|]. split; [auto|].
    intros Hw. now split.
  - rewrite H. eexists _, _. split; [reflexivity|]. split; [auto|].
    intros Hw. split; [exact Hw|]. intros HT. exfalso.
    destruct (toggle_loop_cases target (tasks s) HT) as [[E' _]|(? & ? & ? & _ & _ & _ & E')].
    + eapply Forall_impl; [|exact Hw]. intros t Ht.
      now apply fields_present_has_identity, well_typed_fields_present.
    + congruence.
    + congruence.
Qed.

(** X10.  [remove_task], for any target, keeps the list in shape: records
    that all have their three fields and a timestamp that parses still do
    afterwards, and on a list of well-typed tasks it returns normally with
    a list of well-typed tasks. *)
Theorem remove_task_invariants (target : dict) (s : state) :
  exists r s',
    remove_task json_dumps target s = (r, s')
    /\ (Forall fields_present (tasks s) -> Forall fields_present (tasks s'))
    /\ (Forall well_typed_task (tasks s) ->
        r = Ok tt /\ Forall well_typed_task (tasks s')).
Proof.
  destruct (remove_task_cases target s) as [E|Hlt].
  - rewrite (remove_task_not_found json_dumps target s E).
    eexists _, _. split; [reflexivity|]. split; [auto|]. now split.
  - destruct (remove_task_found json_dumps target s Hlt) as (s1 & -> & Ht & _).
    destruct (refresh_task_list_same_store s1) as (r & s' & E & (H1 & _)).
    exists r, s'. split; [exact E|]. split.
    + intros H. rewrite H1, Ht. now apply Forall_filter.
    + intros H.
      assert (Hw : Forall well_typed_task (tasks s1)).
      { rewrite Ht. now apply Forall_filter. }
      rewrite (refresh_task_list_well_typed s1 Hw) in E.
      injection E as <- <-. cbn [tasks set_shown]. now split.
Qed.

(** X11.  Toggling the same target twice gives the list back: on well-typed
    tasks, two calls of [toggle_complete] with a target that has its
    identity fields both return normally and leave the list as it was. *)
Theorem toggle_complete_twice (target : dict) (s : state) :
  has_identity target ->
  Forall well_typed_task (tasks s) ->
  exists s1 s2,
    toggle_complete json_dumps target s = (Ok tt, s1)
    /\ toggle_complete json_dumps target s1 = (Ok tt, s2)
    /\ tasks s2 = tasks s.
Proof.
  intros HT Hw.
  assert (Hid : forall l, Forall well_typed_task l -> Forall has_identity l).
  { intros l H. eapply Forall_impl; [|exact H]. intros t Ht.
    now apply fields_present_has_identity, well_typed_fields_present. }
  pose proof (toggle_complete_run json_dumps target s) as H.
  destruct (toggle_loop_cases target (tasks s) HT (Hid _ Hw))
    as [[E Hn] | (pre & x & post & El & Hn & Hx & E)]; rewrite E in H.
  - rewrite H. eexists _, _. split; [reflexivity|].
    pose proof (toggle_complete_run json_dumps target
                  (emit (Printed (WarnToggleNotFound
                                    (dict_get_none target "description"))) s))
      as H'.
    cbn [tasks emit] in H'. rewrite E in H'. rewrite H'.
    split; reflexivity.
  - destruct H as (s1 & -> & Ht & _).
    assert (Hw1 : Forall well_typed_task (tasks s1)).
    { rewrite Ht. rewrite El in Hw.
      revert Hw. apply Forall_flipped_at, flipped_well_typed. }
    rewrite (refresh_task_list_well_typed s1 Hw1).
    set (s1' := set_shown (two_key_order (tasks s1)) s1).
    pose proof (toggle_complete_run json_dumps target s1') as H'.
    assert (Hx' : well_typed_task x).
    { rewrite El in Hw. apply Forall_app in Hw. destruct Hw as [_ Hw].
      now inversion Hw. }
    assert (E' : toggle_loop target (tasks s1')
                 = Ok (Some (pre ++ flipped (flipped x) :: post)%list)).
    { cbn [tasks s1' set_shown]. rewrite Ht.
      apply toggle_loop_first_match; try assumption.
      - rewrite El in Hw. apply Forall_app in Hw. apply Hid, Hw.
      - now apply flipped_has_identity, fields_present_has_identity,
          well_typed_fields_present.
      - now rewrite flipped_identity. }
    rewrite E' in H'. destruct H' as (s2 & E2 & Ht2 & _).
    destruct Hx' as (_ & (b & Hb) & _).
    rewrite (flipped_flipped x b Hb), <- El in Ht2.
    assert (Hw2 : Forall well_typed_task (tasks s2)) by now rewrite Ht2.
    rewrite (refresh_task_list_well_typed s2 Hw2) in E2.
    exists s1', (set_shown (two_key_order (tasks s2)) s2).
    split; [reflexivity|]. split; [exact E2 | exact Ht2].
Qed.

(** X12.  Removing the same target twice: the second call of [remove_task]
    finds nothing any more; it only prints the warning, and neither
    changes the list nor saves. *)
Theorem remove_task_twice (target : dict) (s : state) :
  exists r s1,
    remove_task json_dumps target s = (r, s1)
    /\ tasks s1 = filter (fun t => negb (same_identity t target)) (tasks s)
    /\ remove_task json_dumps target s1
       = (Ok tt,
          emit (Printed (WarnRemoveNotFound (dict_get_none target "description")))
               s1).
Proof.
  destruct (remove_task_cases target s) as [E|Hlt].
  - rewrite (remove_task_not_found json_dumps target s E).
    eexists _, _. split; [reflexivity|]. cbn [tasks emit].
    split; [now rewrite E|].
    apply remove_task_not_found. exact E.
  - destruct (remove_task_found json_dumps target s Hlt) as (s1 & -> & Ht & _).
    destruct (refresh_task_list_same_store s1) as (r & s' & E & (H1 & _)).
    exists r, s'. split; [exact E|]. rewrite <- Ht, <- H1.
    split; [reflexivity|].
    apply remove_task_not_found. rewrite H1, Ht. apply filter_twice.
Qed.

(** X13.  Adding a task and removing it again: after [add_task_event] with
    an entry that is not blank and [remove_task] of the record it built,
    the list holds the tasks it held before, except those that have the
    timestamp and the description of the new record; when there are none,
    the list is as before.  Both steps save. *)
Theorem add_then_remove (s : state) :
  strip (task_entry s) <> "" ->
  let t := new_task (strip (task_entry s)) (strftime (clock (ticks s))) in
  exists r1 s1 r2 s2,
    add_task_event json_dumps clock s = (r1, s1)
    /\ remove_task json_dumps t s1 = (r2, s2)
    /\ tasks s2 = filter (fun x => negb (same_identity x t)) (tasks s)
    /\ save_count s2 = S (S (save_count s))
    /\ (Forall (fun x => same_identity x t = false) (tasks s) ->
        tasks s2 = tasks s).
Proof.
  intros N t.
  destruct (add_task_event_accepted json_dumps clock s N)
    as (s0 & -> & Ht & _ & _ & _ & Hc).
  fold t in Ht.
  destruct (refresh_task_list_same_store s0) as (r1 & s1 & -> & (H1 & _ & _ & _ & _ & H6)).
  assert (Hself : same_identity t t = true).
  { unfold same_identity.
    change (dict_get_none t "timestamp")
      with (PStr (strftime (clock (ticks s)))).
    change (dict_get_none t "description") with (PStr (strip (task_entry s))).
    cbn [py_eq]. now rewrite !String.eqb_refl. }
  assert (Ef : filter (fun x => negb (same_identity x t)) (tasks s1)
               = filter (fun x => negb (same_identity x t)) (tasks s)).
  { rewrite H1, Ht, filter_app. cbn [filter]. rewrite Hself. cbn [negb].
    apply app_nil_r. }
  assert (Hlt : (List.length (filter (fun x => negb (same_identity x t)) (tasks s1))
                 < List.length (tasks s1))%nat).
  { rewrite Ef, H1, Ht, length_app. cbn [List.length].
    pose proof (filter_length_le (fun x => negb (same_identity x t)) (tasks s)).
    lia. }
  destruct (remove_task_found json_dumps t s1 Hlt) as (s2' & E2 & Ht2 & _ & _ & _ & Hc2).
  destruct (refresh_task_list_same_store s2') as (r2 & s2 & E3 & (H1' & _ & _ & _ & _ & H6')).
  exists r1, s1, r2, s2. split; [reflexivity|].
  split; [now rewrite E2|].
  rewrite H1', Ht2, Ef, H6', Hc2, H6, Hc.
  split; [reflexivity|]. split; [reflexivity|].
  intros Hn. apply filter_keeps_all.
  eapply Forall_impl; [|exact Hn]. intros x Hx. now rewrite Hx.
Qed.

(** X14.  [add_task_event] empties the entry field: called again at once,
    it adds nothing and only prints the message for an empty
    description. *)
Theorem add_task_event_clears_entry (s : state) :
  strip (task_entry s) <> "" ->
  exists r s1,
    add_task_event json_dumps clock s = (r, s1)
    /\ task_entry s1 = ""
    /\ add_task_event json_dumps clock s1
       = (Ok tt, emit (Printed MsgEmptyDescription) s1).
Proof.
  intros N.
  destruct (add_task_event_accepted json_dumps clock s N)
    as (s0 & -> & _ & He & _).
  destruct (refresh_task_list_same_store s0) as (r & s1 & -> & (_ & H2 & _)).
  exists r, s1. split; [reflexivity|]. rewrite H2, He.
  split; [reflexivity|].
  apply add_task_event_rejected. now rewrite H2, He.
Qed.

(** X15.  A task of the list is found by [toggle_complete]: when the
    target is in the list, the records of the list have their identity
    fields, and the target's timestamp and description compare equal to
    themselves, the first task with that timestamp and description is
    flipped and the list is saved; the not-found warning is not
    reached. *)
Theorem toggle_complete_member (target : dict) (s : state) :
  In target (tasks s) ->
  Forall has_identity (tasks s) ->
  same_identity target target = true ->
  exists r s' pre x post,
    toggle_complete json_dumps target s = (r, s')
    /\ tasks s = (pre ++ x :: post)%list
    /\ Forall (fun t => same_identity t target = false) pre
    /\ same_identity x target = true
    /\ tasks s' = (pre ++ flipped x :: post)%list
    /\ save_count s' = S (save_count s).
Proof.
  intros Hin Hid Hself.
  assert (HT : has_identity target).
  { rewrite Forall_forall in Hid. now apply Hid. }
  pose proof (toggle_complete_run json_dumps target s) as H.
  destruct (toggle_loop_cases target (tasks s) HT Hid)
    as [[E Hn] | (pre & x & post & El & Hn & Hx & E)]; rewrite E in H.
  - rewrite Forall_forall in Hn. specialize (Hn target Hin). congruence.
  - destruct H as (s1 & -> & Ht & _ & _ & _ & Hc).
    destruct (refresh_task_list_same_store s1)
      as (r & s' & -> & (H1 & _ & _ & _ & _ & H6)).
    exists r, s', pre, x, post. split; [reflexivity|].
    rewrite H1, Ht, H6, Hc. now repeat split.
Qed.

(** X16.  A task of the list is found by [remove_task]: when the target is
    in the list and its timestamp and description compare equal to
    themselves, the list gets shorter, the target is not in it any more,
    and the list is saved. *)
Theorem remove_task_member (target : dict) (s : state) :
  In target (tasks s) ->
  same_identity target target = true ->
  exists r s',
    remove_task json_dumps target s = (r, s')
    /\ ~ In target (tasks s')
    /\ (List.length (tasks s') < List.length (tasks s))%nat
    /\ save_count s' = S (save_count s).
Proof.
  intros Hin Hself.
  assert (Hlt : (List.length (filter (fun t => negb (same_identity t target))
                                     (tasks s))
                 < List.length (tasks s))%nat).
  { apply filter_drops_some. apply Exists_exists. exists target.
    split; [exact Hin|]. now rewrite Hself. }
  destruct (remove_task_found json_dumps target s Hlt)
    as (s1 & -> & Ht & _ & _ & _ & Hc).
  destruct (refresh_task_list_same_store s1)
    as (r & s' & -> & (H1 & _ & _ & _ & _ & H6)).
  exists r, s'. split; [reflexivity|]. rewrite H1, Ht, H6, Hc.
  split; [|split; [exact Hlt | reflexivity]].
  intros H. apply filter_In in H. destruct H as [_ H].
  now rewrite Hself in H.
Qed.

(** X17.  [toggle_complete] reads the identity fields by subscript: with a
    target that has no timestamp it raises [KeyError] as soon as the list
    is not empty, and the same when the first task of the list has no
    timestamp; nothing is changed, saved or printed.  On an empty list
    the same target only gives the not-found warning. *)
Theorem toggle_complete_key_error (target : dict) (s : state) :
  (tasks s = [] ->
   toggle_complete json_dumps target s
   = (Ok tt,
      emit (Printed (WarnToggleNotFound (dict_get_none target "description"))) s))
  /\ (forall t rest,
         tasks s = t :: rest ->
         dict_get target "timestamp" = None \/ dict_get t "timestamp" = None ->
         toggle_complete json_dumps target s = (Raise KeyError, s)).
Proof.
  pose proof (toggle_complete_run json_dumps target s) as H. split.
  - intros E. rewrite E in H. exact H.
  - intros t rest E Hk. rewrite E in H.
    assert (El : toggle_loop target (t :: rest) = Raise KeyError).
    { cbn [toggle_loop]. unfold getitem.
      destruct (dict_get t "timestamp"); cbn [result_bind]; [|reflexivity].
      destruct Hk as [-> | Hk]; [reflexivity | discriminate]. }
    now rewrite El in H.
Qed.

(** X18.  How a handler can fail.  An exception of [remove_task] or of
    [add_task_event] is a [TypeError] of the redraw: by then the list has
    been changed and saved and nothing is drawn.  An exception of
    [toggle_complete] is that, or a [KeyError] of the search, which
    leaves everything as it was. *)
Theorem handlers_failure (target : dict) (s s' : state) (e : exn) :
  (add_task_event json_dumps clock s = (Raise e, s') ->
   e = TypeError /\ shown s' = [] /\ save_count s' = S (save_count s)
   /\ List.length (tasks s') = S (List.length (tasks s)))
  /\ (remove_task json_dumps target s = (Raise e, s') ->
      e = TypeError /\ shown s' = [] /\ save_count s' = S (save_count s)
      /\ (List.length (tasks s') < List.length (tasks s))%nat)
  /\ (toggle_complete json_dumps target s = (Raise e, s') ->
      (e = KeyError /\ s' = s)
      \/ (e = TypeError /\ shown s' = [] /\ save_count s' = S (save_count s))).
Proof.
  assert (Hr : forall s1 s2 e0,
             refresh_task_list s1 = (Raise e0, s2) ->
             e0 = TypeError /\ shown s2 = []
             /\ save_count s2 = save_count s1 /\ tasks s2 = tasks s1).
  { intros s1 s2 e0 E.
    destruct (refresh_task_list_total s1)
      as (r & s3 & E3 & (H1 & _ & _ & _ & _ & H6) & _ & _ & Hr).
    rewrite E in E3. injection E3 as <- <-.
    destruct Hr as [[[= ->] Hs] | [[=] _]]. now repeat split. }
  split; [|split].
  - destruct (string_dec (strip (task_entry s)) "") as [E|N].
    + rewrite (add_task_event_rejected json_dumps clock s E). discriminate.
    + destruct (add_task_event_accepted json_dumps clock s N)
        as (s1 & -> & Ht & _ & _ & _ & Hc).
      intros E. apply Hr in E. destruct E as (-> & Hs & H6 & H1).
      rewrite H6, Hc, H1, Ht, length_app. cbn [List.length].
      repeat split; try assumption. lia.
  - destruct (remove_task_cases target s) as [E|Hlt].
    + rewrite (remove_task_not_found json_dumps target s E). discriminate.
    + destruct (remove_task_found json_dumps target s Hlt)
        as (s1 & -> & Ht & _ & _ & _ & Hc).
      intros E. apply Hr in E. destruct E as (-> & Hs & H6 & H1).
      rewrite H6, Hc, H1, Ht. now repeat split.
  - pose proof (toggle_complete_run json_dumps target s) as H.
    destruct (toggle_loop target (tasks s)) as [[l'|]|e'] eqn:El.
    + destruct H as (s1 & -> & _ & _ & _ & _ & Hc).
      intros E. apply Hr in E. destruct E as (-> & Hs & H6 & _).
      right. rewrite H6, Hc. now repeat split.
    + rewrite H. discriminate.
    + rewrite H. intros [= <- <-]. left.
      split; [now apply toggle_loop_raises in El | reflexivity].
Qed.
End Handlers.

(** ** Further instances *)

Lemma load_save_load_witness :
  exists l s1 s2,
    load_tasks RefJson.loads noon TASKS_FILE
      (start_with (file_of_text stored_text)) = (Ok l, s1)
    /\ save_tasks RefJson.dumps l TASKS_FILE s1 = (Ok tt, s2)
    /\ load_tasks RefJson.loads noon TASKS_FILE s2 = (Ok l, s2).
Proof.
  destruct (load_save_load RefJson.loads RefJson.dumps noon TASKS_FILE
              (start_with (file_of_text stored_text)))
    as (l & s1 & E & H).
  - intros n. reflexivity.
  - assert (El : l = loaded_from noon 0 stored_records).
    { assert (E0 : fst (load_tasks RefJson.loads noon TASKS_FILE
                          (start_with (file_of_text stored_text)))
                   = Ok (loaded_from noon 0 stored_records))
        by (vm_compute; reflexivity).
      rewrite E in E0. now injection E0. }
    destruct H as (s2 & E2 & E3).
    + reflexivity.
    + rewrite El. vm_compute. reflexivity.
    + rewrite El. vm_compute. discriminate.
    + now exists l, s1, s2.
Defined.

Lemma load_tasks_odd_timestamp_witness :
  exists e s1,
    load_tasks RefJson.loads noon TASKS_FILE
      (start_with (file_of_text
         (RefJson.json_text "[{'description': 'a'}, {'timestamp': 5}]")))
    = (Ok [], emit (Printed (ErrUnexpectedLoading e)) s1)
    /\ (e = AttributeError \/ e = TypeError).
Proof.
  eapply (load_tasks_odd_timestamp RefJson.loads noon TASKS_FILE).
  - reflexivity.
  - vm_compute. discriminate.
  - vm_compute. reflexivity.
  - right. left. exists [("timestamp", PInt 5)], (PInt 5).
    split; [reflexivity|]. split; [reflexivity|]. intros t. discriminate.
Defined.

Lemma save_tasks_contained_witness :
  exists s',
    save_tasks RefJson.dumps [task_A] TASKS_FILE (running [task_A] "")
    = (Ok tt, s')
    /\ fs s' TASKS_FILE
       = file_of_text (RefJson.dumps (PList (map PDict [task_A]))).
Proof.
  destruct (save_tasks_contained RefJson.dumps [task_A] TASKS_FILE
              (running [task_A] ""))
    as (s' & E & _ & _ & _ & _ & _ & _ & H).
  exists s'. split; [exact E|]. apply H. reflexivity.
Defined.

Lemma refresh_task_list_draws_all_witness :
  exists r s',
    refresh_task_list (running [task_A; task_D] "") = (r, s')
    /\ trace s' = [].
Proof.
  destruct (refresh_task_list_draws_all (running [task_A; task_D] ""))
    as (r & s' & E & _ & _ & _ & _ & H & _).
  exists r, s'. split; [exact E|]. apply H.
  repeat constructor; eexists; reflexivity.
Defined.

Lemma init_establishes_fields_witness :
  exists r s',
    init RefJson.loads noon (start_with (file_of_text stored_text)) = (r, s')
    /\ Forall fields_present (tasks s')
    /\ save_count s' = 0%nat.
Proof.
  destruct (init_establishes_fields RefJson.loads noon
              (start_with (file_of_text stored_text)))
    as (r & s' & E & H & _ & Hc & _).
  - intros n. reflexivity.
  - now exists r, s'.
Defined.

Lemma on_closing_then_init_witness :
  exists s' r s0',
    on_closing RefJson.dumps (running sample_tasks "") = (Ok tt, s')
    /\ init RefJson.loads noon s' = (r, s0')
    /\ tasks s0' = sample_tasks.
Proof.
  destruct (on_closing_then_init RefJson.loads RefJson.dumps noon
              (running sample_tasks ""))
    as (s' & E & _ & H).
  destruct (H) with (s0 := s') as (r & s0' & E' & Ht).
  - repeat constructor; try discriminate; eexists _, _; split; reflexivity.
  - reflexivity.
  - vm_compute. reflexivity.
  - vm_compute. discriminate.
  - reflexivity.
  - now exists s', r, s0'.
Defined.

Lemma add_task_event_invariants_witness :
  exists s',
    add_task_event RefJson.dumps noon (running [task_A] "  buy milk  ")
    = (Ok tt, s')
    /\ Forall well_typed_task (tasks s')
    /\ shown s' = two_key_order (tasks s').
Proof.
  destruct (add_task_event_invariants RefJson.dumps noon
              (running [task_A] "  buy milk  "))
    as (r & s' & E & _ & H).
  - reflexivity.
  - destruct H as (-> & Hw & Hs).
    + repeat constructor.
      * eexists. split; [reflexivity | vm_compute; discriminate].
      * eexists. reflexivity.
      * eexists _, _. split; reflexivity.
    + exists s'. split; [exact E|]. split; [exact Hw|]. apply Hs.
      vm_compute. discriminate.
Defined.

Lemma toggle_complete_invariants_witness :
  exists s',
    toggle_complete RefJson.dumps twin_2 (running [twin_1; twin_2] "")
    = (Ok tt, s')
    /\ Forall well_typed_task (tasks s').
Proof.
  destruct (toggle_complete_invariants RefJson.dumps twin_2
              (running [twin_1; twin_2] ""))
    as (r & s' & E & _ & H).
  destruct H as (Hw & Hr).
  - repeat constructor;
      first [ eexists; split; [reflexivity | vm_compute; discriminate]
            | eexists; reflexivity
            | eexists _, _; split; reflexivity ].
  - rewrite Hr in E by (split; discriminate). now exists s'.
Defined.

Lemma remove_task_invariants_witness :
  exists s',
    remove_task RefJson.dumps twin_1 (running [twin_1; twin_2] "")
    = (Ok tt, s')
    /\ Forall well_typed_task (tasks s').
Proof.
  destruct (remove_task_invariants RefJson.dumps twin_1
              (running [twin_1; twin_2] ""))
    as (r & s' & E & _ & H).
  destruct H as (-> & Hw).
  - repeat constructor;
      first [ eexists; split; [reflexivity | vm_compute; discriminate]
            | eexists; reflexivity
            | eexists _, _; split; reflexivity ].
  - now exists s'.
Defined.

Lemma toggle_complete_twice_witness :
  exists s1 s2,
    toggle_complete RefJson.dumps twin_2 (running [twin_1; twin_2] "")
    = (Ok tt, s1)
    /\ toggle_complete RefJson.dumps twin_2 s1 = (Ok tt, s2)
    /\ tasks s2 = [twin_1; twin_2].
Proof.
  apply (toggle_complete_twice RefJson.dumps twin_2
           (running [twin_1; twin_2] "")).
  - split; discriminate.
  - repeat constructor;
      first [ eexists; split; [reflexivity | vm_compute; discriminate]
            | eexists; reflexivity
            | eexists _, _; split; reflexivity ].
Defined.

Lemma add_then_remove_witness :
  exists r1 s1 r2 s2,
    add_task_event RefJson.dumps noon (running [task_A] "  buy milk  ")
    = (r1, s1)
    /\ remove_task RefJson.dumps (new_task "buy milk" "2025-06-01 12:00:00") s1
       = (r2, s2)
    /\ tasks s2 = [task_A]
    /\ save_count s2 = 2%nat.
Proof.
  destruct (add_then_remove RefJson.dumps noon (running [task_A] "  buy milk  "))
    as (r1 & s1 & r2 & s2 & E1 & E2 & _ & Hc & H).
  - vm_compute. discriminate.
  - exists r1, s1, r2, s2. split; [exact E1|]. split; [exact E2|].
    split; [|exact Hc]. apply H. repeat constructor.
Defined.

Lemma add_task_event_clears_entry_witness :
  exists r s1,
    add_task_event RefJson.dumps noon (running [task_A] "  buy milk  ")
    = (r, s1)
    /\ task_entry s1 = ""
    /\ add_task_event RefJson.dumps noon s1
       = (Ok tt, emit (Printed MsgEmptyDescription) s1).
Proof.
  apply (add_task_event_clears_entry RefJson.dumps noon
           (running [task_A] "  buy milk  ")).
  vm_compute. discriminate.
Defined.

Lemma toggle_complete_member_witness :
  exists r s' pre x post,
    toggle_complete RefJson.dumps twin_2 (running [twin_1; twin_2] "") = (r, s')
    /\ [twin_1; twin_2] = (pre ++ x :: post)%list
    /\ Forall (fun t => same_identity t twin_2 = false) pre
    /\ same_identity x twin_2 = true
    /\ tasks s' = (pre ++ flipped x :: post)%list
    /\ save_count s' = 1%nat.
Proof.
  apply (toggle_complete_member RefJson.dumps twin_2
           (running [twin_1; twin_2] "")).
  - right. left. reflexivity.
  - repeat constructor; discriminate.
  - reflexivity.
Defined.

Lemma remove_task_member_witness :
  exists r s',
    remove_task RefJson.dumps twin_2 (running [twin_1; twin_2] "") = (r, s')
    /\ ~ In twin_2 (tasks s')
    /\ (List.length (tasks s') < 2)%nat
    /\ save_count s' = 1%nat.
Proof.
  apply (remove_task_member RefJson.dumps twin_2
           (running [twin_1; twin_2] "")).
  - right. left. reflexivity.
  - reflexivity.
Defined.

Lemma toggle_complete_key_error_witness :
  toggle_complete RefJson.dumps [("description", PStr "A")]
                  (running [task_A] "")
  = (Raise KeyError, running [task_A] "").
Proof.
  destruct (toggle_complete_key_error RefJson.dumps [("description", PStr "A")]
              (running [task_A] "")) as [_ H].
  apply (H task_A []); [reflexivity | left; reflexivity].
Defined.

Lemma handlers_failure_witness :
  fst (remove_task RefJson.dumps task_A (running [task_A; task_B; task_D] ""))
  = Raise TypeError
  /\ shown (snd (remove_task RefJson.dumps task_A
                   (running [task_A; task_B; task_D] ""))) = []
  /\ save_count (snd (remove_task RefJson.dumps task_A
                        (running [task_A; task_B; task_D] ""))) = 1%nat.
Proof.
  split; [vm_compute; reflexivity|].
  destruct (handlers_failure RefJson.dumps noon task_A
              (running [task_A; task_B; task_D] "")
              (snd (remove_task RefJson.dumps task_A
                      (running [task_A; task_B; task_D] "")))
              TypeError) as (_ & H & _).
  destruct H as (_ & Hs & Hc & _).
  - vm_compute. reflexivity.
  - split; [exact Hs | exact Hc].
Defined.
